(** * NutriFit planning core: a shallow embedding and its properties

    The development follows the TypeScript sources of the planning core:
    the metrics calculator ([calculators.ts]), the meal-plan engine, the
    workout generator, the shopping-list generator and the progress
    tracking rules.

    Numbers.  The source computes on JavaScript numbers.  The embedding
    takes every finite number as an exact rational ([Q]); decimal
    literals such as [0.225] denote the rational they spell.  Results of
    [Math.round] are integers ([Z]).  Where the source can divide by zero
    the outcome ([Infinity], [-Infinity], [NaN]) is written out with the
    type [num].  Binary rounding error of IEEE doubles is not part of the
    model.

    Layout.  The first part holds the embedding, one module per source
    module, followed by the sample data of the examples; the second part
    holds the lemmas and the theorems, grouped by component.  Record
    fields share one name space here, so a field that several source
    interfaces call [id], [name] or [notes] carries a prefix. *)

From Stdlib Require Import ZArith QArith Qround Qabs Qminmax Lia Lqa.
From Stdlib Require Import List String Ascii Bool Sorted.
Import ListNotations.

Open Scope string_scope.
Open Scope list_scope.
Open Scope Q_scope.

(* ================================================================== *)
(** ** JavaScript numbers *)

Module JsNum.

(** [Math.round]: nearest integer, halves towards [+Infinity]. *)
Definition Math_round (x : Q) : Z := Qfloor (x + (1 # 2)).

Definition Qltb (x y : Q) : bool := negb (Qle_bool y x).

(** A number that may have left the finite range. *)
Inductive num : Type :=
| Fin (q : Q)
| PInf
| NInf
| NaN.

(** [a / b] for finite [a], [b]; the zero divisor is [+0]. *)
Definition jsdiv (a b : Q) : num :=
  if Qeq_bool b 0 then
    (if Qltb 0 a then PInf else if Qltb a 0 then NInf else NaN)
  else Fin (a / b).

(** [Math.round(x * 10) / 10]. *)
Definition round1 (x : num) : num :=
  match x with
  | Fin q => Fin (inject_Z (Math_round (q * 10)) / 10)
  | other => other
  end.

(** [x < c] and [x >= c] against a finite constant; every comparison
    with [NaN] is false. *)
Definition num_ltb (x : num) (c : Q) : bool :=
  match x with
  | Fin q => Qltb q c
  | NInf => true
  | PInf | NaN => false
  end.

Definition num_geb (x : num) (c : Q) : bool :=
  match x with
  | Fin q => Qle_bool c q
  | PInf => true
  | NInf | NaN => false
  end.

(** [Math.abs(a - t) / t > c]: the relative deviation test used by the
    range filters and validators, with the division by [t] written out.
    For [t = 0] the quotient is [Infinity] (or [NaN] when [a = t]); for
    [t < 0] it is never positive. *)
Definition deviation n t := jsdiv (Qabs (n - t)) t.

Definition num_gtb (x : num) (c : Q) : bool :=
  match x with
  | Fin q => Qltb c q
  | PInf => true
  | NInf | NaN => false
  end.

Definition num_leb (x : num) (c : Q) : bool :=
  match x with
  | Fin q => Qle_bool q c
  | NInf => true
  | PInf | NaN => false
  end.

End JsNum.
Import JsNum.

(* ================================================================== *)
(** ** Types (the [@/types] module) *)

Module Types.

Inductive Sex : Type := male | female.

(** The string union ['low' | 'medium' | 'high'], shared by budget
    levels, protein preference, priorities and intensities. *)
Inductive Tier : Type := low | medium | high.

Record UserPreferences : Type := {
  no_oil : bool;
  no_sugar : bool;
  no_fried : bool;
  dislikes : list string;
  likes : list string
}.

Record HealthData : Type := {
  ldl : option Q
}.

Record Equipment : Type := {
  treadmill : bool;
  dumbbells_kg : option Q;
  rope : bool;
  mat : bool;
  resistance_bands : bool
}.

(** [createdAt] is kept as the epoch milliseconds [new Date] reads from
    it. *)
Record User : Type := {
  id : string;
  sex : Sex;
  age : Q;
  height_cm : Q;
  weight_kg : Q;
  goal_weight_kg : Q;
  budget_level : Tier;
  preferences : UserPreferences;
  health : HealthData;
  equipment : Equipment;
  createdAt : Z
}.

(** The fields [min], [max] and [target] of the range. *)
Record KcalRange : Type := {
  kcal_min : Z;
  kcal_max : Z;
  kcal_target : Z
}.

Record Macros : Type := {
  protein_g : Z;
  fat_g : Z;
  carbs_g : Z
}.

Record Metrics : Type := {
  bmi : num;
  bmr_mifflin : Z;
  tdee : Z;
  kcal_range : KcalRange;
  macros : Macros;
  activity_factor : Q
}.

(** [MACRO_RATIOS] *)
Definition PROTEIN_G_PER_KG_min : Q := 1.6.
Definition PROTEIN_G_PER_KG_max : Q := 2.2.
Definition FAT_G_PER_KG_min : Q := 0.6.
Definition FAT_G_PER_KG_max : Q := 0.8.
Definition KCAL_PER_G_protein : Z := 4.
Definition KCAL_PER_G_fat : Z := 9.
Definition KCAL_PER_G_carbs : Z := 4.

End Types.
Import Types.

(* ================================================================== *)
(** ** Metrics calculator ([calculators.ts]) *)

Module Calculators.

Definition calculateBMI (weight_kg height_cm : Q) : num :=
  let height_m := height_cm / 100 in
  round1 (jsdiv weight_kg (height_m * height_m)).

Definition calculateBMR_Mifflin (sex : Sex) (weight_kg height_cm age : Q) : Z :=
  let base := 10 * weight_kg + 6.25 * height_cm - 5 * age in
  let adjustment := match sex with male => 5 | female => -161 end in
  Math_round (base + adjustment).

Definition calculateTDEE (bmr : Z) (activity_factor : Q) : Z :=
  Math_round (inject_Z bmr * activity_factor).

Definition min_safe_kcal (sex : Sex) : Z :=
  match sex with male => 1500%Z | female => 1200%Z end.

Definition deficit_pct (weight_diff : Q) : Q :=
  if Qltb weight_diff (-5) then 0.225
  else if Qltb weight_diff 0 then 0.15
  else if Qltb 5 weight_diff then -0.125
  else if Qltb 0 weight_diff then -0.075
  else 0.

Definition calculateKcalRange (tdee goal_weight_kg current_weight_kg : Q)
           (sex : Sex) : KcalRange :=
  let weight_diff := goal_weight_kg - current_weight_kg in
  let target := Math_round (tdee * (1 - deficit_pct weight_diff)) in
  let safe_target := Z.max target (min_safe_kcal sex) in
  {| kcal_min := Z.max (Math_round (inject_Z safe_target * 0.95)) (min_safe_kcal sex);
     kcal_max := Math_round (inject_Z safe_target * 1.05);
     kcal_target := safe_target |}.

Definition protein_ratio (preference_protein : Tier) : Q :=
  match preference_protein with
  | low => PROTEIN_G_PER_KG_min
  | high => PROTEIN_G_PER_KG_max
  | medium => (PROTEIN_G_PER_KG_min + PROTEIN_G_PER_KG_max) / 2
  end.

Definition calculateMacros (kcal_target goal_weight_kg : Q)
           (preference_protein : Tier) : Macros :=
  let protein_g := Math_round (goal_weight_kg * protein_ratio preference_protein) in
  let fat_g := Math_round (goal_weight_kg * FAT_G_PER_KG_min) in
  let protein_kcal := (protein_g * KCAL_PER_G_protein)%Z in
  let fat_kcal := (fat_g * KCAL_PER_G_fat)%Z in
  let remaining_kcal := kcal_target - inject_Z protein_kcal - inject_Z fat_kcal in
  let carbs_g := Z.max 0 (Math_round (remaining_kcal / inject_Z KCAL_PER_G_carbs)) in
  {| protein_g := protein_g; fat_g := fat_g; carbs_g := carbs_g |}.

(** [calculateMacros] is called without a preference here, so the
    default ['medium'] applies. *)
Definition calculateAllMetrics (user : User) (activity_factor : Q) : Metrics :=
  let bmi := calculateBMI (weight_kg user) (height_cm user) in
  let bmr_mifflin :=
    calculateBMR_Mifflin (sex user) (weight_kg user) (height_cm user) (age user) in
  let tdee := calculateTDEE bmr_mifflin activity_factor in
  let kcal_range :=
    calculateKcalRange (inject_Z tdee) (goal_weight_kg user) (weight_kg user) (sex user) in
  let macros :=
    calculateMacros (inject_Z (Types.kcal_target kcal_range)) (goal_weight_kg user) medium in
  {| bmi := bmi; bmr_mifflin := bmr_mifflin; tdee := tdee;
     kcal_range := kcal_range; macros := macros;
     activity_factor := activity_factor |}.

(** METs by exercise type and intensity. *)
Inductive ExerciseKind : Type := ex_run | ex_hiit | ex_strength | ex_walk.

Definition mets (type : ExerciseKind) (intensity : Tier) : Q :=
  match type, intensity with
  | ex_run, low => 6 | ex_run, medium => 8 | ex_run, high => 10
  | ex_hiit, low => 8 | ex_hiit, medium => 10 | ex_hiit, high => 12
  | ex_strength, low => 3 | ex_strength, medium => 5 | ex_strength, high => 6
  | ex_walk, low => 2.5 | ex_walk, medium => 3.5 | ex_walk, high => 4.5
  end.

Definition calculateExerciseCalories (type : ExerciseKind) (duration_min weight_kg : Q)
           (intensity : Tier) : Z :=
  let met_value := mets type intensity in
  Math_round (met_value * weight_kg * (duration_min / 60)).

End Calculators.
Import Calculators.

(* ================================================================== *)
(** ** Arrays and strings of the host language *)

Module JsArray.

(** [Array.prototype.sort] with a comparator: [a] is placed before [b]
    when [cmp a b < 0]; the sort is stable.  An insertion sort that
    moves an element only past strictly smaller ones. *)
Fixpoint insertBy {A : Type} (cmp : A -> A -> Q) (x : A) (l : list A) : list A :=
  match l with
  | [] => [x]
  | y :: ys => if Qltb (cmp y x) 0 then y :: insertBy cmp x ys else x :: y :: ys
  end.

Fixpoint sortBy {A : Type} (cmp : A -> A -> Q) (l : list A) : list A :=
  match l with
  | [] => []
  | x :: xs => insertBy cmp x (sortBy cmp xs)
  end.

(** [String.prototype.includes] *)
Fixpoint includes (s sub : string) : bool :=
  if String.prefix sub s then true
  else match s with
       | EmptyString => false
       | String _ rest => includes rest sub
       end.

(** [String.prototype.toLowerCase] on the ASCII letters; other
    characters are left as they are. *)
Definition lowerAscii (c : ascii) : ascii :=
  let n := nat_of_ascii c in
  if andb (Nat.leb 65 n) (Nat.leb n 90) then ascii_of_nat (n + 32) else c.

Fixpoint toLowerCase (s : string) : string :=
  match s with
  | EmptyString => EmptyString
  | String c rest => String (lowerAscii c) (toLowerCase rest)
  end.

(** [Array.prototype.includes] on strings *)
Definition includesStr (l : list string) (x : string) : bool :=
  existsb (String.eqb x) l.

Definition sumZ (l : list Z) : Z := fold_right Z.add 0%Z l.

End JsArray.
Import JsArray.

(* ================================================================== *)
(** ** Recipes and meal plans (the [@/types] module, continued) *)

Module MealTypes.

(** Meal slots; recipes are filed under the first four only. *)
Inductive MealType : Type := desayuno | almuerzo | colacion | cena | post_entreno.

Definition MealType_eqb (a b : MealType) : bool :=
  match a, b with
  | desayuno, desayuno | almuerzo, almuerzo | colacion, colacion
  | cena, cena | post_entreno, post_entreno => true
  | _, _ => false
  end.

Inductive RecipeTag : Type :=
| sin_aceite | sin_azucar | budget | alta_prote | batch_cooking | rapida
| social | colesterol_friendly | vegetal | bajo_sodio.

Definition RecipeTag_eqb (a b : RecipeTag) : bool :=
  match a, b with
  | sin_aceite, sin_aceite | sin_azucar, sin_azucar | budget, budget
  | alta_prote, alta_prote | batch_cooking, batch_cooking | rapida, rapida
  | social, social | colesterol_friendly, colesterol_friendly
  | vegetal, vegetal | bajo_sodio, bajo_sodio => true
  | _, _ => false
  end.

Definition hasTag (tags : list RecipeTag) (t : RecipeTag) : bool :=
  existsb (RecipeTag_eqb t) tags.

Record RecipeIngredient : Type := {
  food_id : string;
  grams : Q
}.

Record Nutrition : Type := {
  kcal : Q;
  protein : Q;
  fat : Q;
  carbs : Q;
  fiber : Q
}.

Record Recipe : Type := {
  recipe_ident : string;
  recipe_name : string;
  category : MealType;
  tags : list RecipeTag;
  ingredients : list RecipeIngredient;
  per_portion : Nutrition;
  prep_time_min : Q;
  cooking_time_min : Q;
  cost_estimate : option Q
}.

Record Meal : Type := {
  meal_type : MealType;
  recipe_id : string;
  portions : Q;
  time_scheduled : option string;
  completed : option bool
}.

Record MealPlanDay : Type := {
  plan_id : string;
  plan_user_id : string;
  plan_date : string;
  meals : list Meal;
  totals : Nutrition;
  adherence : option Q;
  plan_notes : string
}.

End MealTypes.
Import MealTypes.

(* ================================================================== *)
(** ** Meal-plan engine *)

Module MealPlanner.

Record DayTemplate : Type := {
  template_id : string;
  template_name : string;
  has_breakfast : bool;
  has_snack : bool;
  has_fasting : bool;
  (** the entries of [kcal_distribution], in the order of [Object.entries] *)
  kcal_distribution : list (MealType * Q)
}.

Record PersonalizationRules : Type := {
  rule_no_oil : bool;
  rule_no_sugar : bool;
  rule_no_fried : bool;
  budget_priority : bool;
  cholesterol_friendly : bool;
  high_protein : bool;
  rule_batch_cooking : bool;
  excluded_ingredients : list string;
  preferred_ingredients : list string;
  max_prep_time : option Q
}.

Definition normal_day : DayTemplate :=
  {| template_id := "normal_day"; template_name := "Día normal";
     has_breakfast := true; has_snack := true; has_fasting := false;
     kcal_distribution :=
       [(desayuno, 0.18); (almuerzo, 0.35); (colacion, 0.15); (cena, 0.27);
        (post_entreno, 0.05)] |}.

Definition fasting_morning : DayTemplate :=
  {| template_id := "fasting_morning"; template_name := "Ayuno mañanero";
     has_breakfast := false; has_snack := true; has_fasting := true;
     kcal_distribution :=
       [(almuerzo, 0.40); (colacion, 0.20); (cena, 0.35); (post_entreno, 0.05)] |}.

Definition simple_3_meals : DayTemplate :=
  {| template_id := "simple_3_meals"; template_name := "Tres comidas simples";
     has_breakfast := true; has_snack := false; has_fasting := false;
     kcal_distribution := [(desayuno, 0.25); (almuerzo, 0.40); (cena, 0.35)] |}.

Definition DAY_TEMPLATES : list DayTemplate :=
  [normal_day; fasting_morning; simple_3_meals].

Definition generatePersonalizationRules (user : User) : PersonalizationRules :=
  {| rule_no_oil := no_oil (preferences user);
     rule_no_sugar := no_sugar (preferences user);
     rule_no_fried := no_fried (preferences user);
     budget_priority := match budget_level user with low => true | _ => false end;
     cholesterol_friendly :=
       match ldl (health user) with
       | Some v => andb (negb (Qeq_bool v 0)) (Qltb 130 v)
       | None => false
       end;
     high_protein := Qltb (goal_weight_kg user) (weight_kg user);
     rule_batch_cooking := includesStr (likes (preferences user)) "batch_cooking";
     excluded_ingredients := dislikes (preferences user);
     preferred_ingredients := likes (preferences user);
     max_prep_time := match budget_level user with low => Some 30 | _ => None end |}.

Definition findTemplate (ident : string) : DayTemplate :=
  match find (fun t => String.eqb (template_id t) ident) DAY_TEMPLATES with
  | Some t => t
  | None => nth 0 DAY_TEMPLATES normal_day
  end.

Definition selectDayTemplate (user : User) (rules : PersonalizationRules) : DayTemplate :=
  if includesStr (likes (preferences user)) "ayuno_intermitente" then
    findTemplate "fasting_morning"
  else if andb (budget_priority rules) (negb (rule_batch_cooking rules)) then
    findTemplate "simple_3_meals"
  else nth 0 DAY_TEMPLATES normal_day.

(** some ingredient of the recipe has a [food_id] that includes one of
    the listed words, lower-cased *)
Definition usesAnyOf (words : list string) (recipe : Recipe) : bool :=
  existsb (fun w =>
             existsb (fun ing => includes (food_id ing) (toLowerCase w))
                     (ingredients recipe))
          words.

Definition passesRules (rules : PersonalizationRules) (cat : option MealType)
           (recipe : Recipe) : bool :=
  if match cat with
     | Some c => negb (MealType_eqb (category recipe) c)
     | None => false
     end then false
  else if andb (rule_no_oil rules) (negb (hasTag (tags recipe) sin_aceite)) then false
  else if andb (rule_no_sugar rules) (negb (hasTag (tags recipe) sin_azucar)) then false
  else if usesAnyOf (excluded_ingredients rules) recipe then false
  else if match max_prep_time rules with
          | Some m => andb (negb (Qeq_bool m 0))
                           (Qltb m (prep_time_min recipe + cooking_time_min recipe))
          | None => false
          end then false
  else true.

Definition filterRecipesByRules (recipes : list Recipe) (rules : PersonalizationRules)
           (cat : option MealType) : list Recipe :=
  filter (passesRules rules cat) recipes.

Definition bonus (cond : bool) (points : Z) : Z := if cond then points else 0%Z.

Definition scoreRecipe (recipe : Recipe) (rules : PersonalizationRules) : Z :=
  (bonus (andb (budget_priority rules) (hasTag (tags recipe) budget)) 3
   + bonus (andb (cholesterol_friendly rules) (hasTag (tags recipe) colesterol_friendly)) 2
   + bonus (andb (high_protein rules) (hasTag (tags recipe) alta_prote)) 2
   + bonus (andb (rule_batch_cooking rules) (hasTag (tags recipe) batch_cooking)) 1
   + bonus (hasTag (tags recipe) rapida) 1
   + bonus (usesAnyOf (preferred_ingredients rules) recipe) 1
   + bonus (andb (budget_priority rules)
                 (match cost_estimate recipe with
                  | Some c => andb (negb (Qeq_bool c 0)) (Qltb 1500 c)
                  | None => false
                  end)) (-2))%Z.

Record Scored : Type := {
  scored_recipe : Recipe;
  score : Z;
  kcalDiff : Q
}.

Definition compareScored (a b : Scored) : Q :=
  if negb (Z.eqb (score a) (score b)) then inject_Z (score b - score a)
  else kcalDiff a - kcalDiff b.

(** [a] is sorted strictly before [b]: a higher score, or the same score
    and a smaller calorie gap. *)
Definition rankedBefore (a b : Scored) : Prop :=
  (score b < score a)%Z \/ (score a = score b /\ kcalDiff a < kcalDiff b).

Definition inCalorieRange (targetKcal tolerance : Q) (recipe : Recipe) : bool :=
  num_leb (deviation (kcal (per_portion recipe)) targetKcal) tolerance.

Definition recipesToScore (availableRecipes : list Recipe) (targetKcal tolerance : Q)
  : list Recipe :=
  let inRangeRecipes := filter (inCalorieRange targetKcal tolerance) availableRecipes in
  match inRangeRecipes with
  | [] => availableRecipes
  | _ :: _ => inRangeRecipes
  end.

Definition toScored (targetKcal : Q) (rules : PersonalizationRules) (recipe : Recipe)
  : Scored :=
  {| scored_recipe := recipe;
     score := scoreRecipe recipe rules;
     kcalDiff := Qabs (kcal (per_portion recipe) - targetKcal) |}.

Definition selectRecipeForCalories (availableRecipes : list Recipe) (targetKcal : Q)
           (rules : PersonalizationRules) (tolerance : Q) : option Recipe :=
  match availableRecipes with
  | [] => None
  | _ :: _ =>
      let scoredRecipes :=
        sortBy compareScored
               (map (toScored targetKcal rules)
                    (recipesToScore availableRecipes targetKcal tolerance)) in
      match scoredRecipes with
      | first :: _ => Some (scored_recipe first)
      | [] => None
      end
  end.

(** [Math.max(0.5, Math.min(maxPortion, targetKcal / baseKcal))], then
    rounded to quarters.  [0 / 0] is [NaN] and stays so. *)
Definition clampPortions (targetKcal baseKcal maxPortion : Q) : num :=
  match jsdiv targetKcal baseKcal with
  | Fin q => Fin (Qmax 0.5 (Qmin maxPortion q))
  | PInf => Fin (Qmax 0.5 maxPortion)
  | NInf => Fin 0.5
  | NaN => NaN
  end.

Definition quarterPortions (targetKcal baseKcal maxPortion : Q) : num :=
  match clampPortions targetKcal baseKcal maxPortion with
  | Fin q => Fin (inject_Z (Math_round (q * 4)) / 4)
  | other => other
  end.

(** The pair returned by [adjustPortionsForCalories].  The plan
    generator calls it with a positive target only, where the portion
    count is finite; the finite value is what the record keeps. *)
Definition adjustPortionsForCalories (recipe : Recipe) (targetKcal maxPortion : Q)
  : Q * Z :=
  let baseKcal := kcal (per_portion recipe) in
  let portions :=
    match quarterPortions targetKcal baseKcal maxPortion with
    | Fin q => q
    | _ => 0
    end in
  (portions, Math_round (baseKcal * portions)).

Definition getScheduledTime (mealType : MealType) : string :=
  match mealType with
  | desayuno => "08:00"
  | almuerzo => "13:00"
  | colacion => "16:00"
  | cena => "20:00"
  | post_entreno => "18:30"
  end.

(** The accumulators of the slot loop in [generateDailyMealPlan]. *)
Record DayAcc : Type := {
  acc_meals : list Meal;
  totalKcal : Z;
  totalProtein : Z;
  totalFat : Z;
  totalCarbs : Z;
  totalFiber : Z
}.

Definition emptyAcc : DayAcc :=
  {| acc_meals := []; totalKcal := 0; totalProtein := 0; totalFat := 0;
     totalCarbs := 0; totalFiber := 0 |}.

(** One iteration of the loop over the template's slots. *)
Definition slotStep (recipes : list Recipe) (rules : PersonalizationRules)
           (targetKcal : Z) (acc : DayAcc) (entry : MealType * Q) : DayAcc :=
  let (mealType, kcalPct) := entry in
  let mealTargetKcal := Math_round (inject_Z targetKcal * kcalPct) in
  let categoryForFilter :=
    match mealType with post_entreno => colacion | other => other end in
  let availableRecipes := filterRecipesByRules recipes rules (Some categoryForFilter) in
  match selectRecipeForCalories availableRecipes (inject_Z mealTargetKcal) rules 0.15 with
  | None => acc
  | Some selectedRecipe =>
      let (portions, adjustedKcal) :=
        adjustPortionsForCalories selectedRecipe (inject_Z mealTargetKcal) 2.0 in
      let np := per_portion selectedRecipe in
      {| acc_meals :=
           acc_meals acc ++
             [{| meal_type := mealType;
                 recipe_id := recipe_ident selectedRecipe;
                 portions := portions;
                 time_scheduled := Some (getScheduledTime mealType);
                 completed := Some false |}];
         totalKcal := totalKcal acc + adjustedKcal;
         totalProtein := totalProtein acc + Math_round (protein np * portions);
         totalFat := totalFat acc + Math_round (fat np * portions);
         totalCarbs := totalCarbs acc + Math_round (carbs np * portions);
         totalFiber := totalFiber acc + Math_round (fiber np * portions) |}%Z
  end.

(** [generateDailyMealPlan]; [None] is the [null] result.  No step of
    the body throws on records of these types, so the handler of the
    enclosing [try] is not reached. *)
Definition generateDailyMealPlan (user : User) (recipes : list Recipe) (date : string)
           (activityFactor : Q) : option MealPlanDay :=
  let metrics := calculateAllMetrics user activityFactor in
  let rules := generatePersonalizationRules user in
  let template := selectDayTemplate user rules in
  let targetKcal := kcal_target (kcal_range metrics) in
  let acc :=
    fold_left (slotStep recipes rules targetKcal) (kcal_distribution template) emptyAcc in
  match acc_meals acc with
  | [] => None
  | _ :: _ =>
      Some {| plan_id := id user ++ "_" ++ date;
              plan_user_id := id user;
              plan_date := date;
              meals := acc_meals acc;
              totals := {| kcal := inject_Z (totalKcal acc);
                           protein := inject_Z (totalProtein acc);
                           fat := inject_Z (totalFat acc);
                           carbs := inject_Z (totalCarbs acc);
                           fiber := inject_Z (totalFiber acc) |};
              adherence := Some 0;
              plan_notes := "Plan generado con plantilla: " ++ template_name template |}
  end.



(** *** Reference description of a generated day

    What a complete day is, told slot by slot and without accumulators:
    the pick of a slot, the meal it becomes and the totals as sums over
    the picks.  [generateDailyMealPlan] is compared with it below. *)

Record Pick : Type := {
  pick_slot : MealType;
  pick_recipe : Recipe;
  pick_target : Z
}.

Definition slotCategory (mealType : MealType) : MealType :=
  match mealType with post_entreno => colacion | other => other end.

Definition slotTarget (targetKcal : Z) (kcalPct : Q) : Z :=
  Math_round (inject_Z targetKcal * kcalPct).

Definition spec_slotPick (recipes : list Recipe) (rules : PersonalizationRules)
           (targetKcal : Z) (entry : MealType * Q) : option Pick :=
  let candidates := filterRecipesByRules recipes rules (Some (slotCategory (fst entry))) in
  let slotKcal := slotTarget targetKcal (snd entry) in
  match selectRecipeForCalories candidates (inject_Z slotKcal) rules 0.15 with
  | Some r => Some {| pick_slot := fst entry; pick_recipe := r; pick_target := slotKcal |}
  | None => None
  end.

Fixpoint spec_dayPicks (recipes : list Recipe) (rules : PersonalizationRules)
         (targetKcal : Z) (slots : list (MealType * Q)) : list Pick :=
  match slots with
  | [] => []
  | entry :: rest =>
      match spec_slotPick recipes rules targetKcal entry with
      | Some p => p :: spec_dayPicks recipes rules targetKcal rest
      | None => spec_dayPicks recipes rules targetKcal rest
      end
  end.

Definition pickPortions (p : Pick) : Q :=
  fst (adjustPortionsForCalories (pick_recipe p) (inject_Z (pick_target p)) 2.0).

Definition pickKcal (p : Pick) : Z :=
  snd (adjustPortionsForCalories (pick_recipe p) (inject_Z (pick_target p)) 2.0).

Definition spec_mealOfPick (p : Pick) : Meal :=
  {| meal_type := pick_slot p;
     recipe_id := recipe_ident (pick_recipe p);
     portions := pickPortions p;
     time_scheduled := Some (getScheduledTime (pick_slot p));
     completed := Some false |}.

(** rounded grams of one macro contributed by a pick *)
Definition pickGrams (macro : Nutrition -> Q) (p : Pick) : Z :=
  Math_round (macro (per_portion (pick_recipe p)) * pickPortions p).

Definition spec_totals (picks : list Pick) : Nutrition :=
  {| kcal := inject_Z (sumZ (map pickKcal picks));
     protein := inject_Z (sumZ (map (pickGrams protein) picks));
     fat := inject_Z (sumZ (map (pickGrams fat) picks));
     carbs := inject_Z (sumZ (map (pickGrams carbs) picks));
     fiber := inject_Z (sumZ (map (pickGrams fiber) picks)) |}.

(** the accumulators after one more pick *)
Definition addPick (acc : DayAcc) (p : Pick) : DayAcc :=
  {| acc_meals := acc_meals acc ++ [spec_mealOfPick p];
     totalKcal := totalKcal acc + pickKcal p;
     totalProtein := totalProtein acc + pickGrams protein p;
     totalFat := totalFat acc + pickGrams fat p;
     totalCarbs := totalCarbs acc + pickGrams carbs p;
     totalFiber := totalFiber acc + pickGrams fiber p |}%Z.

(** a recipe with another calorie count and everything else unchanged *)
Definition setKcal (recipe : Recipe) (k : Q) : Recipe :=
  {| recipe_ident := recipe_ident recipe; recipe_name := recipe_name recipe;
     category := category recipe; tags := tags recipe;
     ingredients := ingredients recipe;
     per_portion := {| kcal := k;
                       protein := protein (per_portion recipe);
                       fat := fat (per_portion recipe);
                       carbs := carbs (per_portion recipe);
                       fiber := fiber (per_portion recipe) |};
     prep_time_min := prep_time_min recipe;
     cooking_time_min := cooking_time_min recipe;
     cost_estimate := cost_estimate recipe |}.

End MealPlanner.
Import MealPlanner.

(* ================================================================== *)
(** ** Exceptions and identifier lookup of the host language *)

Module JsControl.

Inductive JsError : Type :=
| ReferenceError (name : string)
| TypeError (what : string).

(** The outcome of evaluating code that may throw. *)
Inductive result (A : Type) : Type :=
| Ok (a : A)
| Throw (e : JsError).

Arguments Ok {A} a.
Arguments Throw {A} e.

Definition bind {A B : Type} (m : result A) (k : A -> result B) : result B :=
  match m with
  | Ok a => k a
  | Throw e => Throw e
  end.

Notation "x <- m ;; k" := (bind m (fun x => k))
  (at level 61, m at next level, right associativity).

(** [Array.prototype.map] with a callback that may throw: elements are
    visited from the left and the first exception ends the loop. *)
Fixpoint mapM {A B : Type} (f : A -> result B) (l : list A) : result (list B) :=
  match l with
  | [] => Ok []
  | x :: xs => y <- f x ;; ys <- mapM f xs ;; Ok (y :: ys)
  end.

(** [try { body } catch { return null }] *)
Definition tryOrNull {A : Type} (body : result (option A)) : option A :=
  match body with
  | Ok v => v
  | Throw _ => None
  end.

(** What an identifier is bound to: a [User] object, or anything else
    (a function, a constant, a parameter of another type). *)
Inductive Binding : Type :=
| BUser (u : User)
| BOther.

(** A scope chain, innermost binding first. *)
Definition Scope : Type := list (string * Binding).

Fixpoint resolve (name : string) (scope : Scope) : result Binding :=
  match scope with
  | [] => Throw (ReferenceError name)
  | (n, b) :: outer => if String.eqb n name then Ok b else resolve name outer
  end.

Definition declare (names : list string) : Scope :=
  map (fun n => (n, BOther)) names.

(** [+], with [NaN] and the infinities written out. *)
Definition num_add (a b : num) : num :=
  match a, b with
  | NaN, _ | _, NaN => NaN
  | PInf, NInf | NInf, PInf => NaN
  | PInf, _ | _, PInf => PInf
  | NInf, _ | _, NInf => NInf
  | Fin x, Fin y => Fin (x + y)
  end.

End JsControl.
Import JsControl.

(* ================================================================== *)
(** ** Workouts (the [@/types] module, continued) *)

Module WorkoutTypes.

(** An ISO date string with the epoch milliseconds [new Date] reads
    from it. *)
Record IsoDate : Type := {
  iso : string;
  epoch_ms : Z
}.

Definition msPerDay : Z := 1000 * 60 * 60 * 24.

Inductive BlockType : Type := b_run | b_hiit | b_strength | b_warmup | b_cooldown.

Inductive RunType : Type := continuous | intervals.

(** [reps: number | 'AMRAP' | 'time'] *)
Inductive Reps : Type :=
| RepsCount (n : Q)
| AMRAP
| RepsTime.

Record StrengthExercise : Type := {
  exercise_name : string;
  sets : Q;
  reps : Reps;
  lifted_kg : option Q;
  duration_sec : option Q;
  rest_sec : Q
}.

(** [RunDetails | HIITDetails | StrengthDetails | BasicDetails] *)
Inductive Details : Type :=
| DRun (distance_km : option Q) (speed_kmh : Q) (incline : option Q) (type : RunType)
| DHIIT (work_sec rest_sec rounds : Q) (exercises : list string)
| DStrength (exercises : list StrengthExercise)
| DBasic (description : string) (intensity : option Tier).

(** A template block: a [WorkoutBlock] without its [kcal_estimate]. *)
Record TemplateBlock : Type := {
  block_type : BlockType;
  block_name : string;
  details : Details;
  duration_min : Q
}.

Record WorkoutBlock : Type := {
  block : TemplateBlock;
  kcal_estimate : num
}.

Inductive FitnessLevel : Type := beginner | intermediate | advanced.

Inductive WorkoutNotes : Type :=
| GeneratedFor (level : FitnessLevel) (sessionNumber : Z)
| FreeText (text : string).

Record WorkoutPlanDay : Type := {
  workout_id : string;
  workout_user_id : string;
  workout_date : string;
  blocks : list WorkoutBlock;
  workout_duration_min : Q;
  workout_kcal_estimate : num;
  workout_completed : option bool;
  rpe : option Q;
  workout_notes : WorkoutNotes
}.

Record PersonalRecords : Type := {
  pushups_max : Q;
  abs_max : Q;
  plank_sec : Q;
  run_speed_kmh : Q;
  run_duration_min : Q
}.

End WorkoutTypes.
Import WorkoutTypes.

(* ================================================================== *)
(** ** Workout generator *)

Module Workouts.

Inductive TemplateType : Type := t_run | t_hiit | t_strength | t_mixed.

Inductive EquipmentKey : Type :=
| k_treadmill | k_dumbbells_kg | k_rope | k_mat | k_resistance_bands.

Definition FitnessLevel_eqb (a b : FitnessLevel) : bool :=
  match a, b with
  | beginner, beginner | intermediate, intermediate | advanced, advanced => true
  | _, _ => false
  end.

Record WorkoutTemplate : Type := {
  wt_id : string;
  wt_name : string;
  wt_type : TemplateType;
  wt_duration_min : Q;
  required_equipment : list EquipmentKey;
  fitness_level : list FitnessLevel;
  wt_blocks : list TemplateBlock
}.

Definition basicBlock (type : BlockType) (name description : string) (minutes : Q)
  : TemplateBlock :=
  {| block_type := type; block_name := name;
     details := DBasic description (Some low); duration_min := minutes |}.

Definition runBlock (name : string) (speed : Q) (type : RunType) (minutes : Q)
  : TemplateBlock :=
  {| block_type := b_run; block_name := name;
     details := DRun None speed None type; duration_min := minutes |}.

Definition exercise (name : string) (sets : Q) (reps : Reps) (duration : option Q)
           (rest : Q) : StrengthExercise :=
  {| exercise_name := name; sets := sets; reps := reps; lifted_kg := None;
     duration_sec := duration; rest_sec := rest |}.

Definition hiit_short : WorkoutTemplate :=
  {| wt_id := "hiit_short"; wt_name := "HIIT corto (20-25 min)"; wt_type := t_hiit;
     wt_duration_min := 23; required_equipment := [k_treadmill];
     fitness_level := [beginner; intermediate; advanced];
     wt_blocks :=
       [basicBlock b_warmup "Calentamiento" "Caminar 5 minutos a ritmo moderado" 5;
        runBlock "Base aeróbica" 6 continuous 10;
        {| block_type := b_hiit; block_name := "Intervalos HIIT";
           details := DHIIT 60 240 2 ["Correr 12 km/h"]; duration_min := 8 |}] |}.

Definition run_continuous : WorkoutTemplate :=
  {| wt_id := "run_continuous"; wt_name := "Cardio continuo (30-40 min)";
     wt_type := t_run; wt_duration_min := 35; required_equipment := [k_treadmill];
     fitness_level := [intermediate; advanced];
     wt_blocks :=
       [basicBlock b_warmup "Calentamiento" "Caminar 5 minutos a ritmo lento" 5;
        runBlock "Carrera continua" 8 continuous 25;
        basicBlock b_cooldown "Enfriamiento" "Caminar y estirar 5 minutos" 5] |}.

Definition strength_bodyweight : WorkoutTemplate :=
  {| wt_id := "strength_bodyweight"; wt_name := "Fuerza casa (20-25 min)";
     wt_type := t_strength; wt_duration_min := 23; required_equipment := [k_mat];
     fitness_level := [beginner; intermediate; advanced];
     wt_blocks :=
       [basicBlock b_warmup "Calentamiento dinámico" "Movilidad articular y activación" 3;
        {| block_type := b_strength; block_name := "Circuito principal";
           details :=
             DStrength [exercise "Flexiones" 3 AMRAP None 90;
                        exercise "Abdominales" 3 (RepsCount 30) None 60;
                        exercise "Plancha" 3 RepsTime (Some 45) 60];
           duration_min := 15 |};
        runBlock "Cuerda (cardio)" 0 intervals 5] |}.

Definition strength_dumbbells : WorkoutTemplate :=
  {| wt_id := "strength_dumbbells"; wt_name := "Fuerza con mancuernas";
     wt_type := t_mixed; wt_duration_min := 25;
     required_equipment := [k_dumbbells_kg; k_treadmill];
     fitness_level := [intermediate; advanced];
     wt_blocks :=
       [basicBlock b_warmup "Calentamiento" "Movilidad con peso corporal" 5;
        {| block_type := b_strength; block_name := "Shadow boxing";
           details :=
             DStrength [exercise "Shadow boxing con mancuernas" 3 RepsTime (Some 120) 60];
           duration_min := 10 |};
        runBlock "Farmer walk en trotadora" 5 continuous 10] |}.

Definition beginner_basic : WorkoutTemplate :=
  {| wt_id := "beginner_basic"; wt_name := "Rutina básica principiante";
     wt_type := t_mixed; wt_duration_min := 20; required_equipment := [k_mat];
     fitness_level := [beginner];
     wt_blocks :=
       [basicBlock b_warmup "Calentamiento suave"
                   "Caminar en el lugar y estiramientos suaves" 5;
        {| block_type := b_strength; block_name := "Ejercicios básicos";
           details :=
             DStrength [exercise "Flexiones (modificadas si es necesario)" 2
                                 (RepsCount 10) None 90;
                        exercise "Sentadillas" 2 (RepsCount 15) None 60;
                        exercise "Plancha" 2 RepsTime (Some 20) 60];
           duration_min := 12 |};
        basicBlock b_cooldown "Relajación" "Estiramientos y respiración" 3] |}.

Definition WORKOUT_TEMPLATES : list WorkoutTemplate :=
  [hiit_short; run_continuous; strength_bodyweight; strength_dumbbells; beginner_basic].

Definition points (first second : bool) : Z :=
  if first then 2%Z else if second then 1%Z else 0%Z.

Definition evaluateFitnessLevel (personalRecords : PersonalRecords) (user : User)
  : FitnessLevel :=
  let isMan := match sex user with male => true | female => false end in
  let score :=
    ((if isMan
      then points (Qle_bool 30 (pushups_max personalRecords))
                  (Qle_bool 15 (pushups_max personalRecords))
      else points (Qle_bool 20 (pushups_max personalRecords))
                  (Qle_bool 10 (pushups_max personalRecords)))
     + points (Qle_bool 90 (plank_sec personalRecords))
              (Qle_bool 45 (plank_sec personalRecords))
     + points (Qle_bool 10 (run_speed_kmh personalRecords))
              (Qle_bool 7 (run_speed_kmh personalRecords))
     + points (Qle_bool 30 (run_duration_min personalRecords))
              (Qle_bool 15 (run_duration_min personalRecords)))%Z in
  if (6 <=? score)%Z then advanced
  else if (3 <=? score)%Z then intermediate
  else beginner.

Definition hasEquipment (equipment : Equipment) (reqEquip : EquipmentKey) : bool :=
  match reqEquip with
  | k_treadmill => treadmill equipment
  | k_dumbbells_kg =>
      match dumbbells_kg equipment with
      | Some kg => andb (negb (Qeq_bool kg 0)) (Qltb 0 kg)
      | None => false
      end
  | k_rope => rope equipment
  | k_mat => mat equipment
  | k_resistance_bands => resistance_bands equipment
  end.

Definition filterWorkoutsByEquipment (templates : list WorkoutTemplate)
           (equipment : Equipment) : list WorkoutTemplate :=
  filter (fun template => forallb (hasEquipment equipment) (required_equipment template))
         templates.

Definition intensityMultiplier (fitnessLevel : FitnessLevel) : Q :=
  match fitnessLevel with
  | beginner => 0.8
  | intermediate => 1.0
  | advanced => 1.2
  end.

Definition nameHas (ex : StrengthExercise) (word : string) : bool :=
  includes (toLowerCase (exercise_name ex)) word.

Definition setReps (ex : StrengthExercise) (r : Reps) : StrengthExercise :=
  {| exercise_name := exercise_name ex; sets := sets ex; reps := r;
     lifted_kg := lifted_kg ex; duration_sec := duration_sec ex;
     rest_sec := rest_sec ex |}.

Definition setDuration (ex : StrengthExercise) (d : option Q) : StrengthExercise :=
  {| exercise_name := exercise_name ex; sets := sets ex; reps := reps ex;
     lifted_kg := lifted_kg ex; duration_sec := d; rest_sec := rest_sec ex |}.

(** The callback applied to every exercise of a strength block; [mult]
    is the [intensityMultiplier] of the enclosing block callback. *)
Definition progressExercise (personalRecords : PersonalRecords) (mult : Q)
           (exercise : StrengthExercise) : StrengthExercise :=
  let e1 :=
    if nameHas exercise "flexion" then
      let baseReps := pushups_max personalRecords * 0.7 in
      match reps exercise with
      | RepsCount _ =>
          setReps exercise (RepsCount (inject_Z (Z.max 5 (Math_round (baseReps * mult)))))
      | _ => exercise
      end
    else exercise in
  let e2 :=
    if nameHas exercise "plancha" then
      let baseTime := plank_sec personalRecords * 0.8 in
      match duration_sec e1 with
      | Some d =>
          if Qeq_bool d 0 then e1
          else setDuration e1 (Some (inject_Z (Z.max 15 (Math_round (baseTime * mult)))))
      | None => e1
      end
    else e1 in
  if nameHas exercise "abdominal" then
    let baseReps := abs_max personalRecords * 0.7 in
    match reps e2 with
    | RepsCount _ =>
        setReps e2 (RepsCount (inject_Z (Z.max 10 (Math_round (baseReps * mult)))))
    | _ => e2
    end
  else e2.

(** The part of the block callback of [progressWorkout] that rewrites
    [progressedBlock.details].  [sessionMultiplier] is computed, as in
    the source, and then not referred to.  A strength block that
    carries interval details has strings for exercises, and reading
    [exercise.name.toLowerCase] of a string throws. *)
Definition progressDetails (personalRecords : PersonalRecords)
           (fitnessLevel : FitnessLevel) (sessionNumber : Z) (blk : TemplateBlock)
  : result Details :=
  let mult := intensityMultiplier fitnessLevel in
  let sessionMultiplier := 1 + (inject_Z sessionNumber - 1) * 0.05 in
  match block_type blk, details blk with
  | b_strength, DStrength exercises =>
      Ok (DStrength (map (progressExercise personalRecords mult) exercises))
  | b_strength, DHIIT work rest rounds [] => Ok (DHIIT work rest rounds [])
  | b_strength, DHIIT _ _ _ (_ :: _) =>
      Throw (TypeError "Cannot read properties of undefined (reading 'toLowerCase')")
  | b_run, DRun distance speed incline type =>
      Ok (DRun distance (Qmax 5 (speed * mult)) incline type)
  | b_hiit, DHIIT work rest rounds exercises =>
      Ok (DHIIT (inject_Z (Math_round (work * mult)))
                (inject_Z (Math_round (rest / mult))) rounds exercises)
  | _, unchanged => Ok unchanged
  end.

Definition exerciseKind (type : BlockType) : ExerciseKind :=
  match type with
  | b_strength => ex_strength
  | b_hiit => ex_hiit
  | b_run => ex_run
  | _ => ex_walk
  end.

Definition intensityBand (mult : Q) : Tier :=
  if Qltb 1 mult then high else if Qltb mult 1 then low else medium.

(** The identifiers of the module: the value import, the constant and
    the functions it declares.  Type-only imports leave no binding. *)
Definition moduleScope : Scope :=
  declare ["calculateExerciseCalories"; "WORKOUT_TEMPLATES"; "evaluateFitnessLevel";
           "filterWorkoutsByEquipment"; "progressWorkout"; "selectBestWorkout";
           "generateWorkoutPlan"; "generateWeeklyWorkoutPlan"; "suggestProgression";
           "calculateWeeklyVolume"].

(** The globals the module refers to. *)
Definition globalScope : Scope := declare ["Math"; "Date"; "console"; "Infinity"].

(** The scope chain at the calorie estimate inside the block callback of
    [progressWorkout]: the callback's own bindings, the parameters of
    [progressWorkout], the module, the globals. *)
Definition progressWorkout_scope : Scope :=
  declare ["block"; "progressedBlock"; "intensityMultiplier"; "sessionMultiplier";
           "kcalEstimate"]
  ++ declare ["template"; "personalRecords"; "fitnessLevel"; "sessionNumber"]
  ++ moduleScope ++ globalScope.

(** [user.weight_kg]: the identifier is resolved first; reading the
    property of a value that is not a [User] gives [undefined]. *)
Definition read_user_weight_kg (scope : Scope) : result (option Q) :=
  b <- resolve "user" scope ;;
  match b with
  | BUser u => Ok (Some (weight_kg u))
  | BOther => Ok None
  end.

(** [calculateExerciseCalories] applied to a weight that may be
    [undefined]: the product is then [NaN]. *)
Definition estimateCalories (type : ExerciseKind) (minutes : Q) (weight : option Q)
           (intensity : Tier) : num :=
  match weight with
  | Some w => Fin (inject_Z (calculateExerciseCalories type minutes w intensity))
  | None => NaN
  end.

Definition progressBlock (personalRecords : PersonalRecords)
           (fitnessLevel : FitnessLevel) (sessionNumber : Z) (blk : TemplateBlock)
  : result WorkoutBlock :=
  newDetails <- progressDetails personalRecords fitnessLevel sessionNumber blk ;;
  weight <- read_user_weight_kg progressWorkout_scope ;;
  let kcalEstimate :=
    estimateCalories (exerciseKind (block_type blk)) (duration_min blk) weight
                     (intensityBand (intensityMultiplier fitnessLevel)) in
  Ok {| block := {| block_type := block_type blk; block_name := block_name blk;
                    details := newDetails; duration_min := duration_min blk |};
        kcal_estimate := kcalEstimate |}.

Definition progressWorkout (template : WorkoutTemplate)
           (personalRecords : PersonalRecords) (fitnessLevel : FitnessLevel)
           (sessionNumber : Z) : result (list WorkoutBlock) :=
  mapM (progressBlock personalRecords fitnessLevel sessionNumber) (wt_blocks template).

Inductive PreferredType : Type := p_cardio | p_strength | p_mixed.

Record WorkoutPreferences : Type := {
  preferred_duration : option Q;
  preferred_type : option PreferredType;
  avoid_high_impact : option bool
}.

Definition noWorkoutPreferences : WorkoutPreferences :=
  {| preferred_duration := None; preferred_type := None; avoid_high_impact := None |}.

Definition matchesPreferredType (p : PreferredType) (t : TemplateType) : bool :=
  match p, t with
  | p_cardio, t_run | p_cardio, t_hiit => true
  | p_strength, t_strength => true
  | p_mixed, t_mixed => true
  | _, _ => false
  end.

Definition scoreTemplate (prefs : WorkoutPreferences) (template : WorkoutTemplate) : Q :=
  (match preferred_duration prefs with
   | Some d =>
       if Qeq_bool d 0 then 0
       else Qmax 0 (10 - Qabs (wt_duration_min template - d) / 5)
   | None => 0
   end)
  + (match preferred_type prefs with
     | Some p => if matchesPreferredType p (wt_type template) then 5 else 0
     | None => 0
     end)
  + (match avoid_high_impact prefs, wt_type template with
     | Some true, t_hiit | Some true, t_run => -3
     | _, _ => 0
     end).

Definition selectBestWorkout (availableTemplates : list WorkoutTemplate)
           (fitnessLevel : FitnessLevel) (prefs : WorkoutPreferences)
  : option WorkoutTemplate :=
  match availableTemplates with
  | [] => None
  | first :: _ =>
      let levelAppropriate :=
        filter (fun template =>
                  existsb (FitnessLevel_eqb fitnessLevel) (fitness_level template))
               availableTemplates in
      match levelAppropriate with
      | [] => Some first
      | _ :: _ =>
          let scored := map (fun t => (t, scoreTemplate prefs t)) levelAppropriate in
          match sortBy (fun a b => snd b - snd a) scored with
          | best :: _ => Some (fst best)
          | [] => None
          end
      end
  end.

(** The body of the [try] in [generateWorkoutPlan]. *)
Definition generateWorkoutPlan_body (user : User) (personalRecords : PersonalRecords)
           (date : IsoDate) (prefs : option WorkoutPreferences)
  : result (option WorkoutPlanDay) :=
  let fitnessLevel := evaluateFitnessLevel personalRecords user in
  let availableTemplates := filterWorkoutsByEquipment WORKOUT_TEMPLATES (equipment user) in
  match availableTemplates with
  | [] => Ok None
  | _ :: _ =>
      match selectBestWorkout availableTemplates fitnessLevel
                              (match prefs with Some p => p | None => noWorkoutPreferences end)
      with
      | None => Ok None
      | Some selectedTemplate =>
          let daysDiff := ((epoch_ms date - createdAt user) / msPerDay)%Z in
          let sessionNumber := (daysDiff / 2 + 1)%Z in
          progressedBlocks <-
            progressWorkout selectedTemplate personalRecords fitnessLevel sessionNumber ;;
          let totalKcalEstimate :=
            fold_left (fun sum blk => num_add sum (kcal_estimate blk)) progressedBlocks
                      (Fin 0) in
          Ok (Some {| workout_id := id user ++ "_workout_" ++ iso date;
                      workout_user_id := id user;
                      workout_date := iso date;
                      blocks := progressedBlocks;
                      workout_duration_min := wt_duration_min selectedTemplate;
                      workout_kcal_estimate := totalKcalEstimate;
                      workout_completed := Some false;
                      rpe := None;
                      workout_notes := GeneratedFor fitnessLevel sessionNumber |})
      end
  end.

Definition generateWorkoutPlan (user : User) (personalRecords : PersonalRecords)
           (date : IsoDate) (prefs : option WorkoutPreferences) : option WorkoutPlanDay :=
  tryOrNull (generateWorkoutPlan_body user personalRecords date prefs).

End Workouts.
Import Workouts.

(* ================================================================== *)
(** ** Shopping-list generator *)

Module Shopping.

Record FoodItem : Type := {
  item_id : string;
  item_name : string;
  cost_per_kg : option Q;
  seasonal_months : option (list Z)
}.

Inductive StoreKey : Type := supermarket | market | baes.

Definition StoreKey_eqb (a b : StoreKey) : bool :=
  match a, b with
  | supermarket, supermarket | market, market | baes, baes => true
  | _, _ => false
  end.

Inductive StoreMode : Type :=
| mode_mixed
| mode_store (store : StoreKey).

Record ShoppingItem : Type := {
  si_food_id : string;
  grams_total : Q;
  store_hint : StoreKey;
  si_priority : Tier;
  si_cost_estimate : Z;
  purchased : bool
}.

Record ShoppingList : Type := {
  list_id : string;
  list_user_id : string;
  week_start : string;
  items : list ShoppingItem;
  total_cost_estimate : Z;
  store_mode : StoreMode
}.

Record StoreConfig : Type := {
  store_name : string;
  baes_discount : Q;
  seasonal_discount : Q;
  bulk_discount_threshold : Q;
  bulk_discount_pct : Q;
  delivery_cost : option Z
}.

Definition STORE_CONFIGS (store : StoreKey) : StoreConfig :=
  match store with
  | supermarket =>
      {| store_name := "Supermercado"; baes_discount := 0; seasonal_discount := 5;
         bulk_discount_threshold := 2000; bulk_discount_pct := 8;
         delivery_cost := Some 2000%Z |}
  | market =>
      {| store_name := "Feria/Mercado"; baes_discount := 15; seasonal_discount := 20;
         bulk_discount_threshold := 1000; bulk_discount_pct := 12;
         delivery_cost := Some 0%Z |}
  | baes =>
      {| store_name := "Almacén BAES"; baes_discount := 25; seasonal_discount := 10;
         bulk_discount_threshold := 500; bulk_discount_pct := 15;
         delivery_cost := Some 0%Z |}
  end.

Record ConsolidatedIngredient : Type := {
  ci_food_id : string;
  total_grams : Q;
  used_in_recipes : list string;
  priority : Tier
}.

Definition determineIngredientPriority (foodId : string) (totalGrams : Q) : Tier :=
  let highPriorityFoods :=
    ["chicken_breast"; "ground_beef_lean"; "white_fish"; "eggs"; "protein_powder"] in
  let mediumPriorityFoods :=
    ["mushrooms"; "onion"; "zucchini"; "green_beans"; "cucumber"] in
  if includesStr highPriorityFoods foodId then high
  else if andb (includesStr mediumPriorityFoods foodId) (Qle_bool 500 totalGrams)
       then medium
  else low.

(** The [Map] of [consolidateIngredients], as its values in insertion
    order; an entry that exists is updated in place. *)
Fixpoint addIngredient (foodId : string) (totalGrams : Q) (recipeId : string)
         (entries : list ConsolidatedIngredient) : list ConsolidatedIngredient :=
  match entries with
  | [] =>
      [{| ci_food_id := foodId; total_grams := totalGrams;
          used_in_recipes := [recipeId];
          priority := determineIngredientPriority foodId totalGrams |}]
  | existing :: others =>
      if String.eqb (ci_food_id existing) foodId then
        {| ci_food_id := ci_food_id existing;
           total_grams := total_grams existing + totalGrams;
           used_in_recipes :=
             if includesStr (used_in_recipes existing) recipeId
             then used_in_recipes existing
             else used_in_recipes existing ++ [recipeId];
           priority := priority existing |} :: others
      else existing :: addIngredient foodId totalGrams recipeId others
  end.

Definition addMeal (recipes : list Recipe) (entries : list ConsolidatedIngredient)
           (meal : Meal) : list ConsolidatedIngredient :=
  match find (fun r => String.eqb (recipe_ident r) (recipe_id meal)) recipes with
  | None => entries
  | Some recipe =>
      fold_left (fun acc ingredient =>
                   addIngredient (food_id ingredient) (grams ingredient * portions meal)
                                 (recipe_ident recipe) acc)
                (ingredients recipe) entries
  end.

Definition consolidateIngredients (mealPlans : list MealPlanDay) (recipes : list Recipe)
  : list ConsolidatedIngredient :=
  fold_left (fun acc plan => fold_left (addMeal recipes) (meals plan) acc) mealPlans [].

Inductive Discount : Type :=
| BAES (pct : Q)
| Temporada (pct : Q)
| Volumen (pct : Q).

Record Pricing : Type := {
  original_price : Z;
  final_price : Z;
  applied_discounts : list Discount
}.

Definition inSeason (foodItem : FoodItem) (currentMonth : Z) : bool :=
  match seasonal_months foodItem with
  | Some months => existsb (Z.eqb currentMonth) months
  | None => false
  end.

Definition isLowBudget (user : User) : bool :=
  match budget_level user with low => true | _ => false end.

Definition calculateDiscountedPrice (basePrice : Q) (foodItem : FoodItem) (grams : Q)
           (storeConfig : StoreConfig) (user : User) (currentMonth : Z) : Pricing :=
  let original_price := Math_round ((basePrice / 1000) * grams) in
  let p0 := inject_Z original_price in
  let d1 := andb (isLowBudget user) (Qltb 0 (baes_discount storeConfig)) in
  let p1 := if d1 then p0 - p0 * (baes_discount storeConfig / 100) else p0 in
  let d2 := inSeason foodItem currentMonth in
  let p2 := if d2 then p1 - p1 * (seasonal_discount storeConfig / 100) else p1 in
  let d3 := Qle_bool (bulk_discount_threshold storeConfig) grams in
  let p3 := if d3 then p2 - p2 * (bulk_discount_pct storeConfig / 100) else p2 in
  {| original_price := original_price;
     final_price := Math_round p3;
     applied_discounts :=
       (if d1 then [BAES (baes_discount storeConfig)] else [])
       ++ (if d2 then [Temporada (seasonal_discount storeConfig)] else [])
       ++ (if d3 then [Volumen (bulk_discount_pct storeConfig)] else []) |}.

Definition availableStores (user : User) : list StoreKey :=
  if isLowBudget user then [supermarket; market; baes] else [supermarket; market].

(** The three variables of the store comparison; [bestPrice = None] is
    the initial [Infinity]. *)
Record Best : Type := {
  bestStore : StoreKey;
  bestPrice : option Z;
  bestSavings : Z
}.

Definition initialBest : Best :=
  {| bestStore := market; bestPrice := None; bestSavings := 0 |}.

Definition belowBest (price : Z) (best : Best) : bool :=
  match bestPrice best with
  | None => true
  | Some b => (price <? b)%Z
  end.

Definition compareStore (cost : Q) (foodItem : FoodItem) (grams : Q) (user : User)
           (currentMonth : Z) (best : Best) (storeKey : StoreKey) : Best :=
  let pricing :=
    calculateDiscountedPrice cost foodItem grams (STORE_CONFIGS storeKey) user currentMonth in
  if belowBest (final_price pricing) best then
    {| bestStore := storeKey;
       bestPrice := Some (final_price pricing);
       bestSavings := (original_price pricing - final_price pricing)%Z |}
  else best.

Definition findBest (cost : Q) (foodItem : FoodItem) (grams : Q) (user : User)
           (currentMonth : Z) : Best :=
  fold_left (compareStore cost foodItem grams user currentMonth) (availableStores user)
            initialBest.

Definition findFood (foodItems : list FoodItem) (foodId : string) : option FoodItem :=
  find (fun f => String.eqb (item_id f) foodId) foodItems.

(** [foodItem?.cost_per_kg] when it is truthy *)
Definition pricedFood (foodItems : list FoodItem) (foodId : string)
  : option (FoodItem * Q) :=
  match findFood foodItems foodId with
  | Some f =>
      match cost_per_kg f with
      | Some c => if Qeq_bool c 0 then None else Some (f, c)
      | None => None
      end
  | None => None
  end.

Record Optimization : Type := {
  distribution : list (StoreKey * list ConsolidatedIngredient);
  cost_breakdown : list (StoreKey * Z);
  total_cost : Z;
  total_savings : Z
}.

(** [record[key] = f(record[key])] on an object kept as its entries *)
Definition updateEntry {V : Type} (key : StoreKey) (f : V -> V)
           (entries : list (StoreKey * V)) : list (StoreKey * V) :=
  map (fun e => if StoreKey_eqb (fst e) key then (fst e, f (snd e)) else e) entries.

(** The price compared against is a number of [Z] once a store has been
    looked at; [availableStores] is never empty, so it always is. *)
Definition settledPrice (best : Best) : Z :=
  match bestPrice best with
  | Some p => p
  | None => 0%Z
  end.

Definition assignIngredient (foodItems : list FoodItem) (user : User) (currentMonth : Z)
           (opt : Optimization) (ingredient : ConsolidatedIngredient) : Optimization :=
  match pricedFood foodItems (ci_food_id ingredient) with
  | None => opt
  | Some (foodItem, cost) =>
      let best := findBest cost foodItem (total_grams ingredient) user currentMonth in
      {| distribution :=
           updateEntry (bestStore best) (fun l => l ++ [ingredient]) (distribution opt);
         cost_breakdown :=
           updateEntry (bestStore best) (fun c => (c + settledPrice best)%Z)
                       (cost_breakdown opt);
         total_cost := (total_cost opt + settledPrice best)%Z;
         total_savings := (total_savings opt + bestSavings best)%Z |}
  end.

(** [storeConfig.delivery_cost] when the store received items and the
    cost is truthy *)
Definition deliveryDue (entry : StoreKey * list ConsolidatedIngredient) : option Z :=
  match snd entry with
  | [] => None
  | _ :: _ =>
      match delivery_cost (STORE_CONFIGS (fst entry)) with
      | Some c => if (c =? 0)%Z then None else Some c
      | None => None
      end
  end.

Definition addDelivery (state : list (StoreKey * Z) * Z)
           (entry : StoreKey * list ConsolidatedIngredient) : list (StoreKey * Z) * Z :=
  match deliveryDue entry with
  | Some c => (updateEntry (fst entry) (fun x => (x + c)%Z) (fst state), (snd state + c)%Z)
  | None => state
  end.

(** [currentMonth] stands for [new Date().getMonth() + 1]. *)
Definition optimizeStoreDistribution (consolidatedIngredients : list ConsolidatedIngredient)
           (foodItems : list FoodItem) (user : User) (currentMonth : Z) : Optimization :=
  let start :=
    {| distribution := map (fun store => (store, [])) (availableStores user);
       cost_breakdown := map (fun store => (store, 0%Z)) (availableStores user);
       total_cost := 0; total_savings := 0 |} in
  let assigned :=
    fold_left (assignIngredient foodItems user currentMonth) consolidatedIngredients start in
  let delivered :=
    fold_left addDelivery (distribution assigned)
              (cost_breakdown assigned, total_cost assigned) in
  {| distribution := distribution assigned;
     cost_breakdown := fst delivered;
     total_cost := snd delivered;
     total_savings := total_savings assigned |}.

Definition itemsOfStore (foodItems : list FoodItem) (user : User) (currentMonth : Z)
           (entry : StoreKey * list ConsolidatedIngredient) : list ShoppingItem :=
  flat_map
    (fun ingredient =>
       match findFood foodItems (ci_food_id ingredient) with
       | None => []
       | Some foodItem =>
           let cost :=
             match cost_per_kg foodItem with
             | Some c => c
             | None => 0
             end in
           let pricing :=
             calculateDiscountedPrice cost foodItem (total_grams ingredient)
                                      (STORE_CONFIGS (fst entry)) user currentMonth in
           [{| si_food_id := ci_food_id ingredient;
               grams_total := total_grams ingredient;
               store_hint := fst entry;
               si_priority := priority ingredient;
               si_cost_estimate := final_price pricing;
               purchased := false |}]
       end)
    (snd entry).

Definition chooseStoreMode (user : User) (costs : list (StoreKey * Z)) : StoreMode :=
  let storeCosts :=
    sortBy (fun a b => inject_Z (snd b - snd a))
           (filter (fun e => (0 <? snd e)%Z) costs) in
  match storeCosts with
  | [only] => mode_store (fst only)
  | _ => if isLowBudget user then mode_store baes else mode_mixed
  end.

(** [generateWeeklyShoppingList]; nothing in the body throws on records
    of these types, so the handler that rethrows is not reached.  The
    month is read once for the optimization and again for every item;
    the model reads the same month throughout. *)
Definition generateWeeklyShoppingList (user : User) (mealPlans : list MealPlanDay)
           (recipes : list Recipe) (foodItems : list FoodItem) (weekStart : string)
           (currentMonth : Z) : ShoppingList :=
  let consolidatedIngredients := consolidateIngredients mealPlans recipes in
  let optimization :=
    optimizeStoreDistribution consolidatedIngredients foodItems user currentMonth in
  let shoppingItems :=
    flat_map (itemsOfStore foodItems user currentMonth) (distribution optimization) in
  {| list_id := id user ++ "_shopping_" ++ weekStart;
     list_user_id := id user;
     week_start := weekStart;
     items := shoppingItems;
     total_cost_estimate := total_cost optimization;
     store_mode := chooseStoreMode user (cost_breakdown optimization) |}.

(** *** Reference description of the totals

    The assignment of one ingredient, and the totals as sums over the
    ingredients that have a price. *)

Record Assignment : Type := {
  assigned_ingredient : ConsolidatedIngredient;
  assigned_item : FoodItem;
  assigned_cost : Q;
  assigned_store : StoreKey
}.

Definition priceAt (user : User) (currentMonth : Z) (a : Assignment) (store : StoreKey)
  : Pricing :=
  calculateDiscountedPrice (assigned_cost a) (assigned_item a)
                           (total_grams (assigned_ingredient a))
                           (STORE_CONFIGS store) user currentMonth.

Fixpoint spec_assignments (foodItems : list FoodItem) (user : User) (currentMonth : Z)
         (ingredients : list ConsolidatedIngredient) : list Assignment :=
  match ingredients with
  | [] => []
  | ingredient :: rest =>
      match pricedFood foodItems (ci_food_id ingredient) with
      | Some (foodItem, cost) =>
          {| assigned_ingredient := ingredient; assigned_item := foodItem;
             assigned_cost := cost;
             assigned_store :=
               bestStore (findBest cost foodItem (total_grams ingredient) user
                                   currentMonth) |}
          :: spec_assignments foodItems user currentMonth rest
      | None => spec_assignments foodItems user currentMonth rest
      end
  end.

Definition spec_finalPrice (user : User) (currentMonth : Z) (a : Assignment) : Z :=
  final_price (priceAt user currentMonth a (assigned_store a)).

Definition spec_saving (user : User) (currentMonth : Z) (a : Assignment) : Z :=
  (original_price (priceAt user currentMonth a (assigned_store a))
   - final_price (priceAt user currentMonth a (assigned_store a)))%Z.

Definition spec_received (assignments : list Assignment) (store : StoreKey) : bool :=
  existsb (fun a => StoreKey_eqb (assigned_store a) store) assignments.

(** the flat delivery cost of a store, when it defines a non-zero one *)
Definition spec_deliveryCost (store : StoreKey) : Z :=
  match delivery_cost (STORE_CONFIGS store) with
  | Some c => c
  | None => 0%Z
  end.

Definition spec_deliveryTotal (user : User) (assignments : list Assignment) : Z :=
  sumZ (map (fun store =>
               if spec_received assignments store then spec_deliveryCost store else 0%Z)
            (availableStores user)).

(** the ingredients a store receives, in the order they were assigned *)
Definition storeShare (assignments : list Assignment) (store : StoreKey)
  : list ConsolidatedIngredient :=
  map assigned_ingredient
      (filter (fun a => StoreKey_eqb (assigned_store a) store) assignments).

Definition dueOrZero (entry : StoreKey * list ConsolidatedIngredient) : Z :=
  match deliveryDue entry with
  | Some c => c
  | None => 0%Z
  end.

(** The three variables of the store comparison agree with each other
    once a store was taken. *)
Definition bestConsistent (cost : Q) (foodItem : FoodItem) (grams : Q) (user : User)
           (currentMonth : Z) (best : Best) : Prop :=
  forall p, bestPrice best = Some p ->
            p = final_price
                  (calculateDiscountedPrice cost foodItem grams
                                            (STORE_CONFIGS (bestStore best)) user
                                            currentMonth)
            /\ bestSavings best
               = (original_price
                    (calculateDiscountedPrice cost foodItem grams
                                              (STORE_CONFIGS (bestStore best)) user
                                              currentMonth) - p)%Z.

End Shopping.
Import Shopping.

(* ================================================================== *)
(** ** Progress tracking *)

Module Progress.

Record Measurement : Type := {
  measurement_id : string;
  date : IsoDate;
  measured_kg : Q
}.

Inductive RuleAction : Type :=
| increase_kcal | decrease_kcal | increase_volume | decrease_volume | alert.

Record ProgressRule : Type := {
  rule_ident : string;
  rule_name : string;
  condition : string;
  action : RuleAction;
  adjustment_pct : Q;
  rule_priority : Z
}.

Definition PROGRESS_RULES : list ProgressRule :=
  [{| rule_ident := "weight_loss_too_fast";
      rule_name := "Pérdida de peso muy rápida";
      condition := "Peso bajando >1% semanal";
      action := increase_kcal; adjustment_pct := 5; rule_priority := 1 |};
   {| rule_ident := "weight_loss_too_slow";
      rule_name := "Pérdida de peso muy lenta";
      condition := "Peso bajando <0.25% semanal por 2 semanas";
      action := decrease_kcal; adjustment_pct := 5; rule_priority := 2 |};
   {| rule_ident := "protein_insufficient";
      rule_name := "Proteína insuficiente";
      condition := "Proteína <objetivo 3+ días/semana";
      action := alert; adjustment_pct := 0; rule_priority := 3 |};
   {| rule_ident := "rpe_too_high";
      rule_name := "RPE muy alto sostenido";
      condition := "RPE ≥8 por 3+ entrenamientos";
      action := decrease_volume; adjustment_pct := 10; rule_priority := 1 |};
   {| rule_ident := "performance_improved";
      rule_name := "Marcas personales mejoradas";
      condition := "Flexiones/plancha/cardio mejorados";
      action := increase_volume; adjustment_pct := 7.5; rule_priority := 4 |}].

Inductive WeightTrend : Type :=
| fast_loss | normal_loss | slow_loss | maintenance | gain.

(** The message of a suggestion, as the numbers its text quotes. *)
Inductive SuggestionMessage : Type :=
| MsgLosingTooFast (abs_pct : num)
| MsgLosingTooSlow (abs_pct : num)
| MsgProteinShort (compliant totalDays : Z)
| MsgRpeHigh (avg : Q)
| MsgPerformanceImproved
| MsgLowAdherence (score : Z)
| MsgExcellentAdherence (score : Z).

Record ProgressSuggestion : Type := {
  rule_id : string;
  message : SuggestionMessage;
  action_required : bool;
  auto_applied : bool;
  created_at : string
}.

Record WeeklyProgressAnalysis : Type := {
  weight_change_pct : num;
  weight_trend : WeightTrend;
  adherence_score : Z;
  protein_compliance : Z;
  avg_rpe : Q;
  kcal_adjustment_needed : bool;
  volume_adjustment_needed : bool;
  suggestions : list ProgressSuggestion
}.

(** [x * c] for a finite factor [c] *)
Definition num_scale (x : num) (c : Q) : num :=
  match x with
  | Fin q => Fin (q * c)
  | NaN => NaN
  | PInf => if Qltb 0 c then PInf else if Qltb c 0 then NInf else NaN
  | NInf => if Qltb 0 c then NInf else if Qltb c 0 then PInf else NaN
  end.

Definition num_abs (x : num) : num :=
  match x with
  | Fin q => Fin (Qabs q)
  | PInf | NInf => PInf
  | NaN => NaN
  end.

Definition dateDistance (m : Measurement) (targetDate : Z) : Z :=
  Z.abs (epoch_ms (date m) - targetDate).

(** the loop that looks for the measurement closest to the target date *)
Definition closerStep (targetDate : Z) (state : Measurement * Z) (m : Measurement)
  : Measurement * Z :=
  let diff := dateDistance m targetDate in
  if (diff <? snd state)%Z then (m, diff) else state.

Definition calculateWeeklyWeightChange (measurements : list Measurement) (weeksBack : Z)
  : num :=
  if (List.length measurements <? 2)%nat then Fin 0
  else
    let sortedMeasurements :=
      sortBy (fun a b => inject_Z (epoch_ms (date a) - epoch_ms (date b))) measurements in
    match sortedMeasurements with
    | [] => Fin 0
    | first :: _ =>
        let latestMeasurement := last sortedMeasurements first in
        let targetDate :=
          (epoch_ms (date latestMeasurement) - weeksBack * 7 * msPerDay)%Z in
        let closestMeasurement :=
          fst (fold_left (closerStep targetDate) sortedMeasurements
                         (first, dateDistance first targetDate)) in
        if Qeq_bool (measured_kg closestMeasurement) (measured_kg latestMeasurement)
        then Fin 0
        else
          let weightChange :=
            num_scale (jsdiv (measured_kg latestMeasurement
                              - measured_kg closestMeasurement)
                             (measured_kg closestMeasurement)) 100 in
          round1 weightChange
    end.

Definition isCompleted (meal : Meal) : bool :=
  match completed meal with Some true => true | _ => false end.

(** the percentage of completed meals of one plan, when it has meals *)
Definition planAdherence (plan : MealPlanDay) : option Q :=
  match meals plan with
  | [] => None
  | _ :: _ =>
      Some (inject_Z (Z.of_nat (List.length (filter isCompleted (meals plan))))
            / inject_Z (Z.of_nat (List.length (meals plan))) * 100)
  end.

Definition calculateMealPlanAdherence (mealPlans : list MealPlanDay) : Z :=
  match mealPlans with
  | [] => 0%Z
  | _ :: _ =>
      let state :=
        fold_left (fun (acc : Q * Z) plan =>
                     match planAdherence plan with
                     | Some adherence => (fst acc + adherence, (snd acc + 1)%Z)
                     | None => acc
                     end)
                  mealPlans (0, 0%Z) in
      if (0 <? snd state)%Z then Math_round (fst state / inject_Z (snd state)) else 0%Z
  end.

Definition proteinCompliantDay (proteinTarget : Z) (plan : MealPlanDay) : bool :=
  let adherence :=
    match adherence plan with
    | Some a => if Qeq_bool a 0 then inject_Z (calculateMealPlanAdherence [plan]) else a
    | None => inject_Z (calculateMealPlanAdherence [plan])
    end in
  andb (Qle_bool 70 adherence)
       (Qle_bool (inject_Z proteinTarget * 0.9) (protein (totals plan))).

Definition calculateProteinCompliance (mealPlans : list MealPlanDay) (user : User)
           (activityFactor : Q) : Z :=
  match mealPlans with
  | [] => 0%Z
  | _ :: _ =>
      let metrics := calculateAllMetrics user activityFactor in
      let proteinTarget := protein_g (macros metrics) in
      Z.of_nat (List.length (filter (proteinCompliantDay proteinTarget) mealPlans))
  end.

Definition rpeOr0 (w : WorkoutPlanDay) : Q :=
  match rpe w with Some r => r | None => 0 end.

Definition isDone (w : WorkoutPlanDay) : bool :=
  match workout_completed w with Some true => true | _ => false end.

Definition calculateAverageRPE (workouts : list WorkoutPlanDay) : Q :=
  let completedWorkouts :=
    filter (fun w => andb (isDone w) (negb (Qeq_bool (rpeOr0 w) 0))) workouts in
  match completedWorkouts with
  | [] => 0
  | _ :: _ =>
      let totalRPE := fold_left (fun sum w => sum + rpeOr0 w) completedWorkouts 0 in
      inject_Z (Math_round
                  (totalRPE / inject_Z (Z.of_nat (List.length completedWorkouts)) * 10))
      / 10
  end.

Definition detectPerformanceImprovements (currentRecords : PersonalRecords)
           (previousRecords : option PersonalRecords) : bool :=
  match previousRecords with
  | None => false
  | Some previous =>
      let improvements :=
        [Qltb (pushups_max previous) (pushups_max currentRecords);
         Qltb (abs_max previous) (abs_max currentRecords);
         Qltb (plank_sec previous) (plank_sec currentRecords);
         Qltb (run_speed_kmh previous) (run_speed_kmh currentRecords);
         Qltb (run_duration_min previous) (run_duration_min currentRecords)] in
      (2 <=? List.length (filter (fun b => b) improvements))%nat
  end.

Definition WeightTrend_eqb (a b : WeightTrend) : bool :=
  match a, b with
  | fast_loss, fast_loss | normal_loss, normal_loss | slow_loss, slow_loss
  | maintenance, maintenance | gain, gain => true
  | _, _ => false
  end.

(** The trend, as the cascade of comparisons and the two-week check
    that follows it. *)
Definition classifyTrend (measurements : list Measurement) (pct : num) : WeightTrend :=
  let firstPass :=
    if num_ltb pct (-1) then fast_loss
    else if num_ltb pct (-0.25) then normal_loss
    else if num_ltb pct 0.25 then maintenance
    else if num_geb pct 0.25 then gain
    else maintenance in
  if andb (num_geb pct (-0.25)) (num_ltb pct 0) then
    let twoWeekChange := calculateWeeklyWeightChange measurements 2 in
    if num_geb twoWeekChange (-0.5) then slow_loss else firstPass
  else firstPass.

Definition suggestion (ident : string) (msg : SuggestionMessage)
           (required applied : bool) (now : string) : ProgressSuggestion :=
  {| rule_id := ident; message := msg; action_required := required;
     auto_applied := applied; created_at := now |}.

(** [now] stands for [new Date().toISOString()]. *)
Definition analyzeWeeklyProgress (user : User) (measurements : list Measurement)
           (mealPlans : list MealPlanDay) (workouts : list WorkoutPlanDay)
           (currentRecords : PersonalRecords) (previousRecords : option PersonalRecords)
           (activityFactor : Q) (now : string) : WeeklyProgressAnalysis :=
  let weight_change_pct := calculateWeeklyWeightChange measurements 1 in
  let adherence_score := calculateMealPlanAdherence mealPlans in
  let protein_compliance := calculateProteinCompliance mealPlans user activityFactor in
  let avg_rpe := calculateAverageRPE workouts in
  let performance_improved :=
    detectPerformanceImprovements currentRecords previousRecords in
  let weight_trend := classifyTrend measurements weight_change_pct in
  let losing := Qltb (goal_weight_kg user) (weight_kg user) in
  let rule1 := andb (WeightTrend_eqb weight_trend fast_loss) losing in
  let rule2 := andb (WeightTrend_eqb weight_trend slow_loss) losing in
  let rule3 :=
    (protein_compliance <? Z.of_nat (List.length mealPlans) - 3)%Z in
  let rule4 :=
    andb (Qle_bool 8 avg_rpe)
         (3 <=? List.length
                  (filter (fun w => andb (isDone w) (Qle_bool 8 (rpeOr0 w))) workouts))%nat in
  let rule5 := performance_improved in
  {| weight_change_pct := weight_change_pct;
     weight_trend := weight_trend;
     adherence_score := adherence_score;
     protein_compliance := protein_compliance;
     avg_rpe := avg_rpe;
     kcal_adjustment_needed := orb rule1 rule2;
     volume_adjustment_needed := orb rule4 rule5;
     suggestions :=
       (if rule1
        then [suggestion "weight_loss_too_fast"
                         (MsgLosingTooFast (num_abs weight_change_pct)) true false now]
        else [])
       ++ (if rule2
           then [suggestion "weight_loss_too_slow"
                            (MsgLosingTooSlow (num_abs weight_change_pct)) true false now]
           else [])
       ++ (if rule3
           then [suggestion "protein_insufficient"
                            (MsgProteinShort protein_compliance
                                             (Z.of_nat (List.length mealPlans)))
                            true false now]
           else [])
       ++ (if rule4
           then [suggestion "rpe_too_high" (MsgRpeHigh avg_rpe) true false now]
           else [])
       ++ (if rule5
           then [suggestion "performance_improved" MsgPerformanceImproved false true now]
           else [])
       ++ (if (adherence_score <? 70)%Z
           then [suggestion "low_adherence" (MsgLowAdherence adherence_score)
                            true false now]
           else if (90 <=? adherence_score)%Z
           then [suggestion "excellent_adherence"
                            (MsgExcellentAdherence adherence_score) false false now]
           else []) |}.

Definition hasSuggestion (ident : string) (a : WeeklyProgressAnalysis) : bool :=
  existsb (fun s => String.eqb (rule_id s) ident) (suggestions a).

Definition findRule (ident : string) : option ProgressRule :=
  find (fun r => String.eqb (rule_ident r) ident) PROGRESS_RULES.

End Progress.
Import Progress.

(* ================================================================== *)
(** ** Sample data used by the examples *)

Module Samples.

Definition noPreferences : UserPreferences :=
  {| no_oil := false; no_sugar := false; no_fried := false;
     dislikes := []; likes := [] |}.

Definition matOnly : Equipment :=
  {| treadmill := false; dumbbells_kg := None; rope := false; mat := true;
     resistance_bands := false |}.

(** female, 28 years, 165 cm, 70 kg, aiming at 65 kg *)
Definition ana : User :=
  {| id := "ana"; sex := female; age := 28; height_cm := 165; weight_kg := 70;
     goal_weight_kg := 65; budget_level := medium; preferences := noPreferences;
     health := {| ldl := None |}; equipment := matOnly; createdAt := 0 |}.

(** the same person with no weight to lose *)
Definition ana_maintaining : User :=
  {| id := "ana"; sex := female; age := 28; height_cm := 165; weight_kg := 70;
     goal_weight_kg := 70; budget_level := medium; preferences := noPreferences;
     health := {| ldl := None |}; equipment := matOnly; createdAt := 0 |}.

Definition plainRules : PersonalizationRules := generatePersonalizationRules ana.

Definition sampleRecipe (ident : string) (cat : MealType) (tags : list RecipeTag)
           (kcal : Q) : Recipe :=
  {| recipe_ident := ident; recipe_name := ident; category := cat; tags := tags;
     ingredients := [{| food_id := "chicken_breast"; grams := 150 |}];
     per_portion := {| kcal := kcal; protein := 30; fat := 8; carbs := 40; fiber := 5 |};
     prep_time_min := 10; cooking_time_min := 15; cost_estimate := Some 1200 |}.

Definition almuerzo_exact : Recipe := sampleRecipe "almuerzo_exact" almuerzo [] 400.
Definition almuerzo_double : Recipe := sampleRecipe "almuerzo_double" almuerzo [] 800.
Definition almuerzo_quick : Recipe := sampleRecipe "almuerzo_quick" almuerzo [rapida] 450.

Definition samplePlan (mealCount : nat) (kcal protein : Q) : MealPlanDay :=
  {| plan_id := "ana_2024-01-01"; plan_user_id := "ana"; plan_date := "2024-01-01";
     meals := repeat {| meal_type := almuerzo; recipe_id := "almuerzo_exact";
                        portions := 1; time_scheduled := None;
                        completed := Some false |} mealCount;
     totals := {| kcal := kcal; protein := protein; fat := 50; carbs := 200; fiber := 25 |};
     adherence := None; plan_notes := "" |}.

(** personal records: 20 push-ups, 30 sit-ups, a 60 s plank, 8 km/h for
    20 minutes *)
Definition sampleRecords : PersonalRecords :=
  {| pushups_max := 20; abs_max := 30; plank_sec := 60; run_speed_kmh := 8;
     run_duration_min := 20 |}.

(** four days after the account was created *)
Definition day5 : IsoDate := {| iso := "1970-01-05"; epoch_ms := 4 * msPerDay |}.

(** the strength block of [beginner_basic] *)
Definition beginnerStrength : TemplateBlock :=
  {| block_type := b_strength; block_name := "Ejercicios básicos";
     details :=
       DStrength [exercise "Flexiones (modificadas si es necesario)" 2
                           (RepsCount 10) None 90;
                  exercise "Sentadillas" 2 (RepsCount 15) None 60;
                  exercise "Plancha" 2 RepsTime (Some 20) 60];
     duration_min := 12 |}.

(** the strength block of [strength_bodyweight] *)
Definition bodyweightCircuit : TemplateBlock :=
  {| block_type := b_strength; block_name := "Circuito principal";
     details :=
       DStrength [exercise "Flexiones" 3 AMRAP None 90;
                  exercise "Abdominales" 3 (RepsCount 30) None 60;
                  exercise "Plancha" 3 RepsTime (Some 45) 60];
     duration_min := 15 |}.

Definition weighIn (day : Z) (kg : Q) : Measurement :=
  {| measurement_id := "m"; date := {| iso := ""; epoch_ms := day * msPerDay |};
     measured_kg := kg |}.

(** the same person on the low budget tier *)
Definition ana_low_budget : User :=
  {| id := "ana"; sex := female; age := 28; height_cm := 165; weight_kg := 70;
     goal_weight_kg := 65; budget_level := low; preferences := noPreferences;
     health := {| ldl := None |}; equipment := matOnly; createdAt := 0 |}.

Definition chicken_breast : FoodItem :=
  {| item_id := "chicken_breast"; item_name := "Pechuga de pollo";
     cost_per_kg := Some 6000; seasonal_months := None |}.

Definition chicken_1200g : ConsolidatedIngredient :=
  {| ci_food_id := "chicken_breast"; total_grams := 1200;
     used_in_recipes := ["almuerzo_exact"]; priority := high |}.

End Samples.
Import Samples.

(* ================================================================== *)
(** ** Metrics calculator: the remaining operations *)

Module CalculatorTools.

Inductive BMICategory : Type := BajoPeso | Normal | Sobrepeso | Obesidad.

Definition getBMICategory (bmi : num) : BMICategory :=
  if num_ltb bmi 18.5 then BajoPeso
  else if num_ltb bmi 25 then Normal
  else if num_ltb bmi 30 then Sobrepeso
  else Obesidad.

Definition calculateWeightLossRate (daily_deficit_kcal : Q) : Q :=
  let weekly_deficit := daily_deficit_kcal * 7 in
  inject_Z (Math_round ((weekly_deficit / 7700) * 100)) / 100.

(** The two messages of [validateDeficit], with the number they quote. *)
Inductive DeficitMessage : Type :=
| BelowSafeMinimum (min_safe : Z)
| TooAggressive (max_pct : Z).

Record DeficitVerdict : Type := {
  safe : bool;
  deficit_message : option DeficitMessage
}.

Definition validateDeficit (current_kcal target_kcal : Q) (sex : Sex) : DeficitVerdict :=
  let min_safe := match sex with male => 1500%Z | female => 1200%Z end in
  let max_deficit_pct := 0.25 in
  if Qltb target_kcal (inject_Z min_safe) then
    {| safe := false; deficit_message := Some (BelowSafeMinimum min_safe) |}
  else
    let deficit_pct := jsdiv (current_kcal - target_kcal) current_kcal in
    if num_gtb deficit_pct max_deficit_pct then
      {| safe := false;
         deficit_message := Some (TooAggressive (Math_round (max_deficit_pct * 100))) |}
    else {| safe := true; deficit_message := None |}.

Record ActivityFactor : Type := {
  factor_value : Q;
  factor_label : string;
  factor_description : string
}.

Definition ACTIVITY_FACTORS : list ActivityFactor :=
  [{| factor_value := 1.2; factor_label := "Sedentario";
      factor_description := "Poco o ningún ejercicio" |};
   {| factor_value := 1.375; factor_label := "Ligero";
      factor_description := "Ejercicio ligero 1-3 días/semana" |};
   {| factor_value := 1.55; factor_label := "Moderado";
      factor_description := "Ejercicio moderado 3-5 días/semana" |};
   {| factor_value := 1.725; factor_label := "Alto";
      factor_description := "Ejercicio intenso 6-7 días/semana" |};
   {| factor_value := 1.9; factor_label := "Muy Alto";
      factor_description := "Trabajo físico + ejercicio intenso" |}].

Definition getActivityFactorByLabel (label : string) : Q :=
  match find (fun af => String.eqb (factor_label af) label) ACTIVITY_FACTORS with
  | Some factor => if Qeq_bool (factor_value factor) 0 then 1.55 else factor_value factor
  | None => 1.55
  end.

Definition calculateWeightProgress (current_kg start_kg goal_kg : Q) : Q :=
  if Qeq_bool start_kg goal_kg then 100
  else
    let total_diff := goal_kg - start_kg in
    let current_diff := current_kg - start_kg in
    let progress := (current_diff / total_diff) * 100 in
    Qmax 0 (Qmin 100 (inject_Z (Math_round (progress * 10)) / 10)).

End CalculatorTools.
Import CalculatorTools.

(* ================================================================== *)
(** ** The host's [Date], as the weekly loops use it *)

Module JsDate.

(** What the host supplies.  [parseDate s] is the time value, in
    milliseconds, that [new Date(s)] holds, or [None] when [s] does not
    parse (an Invalid Date).  [plusDays t i] is the time value after
    [setDate(getDate() + i)] on a date of time value [t]: [i] local
    calendar days later, or [None] when that leaves the range of time
    values.  [isoDay t] is [toISOString().split('T')[0]] for the time
    value [t]. *)
Record HostDate : Type := {
  parseDate : string -> option Z;
  plusDays : Z -> Z -> option Z;
  isoDay : Z -> string
}.

(** [toISOString] of an Invalid Date throws
    [RangeError: Invalid time value]. *)
Inductive RangeError : Type := InvalidTimeValue.

(** The three statements that open the body of both weekly loops:
    [[
      const currentDate = new Date(startDate);
      currentDate.setDate(currentDate.getDate() + i);
      const dateStr = currentDate.toISOString().split('T')[0];
    ]]
    [setDate] on an Invalid Date leaves it invalid; the result is the
    time value reached together with the date string, or the error
    thrown. *)
Definition derivedDate (host : HostDate) (startDate : string) (i : Z)
  : RangeError + (Z * string) :=
  match parseDate host startDate with
  | None => inl InvalidTimeValue
  | Some t =>
      match plusDays host t i with
      | None => inl InvalidTimeValue
      | Some t' => inr (t', isoDay host t')
      end
  end.

(** [dates] are the date strings derived for [indices], none of them
    failing. *)
Definition derivedDays (host : HostDate) (startDate : string) (indices : list Z)
           (dates : list string) : Prop :=
  Forall2 (fun i d => exists t, derivedDate host startDate i = inr (t, d)) indices dates.

(** A date string [toISOString] produced, read back by [new Date]: the
    midnight (UTC) of that day. *)
Definition readBack (derived : Z * string) : IsoDate :=
  {| iso := snd derived; epoch_ms := (fst derived / msPerDay * msPerDay)%Z |}.

(** the indices [i = 0 .. 6] of [for (let i = 0; i < 7; i++)] *)
Definition weekIndices : list Z := [0; 1; 2; 3; 4; 5; 6]%Z.

(** A host in UTC that reads the one string ["1970-01-01"] and knows the
    names of the seven days from there. *)
Definition sampleHost : HostDate :=
  {| parseDate := fun s => if String.eqb s "1970-01-01" then Some 0%Z else None;
     plusDays := fun t i => Some (t + i * msPerDay)%Z;
     isoDay := fun t =>
       nth (Z.to_nat (t / msPerDay))
           ["1970-01-01"; "1970-01-02"; "1970-01-03"; "1970-01-04"; "1970-01-05";
            "1970-01-06"; "1970-01-07"] "" |}.

End JsDate.
Import JsDate.

(* ================================================================== *)
(** ** Meal-plan engine: weekly plans and substitutions *)

Module MealPlannerTools.

(** The loop of [generateWeeklyMealPlan], from the indices still to run
    and the week so far.  Deriving the date is outside any [try]: when
    it throws, the loop and the call end with that error. *)
Fixpoint weeklyMealLoop (host : HostDate) (user : User) (recipes : list Recipe)
         (startDate : string) (activityFactor : Q) (indices : list Z)
         (weekPlan : list MealPlanDay) : RangeError + list MealPlanDay :=
  match indices with
  | [] => inr weekPlan
  | i :: rest =>
      match derivedDate host startDate i with
      | inl e => inl e
      | inr (_, dateStr) =>
          weeklyMealLoop host user recipes startDate activityFactor rest
            (match generateDailyMealPlan user recipes dateStr activityFactor with
             | Some dayPlan => weekPlan ++ [dayPlan]
             | None => weekPlan
             end)
      end
  end.

(** [generateWeeklyMealPlan]: the week returned, or the [RangeError]
    thrown. *)
Definition generateWeeklyMealPlan (host : HostDate) (user : User)
           (recipes : list Recipe) (startDate : string) (activityFactor : Q)
  : RangeError + list MealPlanDay :=
  weeklyMealLoop host user recipes startDate activityFactor weekIndices [].

Record Substitution : Type := {
  mealIndex : nat;
  currentRecipe : string;
  substitutes : list Recipe
}.

Definition similarKcal (currentRecipe recipe : Recipe) : bool :=
  num_leb (deviation (kcal (per_portion recipe)) (kcal (per_portion currentRecipe))) 0.25.

(** the body of the loop of [suggestMealSubstitutions] for the meal at
    index [i] *)
Definition substitutionsFor (recipes : list Recipe) (rules : PersonalizationRules)
           (i : nat) (meal : Meal) : list Substitution :=
  match find (fun r => String.eqb (recipe_ident r) (recipe_id meal)) recipes with
  | None => []
  | Some currentRecipe =>
      let alternatives :=
        filterRecipesByRules
          (filter (fun r => andb (MealType_eqb (category r) (category currentRecipe))
                                 (negb (String.eqb (recipe_ident r)
                                                   (recipe_ident currentRecipe))))
                  recipes)
          rules None in
      let similarKcalRecipes := filter (similarKcal currentRecipe) alternatives in
      match similarKcalRecipes with
      | [] => []
      | _ :: _ =>
          [{| mealIndex := i; currentRecipe := recipe_ident currentRecipe;
              substitutes := firstn 3 similarKcalRecipes |}]
      end
  end.

Fixpoint substitutionsFrom (recipes : list Recipe) (rules : PersonalizationRules)
         (i : nat) (meals : list Meal) : list Substitution :=
  match meals with
  | [] => []
  | meal :: rest =>
      substitutionsFor recipes rules i meal
      ++ substitutionsFrom recipes rules (S i) rest
  end.

Definition suggestMealSubstitutions (plan : MealPlanDay) (recipes : list Recipe)
           (user : User) : list Substitution :=
  substitutionsFrom recipes (generatePersonalizationRules user) 0 (meals plan).

End MealPlannerTools.
Import MealPlannerTools.

(* ================================================================== *)
(** ** Workout generator: the weekly plan *)

Module WorkoutTools.

(** beginner < intermediate < advanced *)
Definition levelRank (level : FitnessLevel) : Z :=
  match level with
  | beginner => 0%Z
  | intermediate => 1%Z
  | advanced => 2%Z
  end.

Definition levelAppropriate (fitnessLevel : FitnessLevel) (template : WorkoutTemplate)
  : bool :=
  existsb (FitnessLevel_eqb fitnessLevel) (fitness_level template).

Definition workoutTypes : list PreferredType := [p_strength; p_cardio; p_mixed].

(** [i % Math.floor(7 / daysPerWeek) === 0 && weekPlan.length < daysPerWeek]
    for a day index [i >= 0]: a remainder by zero is [NaN], a remainder
    by [Infinity] is [i]. *)
Definition shouldWorkout (i : Z) (planned : nat) (daysPerWeek : Q) : bool :=
  andb (match jsdiv 7 daysPerWeek with
        | Fin q => if (Qfloor q =? 0)%Z then false else (Z.rem i (Qfloor q) =? 0)%Z
        | PInf | NInf => (i =? 0)%Z
        | NaN => false
        end)
       (Qltb (inject_Z (Z.of_nat planned)) daysPerWeek).

(** The loop of [generateWeeklyWorkoutPlan], from the indices still to
    run and the week so far.  The date is derived on every day, before
    [shouldWorkout] is looked at and outside any [try]: when that
    throws, the loop and the call end with the error. *)
Fixpoint weeklyWorkoutLoop (host : HostDate) (user : User)
         (personalRecords : PersonalRecords) (startDate : string) (daysPerWeek : Q)
         (indices : list Z) (weekPlan : list WorkoutPlanDay)
  : RangeError + list WorkoutPlanDay :=
  match indices with
  | [] => inr weekPlan
  | i :: rest =>
      match derivedDate host startDate i with
      | inl e => inl e
      | inr derived =>
          weeklyWorkoutLoop host user personalRecords startDate daysPerWeek rest
            (if shouldWorkout i (List.length weekPlan) daysPerWeek then
               let typeIndex :=
                 Nat.modulo (List.length weekPlan) (List.length workoutTypes) in
               let preferences :=
                 {| preferred_duration := Some 25;
                    preferred_type := nth_error workoutTypes typeIndex;
                    avoid_high_impact := None |} in
               match generateWorkoutPlan user personalRecords (readBack derived)
                                         (Some preferences) with
               | Some workout => weekPlan ++ [workout]
               | None => weekPlan
               end
             else weekPlan)
      end
  end.

(** [generateWeeklyWorkoutPlan]: the week returned, or the [RangeError]
    thrown. *)
Definition generateWeeklyWorkoutPlan (host : HostDate) (user : User)
           (personalRecords : PersonalRecords) (startDate : string) (daysPerWeek : Q)
  : RangeError + list WorkoutPlanDay :=
  weeklyWorkoutLoop host user personalRecords startDate daysPerWeek weekIndices [].

Record WeeklyVolume : Type := {
  total_duration_min : Q;
  total_kcal_estimate : num;
  strength_sessions : Z;
  cardio_sessions : Z;
  volume_avg_rpe : option Q
}.

Definition hasBlockOf (types : list BlockType) (w : WorkoutPlanDay) : bool :=
  existsb (fun b =>
             existsb (fun t =>
                        match t, block_type (block b) with
                        | b_run, b_run | b_hiit, b_hiit | b_strength, b_strength
                        | b_warmup, b_warmup | b_cooldown, b_cooldown => true
                        | _, _ => false
                        end) types)
          (blocks w).

Definition completedWorkout (w : WorkoutPlanDay) : bool :=
  match workout_completed w with Some true => true | _ => false end.

Definition rpeValue (w : WorkoutPlanDay) : Q :=
  match rpe w with Some r => r | None => 0 end.

Definition calculateWeeklyVolume (workouts : list WorkoutPlanDay) : WeeklyVolume :=
  let completedWorkouts := filter completedWorkout workouts in
  let rpeWorkouts := filter (fun w => negb (Qeq_bool (rpeValue w) 0)) completedWorkouts in
  {| total_duration_min :=
       fold_left (fun sum w => sum + workout_duration_min w) completedWorkouts 0;
     total_kcal_estimate :=
       fold_left (fun sum w => num_add sum (workout_kcal_estimate w)) completedWorkouts
                 (Fin 0);
     strength_sessions :=
       Z.of_nat (List.length (filter (hasBlockOf [b_strength]) completedWorkouts));
     cardio_sessions :=
       Z.of_nat (List.length (filter (hasBlockOf [b_run; b_hiit]) completedWorkouts));
     volume_avg_rpe :=
       match rpeWorkouts with
       | [] => None
       | _ :: _ =>
           Some (fold_left (fun sum w => sum + rpeValue w) rpeWorkouts 0
                 / inject_Z (Z.of_nat (List.length rpeWorkouts)))
       end |}.

End WorkoutTools.
Import WorkoutTools.

(* ================================================================== *)
(** ** Progress tracking: adjustments and detailed adherence *)

Module ProgressTools.

Record Adjustments : Type := {
  new_kcal_target : option Z;
  volume_multiplier : option Q;
  applied_rules : list string
}.

Definition applyAutomaticAdjustments (user : User) (analysis : WeeklyProgressAnalysis)
           (activityFactor : Q) : Adjustments :=
  let metrics := calculateAllMetrics user activityFactor in
  let kcalStep : option Z * list string :=
    if kcal_adjustment_needed analysis then
      let currentKcal := kcal_target (kcal_range metrics) in
      match weight_trend analysis with
      | fast_loss =>
          (Some (Math_round (inject_Z currentKcal * 1.05)), ["weight_loss_too_fast"])
      | slow_loss =>
          let minSafe := match sex user with male => 1500%Z | female => 1200%Z end in
          (Some (Z.max (Math_round (inject_Z currentKcal * 0.95)) minSafe),
           ["weight_loss_too_slow"])
      | _ => (None, [])
      end
    else (None, []) in
  let volumeStep : option Q * list string :=
    if volume_adjustment_needed analysis then
      if Qle_bool 8 (avg_rpe analysis) then (Some 0.9, ["rpe_too_high"])
      else (Some 1.075, ["performance_improved"])
    else (None, []) in
  {| new_kcal_target := fst kcalStep;
     volume_multiplier := fst volumeStep;
     applied_rules := snd kcalStep ++ snd volumeStep |}.

Record WaterRecord : Type := {
  water_date : string;
  liters : Q;
  water_target : Q
}.

Record DetailedAdherence : Type := {
  meal_adherence : Z;
  workout_adherence : Z;
  water_adherence : Z;
  overall_adherence : Z
}.

Definition percentOf (part whole : nat) : Z :=
  Math_round (inject_Z (Z.of_nat part) / inject_Z (Z.of_nat whole) * 100).

Definition calculateDetailedAdherence (mealPlans : list MealPlanDay)
           (workouts : list WorkoutPlanDay) (waterIntakeRecords : list WaterRecord)
  : DetailedAdherence :=
  let meal_adherence := calculateMealPlanAdherence mealPlans in
  let completedWorkouts := List.length (filter isDone workouts) in
  let workout_adherence :=
    match workouts with
    | [] => 0%Z
    | _ :: _ => percentOf completedWorkouts (List.length workouts)
    end in
  let water_adherence :=
    match waterIntakeRecords with
    | [] => 0%Z
    | _ :: _ =>
        let compliantDays :=
          List.length (filter (fun record =>
                                 Qle_bool (water_target record * 0.8) (liters record))
                              waterIntakeRecords) in
        percentOf compliantDays (List.length waterIntakeRecords)
    end in
  let overall_adherence :=
    Math_round (inject_Z meal_adherence * 0.5 + inject_Z workout_adherence * 0.3
                + inject_Z water_adherence * 0.2) in
  {| meal_adherence := meal_adherence;
     workout_adherence := workout_adherence;
     water_adherence := water_adherence;
     overall_adherence := overall_adherence |}.

End ProgressTools.
Import ProgressTools.

(* ================================================================== *)
(** ** Shopping list: grouping, notes and batch cooking *)

Module ShoppingTools.

(** The parts of a shopping note, in the order they are joined. *)
Inductive ShoppingNote : Type :=
| NoteKilograms (kg : Q)
| NoteGrams (g : Q)
| NotePoultry
| NoteGroundBeef
| NoteFish
| NoteDozens (dozens : Z)
| NoteInSeason.

(** [currentMonth] stands for [new Date().getMonth() + 1]. *)
Definition generateShoppingNotes (item : ShoppingItem) (foodItem : FoodItem)
           (currentMonth : Z) : list ShoppingNote :=
  (if Qle_bool 1000 (grams_total item)
   then [NoteKilograms (inject_Z (Math_round ((grams_total item / 1000) * 10)) / 10)]
   else [NoteGrams (grams_total item)])
  ++ (if includes (si_food_id item) "chicken" then [NotePoultry] else [])
  ++ (if includes (si_food_id item) "ground_beef" then [NoteGroundBeef] else [])
  ++ (if includes (si_food_id item) "fish" then [NoteFish] else [])
  ++ (if String.eqb (si_food_id item) "eggs"
      then [NoteDozens (Qceiling (grams_total item / 60 / 12))] else [])
  ++ (if inSeason foodItem currentMonth then [NoteInSeason] else []).

Record GroupedItem : Type := {
  grouped_item : ShoppingItem;
  food_name : string;
  item_notes : list ShoppingNote
}.

(** [grouped[storeKey].push(x)], creating the array on first use; the
    object is kept as its entries in insertion order. *)
Fixpoint pushGrouped (storeKey : StoreKey) (x : GroupedItem)
         (grouped : list (StoreKey * list GroupedItem))
  : list (StoreKey * list GroupedItem) :=
  match grouped with
  | [] => [(storeKey, [x])]
  | (k, l) :: rest =>
      if StoreKey_eqb k storeKey then (k, l ++ [x]) :: rest
      else (k, l) :: pushGrouped storeKey x rest
  end.

Definition priorityOrder (p : Tier) : Z :=
  match p with
  | high => 0%Z
  | medium => 1%Z
  | low => 2%Z
  end.

Definition byPriority (a b : GroupedItem) : Q :=
  inject_Z (priorityOrder (si_priority (grouped_item a))
            - priorityOrder (si_priority (grouped_item b))).

Definition groupShoppingListByStore (shoppingList : ShoppingList)
           (foodItems : list FoodItem) (currentMonth : Z)
  : list (StoreKey * list GroupedItem) :=
  let grouped :=
    fold_left (fun grouped item =>
                 match findFood foodItems (si_food_id item) with
                 | None => grouped
                 | Some foodItem =>
                     pushGrouped (store_hint item)
                                 {| grouped_item := item;
                                    food_name := item_name foodItem;
                                    item_notes :=
                                      generateShoppingNotes item foodItem currentMonth |}
                                 grouped
                 end)
              (items shoppingList) [] in
  map (fun entry => (fst entry, sortBy byPriority (snd entry))) grouped.

Record BatchSuggestion : Type := {
  batch_food_id : string;
  batch_size_kg : Q;
  suggested_recipes : list string;
  prep_instructions : list string;
  storage_days : Z
}.

Definition isBatchProtein (item : ShoppingItem) : bool :=
  andb (includesStr ["chicken_breast"; "ground_beef_lean"; "white_fish"] (si_food_id item))
       (Qle_bool 1000 (grams_total item)).

Definition batchRecipe (foodId : string) (recipe : Recipe) : bool :=
  andb (existsb (fun ing => String.eqb (food_id ing) foodId) (ingredients recipe))
       (hasTag (tags recipe) batch_cooking).

Definition batchSuggestion (recipes : list Recipe) (item : ShoppingItem)
  : BatchSuggestion :=
  let relatedRecipes := firstn 3 (filter (batchRecipe (si_food_id item)) recipes) in
  let prep : list string * Z :=
    if String.eqb (si_food_id item) "chicken_breast" then
      (["Cocinar a la plancha en lotes grandes"; "Cortar en porciones de 150g";
        "Envasar al vacío o en contenedores herméticos"], 4%Z)
    else if String.eqb (si_food_id item) "ground_beef_lean" then
      (["Cocinar la carne molida con cebolla";
        "Formar hamburguesas y congelar por separado"; "Guardar en bolsas con fecha"],
       5%Z)
    else ([], 3%Z) in
  {| batch_food_id := si_food_id item;
     batch_size_kg := inject_Z (Math_round (grams_total item / 1000 * 10)) / 10;
     suggested_recipes := map recipe_name relatedRecipes;
     prep_instructions := fst prep;
     storage_days := snd prep |}.

Definition generateBatchCookingSuggestions (shoppingList : ShoppingList)
           (recipes : list Recipe) : list BatchSuggestion :=
  map (batchSuggestion recipes) (filter isBatchProtein (items shoppingList)).

(** *** Reference quantities for the consolidation *)

(** the grams consolidated for a food, 0 when it has no entry *)
Definition consolidatedGrams (foodId : string) (entries : list ConsolidatedIngredient)
  : Q :=
  match find (fun e => String.eqb (ci_food_id e) foodId) entries with
  | Some e => total_grams e
  | None => 0
  end.

Definition sumQ (l : list Q) : Q := fold_right Qplus 0 l.

(** the grams of a food one meal calls for: the recipe's ingredients of
    that food times the portions, nothing when the recipe is unknown *)
Definition mealDemand (recipes : list Recipe) (foodId : string) (meal : Meal) : Q :=
  match find (fun r => String.eqb (recipe_ident r) (recipe_id meal)) recipes with
  | None => 0
  | Some recipe =>
      sumQ (map (fun ing =>
                   if String.eqb (food_id ing) foodId
                   then grams ing * portions meal else 0)
                (ingredients recipe))
  end.

Definition spec_demand (mealPlans : list MealPlanDay) (recipes : list Recipe)
           (foodId : string) : Q :=
  sumQ (map (fun plan => sumQ (map (mealDemand recipes foodId) (meals plan))) mealPlans).

(** the number of items held by all groups together *)
Definition groupedCount (grouped : list (StoreKey * list GroupedItem)) : nat :=
  fold_right (fun e n => (List.length (snd e) + n)%nat) 0%nat grouped.

(** what the grouping knows about each of its members *)
Definition wellGrouped (shoppingList : ShoppingList) (foodItems : list FoodItem)
           (store : StoreKey) (x : GroupedItem) : Prop :=
  store_hint (grouped_item x) = store
  /\ In (grouped_item x) (items shoppingList)
  /\ exists f, findFood foodItems (si_food_id (grouped_item x)) = Some f
               /\ food_name x = item_name f.

End ShoppingTools.
Import ShoppingTools.

(* ================================================================== *)
(** * Properties *)

(* ================================================================== *)
(** ** Rounding lemmas *)

Section Rounding.

Lemma Qltb_true (x y : Q) : Qltb x y = true <-> x < y.
Proof.
  unfold Qltb. rewrite negb_true_iff.
  split; intro H.
  - apply Qnot_le_lt. intro L. apply Qle_bool_iff in L. congruence.
  - destruct (Qle_bool y x) eqn:E; [|reflexivity].
    apply Qle_bool_iff in E. exfalso. apply (Qlt_not_le _ _ H E).
Qed.

Lemma Qltb_false (x y : Q) : Qltb x y = false <-> y <= x.
Proof.
  unfold Qltb. rewrite negb_false_iff. apply Qle_bool_iff.
Qed.

Lemma Math_round_lower (x : Q) : inject_Z (Math_round x) - (1 # 2) <= x.
Proof.
  unfold Math_round. pose proof (Qfloor_le (x + (1 # 2))). lra.
Qed.

Lemma Math_round_upper (x : Q) : x < inject_Z (Math_round x) + (1 # 2).
Proof.
  unfold Math_round. pose proof (Qlt_floor (x + (1 # 2))) as H.
  rewrite inject_Z_plus in H. change (inject_Z 1) with 1 in H. lra.
Qed.

Lemma Math_round_mono (x y : Q) : x <= y -> (Math_round x <= Math_round y)%Z.
Proof.
  intro H. unfold Math_round. apply Qfloor_resp_le. lra.
Qed.

Lemma Math_round_Z (z : Z) : Math_round (inject_Z z) = z.
Proof.
  apply Z.le_antisymm.
  - pose proof (Math_round_lower (inject_Z z)) as L.
    assert (inject_Z (Math_round (inject_Z z)) < inject_Z (z + 1)) as K.
    { rewrite inject_Z_plus. change (inject_Z 1) with 1. lra. }
    rewrite <- Zlt_Qlt in K. lia.
  - pose proof (Math_round_upper (inject_Z z)) as U.
    assert (inject_Z (z - 1) < inject_Z (Math_round (inject_Z z))) as K.
    { unfold Z.sub. rewrite inject_Z_plus. change (inject_Z (- (1))) with (-1). lra. }
    rewrite <- Zlt_Qlt in K. lia.
Qed.

Lemma Math_round_unique (x : Q) (n : Z) :
  inject_Z n - (1 # 2) <= x -> x < inject_Z n + (1 # 2) -> Math_round x = n.
Proof.
  intros L U.
  pose proof (Math_round_lower x) as L'. pose proof (Math_round_upper x) as U'.
  assert (inject_Z (Math_round x) < inject_Z (n + 1)) as A.
  { rewrite inject_Z_plus. change (inject_Z 1) with 1. lra. }
  assert (inject_Z n < inject_Z (Math_round x + 1)) as B.
  { rewrite inject_Z_plus. change (inject_Z 1) with 1. lra. }
  rewrite <- Zlt_Qlt in A, B. lia.
Qed.

End Rounding.

(* ================================================================== *)
(** ** Metrics calculator: properties *)

Section CalculatorProperties.

Lemma min_safe_kcal_le_scaled (sex : Sex) (t : Z) (k : Q) :
  (min_safe_kcal sex <= t)%Z -> 1 <= k ->
  (min_safe_kcal sex <= Math_round (inject_Z t * k))%Z.
Proof.
  intros Ht Hk.
  rewrite <- (Math_round_Z (min_safe_kcal sex)).
  apply Math_round_mono.
  assert (0 < inject_Z (min_safe_kcal sex)) as Hpos.
  { destruct sex; reflexivity. }
  rewrite Zle_Qle in Ht. nra.
Qed.

Lemma calculateKcalRange_target_floor
      (tdee goal_weight_kg current_weight_kg : Q) (sex : Sex) :
  (min_safe_kcal sex
   <= kcal_target (calculateKcalRange tdee goal_weight_kg current_weight_kg sex))%Z.
Proof.
  unfold calculateKcalRange; cbn [kcal_target]. apply Z.le_max_r.
Qed.

(** C1. Whatever the expenditure, the weights and the sex, the three
    fields of the range returned by [calculateKcalRange] are at least
    the safety floor of the sex: 1500 kcal for male, 1200 for female. *)
Theorem calculateKcalRange_respects_floor
        (tdee goal_weight_kg current_weight_kg : Q) (sex : Sex) :
  let r := calculateKcalRange tdee goal_weight_kg current_weight_kg sex in
  let floor := match sex with male => 1500%Z | female => 1200%Z end in
  (floor <= kcal_target r)%Z /\ (floor <= kcal_min r)%Z /\ (floor <= kcal_max r)%Z.
Proof.
  intros r floor.
  change floor with (min_safe_kcal sex).
  unfold r, calculateKcalRange; cbn [kcal_target kcal_min kcal_max].
  repeat split.
  - apply Z.le_max_r.
  - apply Z.le_max_r.
  - apply min_safe_kcal_le_scaled; [apply Z.le_max_r | lra].
Qed.


(** C10. In the split returned by [calculateMacros], fat is 0.6 g per kg
    of goal weight (rounded), carbohydrates are the calories left after
    protein (4 kcal/g) and fat (9 kcal/g) divided by 4, never below 0,
    and whenever [carbs_g > 0] the energy of the three macros is within
    4 kcal of the supplied target. *)
Theorem calculateMacros_energy_balance
        (kcal_target goal_weight_kg : Q) (preference_protein : Tier) :
  let m := calculateMacros kcal_target goal_weight_kg preference_protein in
  fat_g m = Math_round (goal_weight_kg * 0.6)
  /\ carbs_g m =
     Z.max 0 (Math_round ((kcal_target - inject_Z (protein_g m * 4)
                           - inject_Z (fat_g m * 9)) / 4))
  /\ ((0 < carbs_g m)%Z ->
      Qabs (inject_Z (protein_g m * 4 + fat_g m * 9 + carbs_g m * 4) - kcal_target) <= 4).
Proof.
  intro m. split; [reflexivity|]. split; [reflexivity|].
  unfold m, calculateMacros; cbn [protein_g fat_g carbs_g].
  set (p := Math_round (goal_weight_kg * protein_ratio preference_protein)).
  set (f := Math_round (goal_weight_kg * FAT_G_PER_KG_min)).
  unfold KCAL_PER_G_protein, KCAL_PER_G_fat, KCAL_PER_G_carbs.
  set (rem := kcal_target - inject_Z (p * 4) - inject_Z (f * 9)).
  intro Hpos.
  rewrite Z.max_r in * by lia.
  pose proof (Math_round_lower (rem / inject_Z 4)) as L.
  pose proof (Math_round_upper (rem / inject_Z 4)) as U.
  set (c := Math_round (rem / inject_Z 4)) in *.
  apply Qabs_Qle_condition.
  rewrite !inject_Z_plus, !inject_Z_mult.
  unfold rem in L, U. rewrite !inject_Z_mult in L, U.
  change (inject_Z 4) with 4 in *. change (inject_Z 9) with 9 in *.
  assert (forall x, x / 4 == x * (1 # 4)) as D by (intro; field).
  rewrite D in L, U.
  split; lra.
Qed.

Lemma calculateMacros_energy_balance_witness :
  Qabs (inject_Z (protein_g (calculateMacros 2000 70 medium) * 4
                  + fat_g (calculateMacros 2000 70 medium) * 9
                  + carbs_g (calculateMacros 2000 70 medium) * 4) - 2000) <= 4.
Proof.
  apply (proj2 (proj2 (calculateMacros_energy_balance 2000 70 medium))).
  vm_compute. reflexivity.
Defined.

End CalculatorProperties.

(* ================================================================== *)
(** ** Stable sorting: the head of a sorted array *)

Section SortHead.

Context {A : Type} (cmp : A -> A -> Q).

(** The comparator orders its arguments consistently: "strictly before"
    is asymmetric and its complement is transitive. *)
Hypothesis cmp_asym : forall a b, cmp a b < 0 -> ~ cmp b a < 0.
Hypothesis cmp_negtrans :
  forall a b c, ~ cmp a b < 0 -> ~ cmp b c < 0 -> ~ cmp a c < 0.

Lemma insertBy_In (x y : A) (l : list A) :
  In y (insertBy cmp x l) <-> y = x \/ In y l.
Proof.
  induction l as [|z zs IH]; simpl.
  - intuition.
  - destruct (Qltb (cmp z x) 0); simpl; rewrite ?IH; intuition.
Qed.

Lemma sortBy_In (y : A) (l : list A) : In y (sortBy cmp l) <-> In y l.
Proof.
  induction l as [|x xs IH]; simpl.
  - tauto.
  - rewrite insertBy_In, IH. intuition.
Qed.

Lemma sortBy_nonempty (l : list A) : l <> [] -> sortBy cmp l <> [].
Proof.
  destruct l as [|x xs]; [congruence|]. intros _ E.
  assert (In x (sortBy cmp (x :: xs))) as H by (apply sortBy_In; left; reflexivity).
  rewrite E in H. exact H.
Qed.

Lemma insertBy_head (x h : A) (l t : list A) :
  (forall h0 t0, l = h0 :: t0 -> forall y, In y l -> ~ cmp y h0 < 0) ->
  insertBy cmp x l = h :: t ->
  forall y, In y (x :: l) -> ~ cmp y h < 0.
Proof.
  intros Hl E y Hy.
  destruct l as [|z zs]; simpl in E.
  - injection E as <- <-. destruct Hy as [<-|[]].
    intro K. exact (cmp_asym _ _ K K).
  - specialize (Hl z zs eq_refl).
    destruct (Qltb (cmp z x) 0) eqn:C.
    + injection E as <- <-. apply Qltb_true in C.
      destruct Hy as [<-|Hy]; [apply cmp_asym; exact C | apply Hl; exact Hy].
    + injection E as <- <-. apply Qltb_false in C.
      assert (~ cmp z x < 0) as NC by (apply Qle_not_lt; exact C).
      destruct Hy as [<-|Hy].
      * intro K. exact (cmp_asym _ _ K K).
      * apply (cmp_negtrans y z x); [apply Hl; exact Hy | exact NC].
Qed.

Lemma sortBy_head (l : list A) (h : A) (t : list A) :
  sortBy cmp l = h :: t -> forall y, In y l -> ~ cmp y h < 0.
Proof.
  revert h t. induction l as [|x xs IH]; intros h t E y Hy.
  - destruct Hy.
  - simpl in E.
    apply (insertBy_head x h (sortBy cmp xs) t).
    + intros h0 t0 E0 y0 Hy0. apply (IH h0 t0 E0). apply sortBy_In. exact Hy0.
    + exact E.
    + destruct Hy as [->|Hy]; [left; reflexivity | right; apply sortBy_In; exact Hy].
Qed.

End SortHead.

(* ================================================================== *)
(** ** Relative deviation tests *)

Section Deviation.

Lemma Qeq_bool_false_neq (x y : Q) : Qeq_bool x y = false -> ~ x == y.
Proof.
  intros E H. apply Qeq_bool_iff in H. congruence.
Qed.



End Deviation.

(* ================================================================== *)
(** ** Meal-plan validation *)

Section Validation.


Lemma kcal_target_pos (user : User) (activityFactor : Q) :
  0 < inject_Z (kcal_target (kcal_range (calculateAllMetrics user activityFactor))).
Proof.
  unfold calculateAllMetrics; cbn [kcal_range].
  set (r := calculateKcalRange _ _ _ _).
  assert (min_safe_kcal (sex user) <= kcal_target r)%Z as H
      by apply calculateKcalRange_target_floor.
  clearbody r.
  change 0 with (inject_Z 0). rewrite <- Zlt_Qlt.
  destruct (sex user); simpl in H; lia.
Qed.






End Validation.

(* ================================================================== *)
(** ** Recipe selection *)

Section Selection.

Lemma compareScored_neg (a b : Scored) : compareScored a b < 0 <-> rankedBefore a b.
Proof.
  unfold compareScored, rankedBefore.
  destruct (Z.eqb (score a) (score b)) eqn:E; cbn [negb].
  - apply Z.eqb_eq in E. split.
    + intro H. right. split; [exact E | lra].
    + intros [H|[_ H]]; [lia | lra].
  - apply Z.eqb_neq in E. change 0 with (inject_Z 0). rewrite <- Zlt_Qlt. split.
    + intro H. left. lia.
    + intros [H|[H _]]; [lia | contradiction].
Qed.

Lemma compareScored_asym (a b : Scored) :
  compareScored a b < 0 -> ~ compareScored b a < 0.
Proof.
  rewrite !compareScored_neg. unfold rankedBefore.
  intros [H|[H1 H2]] [K|[K1 K2]]; try lia. lra.
Qed.

Lemma compareScored_negtrans (a b c : Scored) :
  ~ compareScored a b < 0 -> ~ compareScored b c < 0 -> ~ compareScored a c < 0.
Proof.
  rewrite !compareScored_neg. unfold rankedBefore. intros H K [L|[L1 L2]].
  - destruct (Z.lt_trichotomy (score b) (score a)) as [T|[T|T]].
    + apply H. left. exact T.
    + apply K. left. lia.
    + apply K. left. lia.
  - destruct (Z.lt_trichotomy (score b) (score a)) as [T|[T|T]].
    + apply H. left. exact T.
    + destruct (Qlt_le_dec (kcalDiff a) (kcalDiff b)) as [D|D].
      * apply H. right. split; [symmetry; exact T | exact D].
      * apply K. right. split; [lia | lra].
    + apply K. left. lia.
Qed.

Lemma recipesToScore_nonempty (availableRecipes : list Recipe) (targetKcal tolerance : Q) :
  availableRecipes <> [] -> recipesToScore availableRecipes targetKcal tolerance <> [].
Proof.
  intro H. unfold recipesToScore.
  destruct (filter _ availableRecipes); [exact H | discriminate].
Qed.

(** The score looks at tags, ingredients and cost only. *)
Lemma scoreRecipe_setKcal (recipe : Recipe) (k : Q) (rules : PersonalizationRules) :
  scoreRecipe (setKcal recipe k) rules = scoreRecipe recipe rules.
Proof. reflexivity. Qed.

(** A non-empty candidate list always yields a recipe. *)
Lemma selectRecipeForCalories_some
      (availableRecipes : list Recipe) (targetKcal : Q)
      (rules : PersonalizationRules) (tolerance : Q) :
  availableRecipes <> [] ->
  exists r, selectRecipeForCalories availableRecipes targetKcal rules tolerance = Some r
            /\ In r (recipesToScore availableRecipes targetKcal tolerance)
            /\ forall r', In r' (recipesToScore availableRecipes targetKcal tolerance) ->
                          ~ compareScored (toScored targetKcal rules r')
                              (toScored targetKcal rules r) < 0.
Proof.
  intro Hne. unfold selectRecipeForCalories.
  destruct availableRecipes as [|a0 rest] eqn:Ea; [congruence|].
  rewrite <- Ea in *.
  set (pool := recipesToScore availableRecipes targetKcal tolerance).
  assert (pool <> []) as Hpool by (apply recipesToScore_nonempty; exact Hne).
  destruct (sortBy compareScored (map (toScored targetKcal rules) pool))
    as [|first others] eqn:Es.
  - exfalso. apply (sortBy_nonempty compareScored (map (toScored targetKcal rules) pool)).
    + destruct pool; [congruence | discriminate].
    + exact Es.
  - assert (In first (map (toScored targetKcal rules) pool)) as Hin.
    { apply (sortBy_In compareScored). rewrite Es. left. reflexivity. }
    apply in_map_iff in Hin. destruct Hin as (r & Er & Hr).
    exists r. subst first. cbn [scored_recipe toScored].
    split; [reflexivity|]. split; [exact Hr|].
    intros r' Hr'.
    apply (sortBy_head compareScored compareScored_asym compareScored_negtrans _ _ _ Es).
    apply in_map. exact Hr'.
Qed.

(** C5 (as amended). For a non-empty candidate list, the selection
    returns a recipe of the pool - the candidates within the tolerance
    (15% in the plan generator) of the calorie target when there are
    any, otherwise all candidates - whose score no pool member exceeds,
    and among pool members of the same score none is closer in absolute
    calories.  The score of every recipe is the sum written out below:
    3 for the budget tag under budget priority, 2 for the
    cholesterol-friendly tag under the cholesterol rule, 2 for the
    high-protein tag under the protein rule, 1 for the batch-cooking tag
    under the batch rule, 1 for the quick tag, 1 for a liked ingredient,
    and -2 for a cost estimate above 1500 under budget priority; it has
    no calorie term. *)
Theorem selectRecipeForCalories_best
        (availableRecipes : list Recipe) (targetKcal : Q)
        (rules : PersonalizationRules) (tolerance : Q) :
  availableRecipes <> [] ->
  let inRange := filter (inCalorieRange targetKcal tolerance) availableRecipes in
  let pool := match inRange with [] => availableRecipes | _ :: _ => inRange end in
  let gap r := Qabs (kcal (per_portion r) - targetKcal) in
  exists r,
    selectRecipeForCalories availableRecipes targetKcal rules tolerance = Some r
    /\ In r pool
    /\ (forall r', In r' pool ->
          (scoreRecipe r' rules <= scoreRecipe r rules)%Z
          /\ (scoreRecipe r' rules = scoreRecipe r rules -> gap r <= gap r'))
    /\ (forall k, scoreRecipe (setKcal r k) rules = scoreRecipe r rules)
    /\ (forall q,
          scoreRecipe q rules =
          ((if budget_priority rules && hasTag (tags q) budget then 3 else 0)
           + (if cholesterol_friendly rules && hasTag (tags q) colesterol_friendly
              then 2 else 0)
           + (if high_protein rules && hasTag (tags q) alta_prote then 2 else 0)
           + (if rule_batch_cooking rules && hasTag (tags q) batch_cooking
              then 1 else 0)
           + (if hasTag (tags q) rapida then 1 else 0)
           + (if usesAnyOf (preferred_ingredients rules) q then 1 else 0)
           + (if budget_priority rules
                 && match cost_estimate q with
                    | Some c => negb (Qeq_bool c 0) && Qltb 1500 c
                    | None => false
                    end
              then -2 else 0))%Z).
Proof.
  intros Hne inRange pool gap.
  destruct (selectRecipeForCalories_some availableRecipes targetKcal rules tolerance Hne)
    as (r & Es & Hin & Hbest).
  exists r. split; [exact Es|]. split; [exact Hin|]. split.
  - intros r' Hr'. specialize (Hbest r' Hr').
    rewrite compareScored_neg in Hbest. unfold rankedBefore in Hbest.
    cbn [toScored score kcalDiff] in Hbest.
    split.
    + apply Z.nlt_ge. intro L. apply Hbest. left. exact L.
    + intro E. apply Qnot_lt_le. intro L. apply Hbest. right. split; [exact E | exact L].
  - split; [intro k; reflexivity|].
    intro q. unfold scoreRecipe, bonus. reflexivity.
Qed.

Lemma selectRecipeForCalories_best_witness :
  exists r,
    selectRecipeForCalories [almuerzo_exact; almuerzo_double; almuerzo_quick] 400
                            plainRules 0.15 = Some r
    /\ In r [almuerzo_exact; almuerzo_quick].
Proof.
  destruct (selectRecipeForCalories_best
              [almuerzo_exact; almuerzo_double; almuerzo_quick] 400 plainRules 0.15
              ltac:(discriminate)) as (r & Es & Hin & _).
  exists r. split; [exact Es | exact Hin].
Defined.

(** C5 as stated fails: the score has no calorie penalty.  Two recipes
    that differ in calories only - one on the 400 kcal target, one at
    twice the target and outside the 15% band - score the same; and the
    selection prefers a recipe 50 kcal off target with the [rapida] tag
    to one exactly on target. *)
Lemma scoreRecipe_no_calorie_penalty_counterexample :
  inCalorieRange 400 0.15 almuerzo_exact = true
  /\ inCalorieRange 400 0.15 almuerzo_double = false
  /\ scoreRecipe almuerzo_double plainRules = scoreRecipe almuerzo_exact plainRules
  /\ selectRecipeForCalories [almuerzo_exact; almuerzo_double; almuerzo_quick] 400
                             plainRules 0.15 = Some almuerzo_quick.
Proof.
  vm_compute. repeat split.
Qed.

End Selection.

(* ================================================================== *)
(** ** Daily plan generation *)

Section DailyPlan.

Variables (recipes : list Recipe) (rules : PersonalizationRules) (targetKcal : Z).

Lemma slotStep_pick (acc : DayAcc) (entry : MealType * Q) :
  slotStep recipes rules targetKcal acc entry =
  match spec_slotPick recipes rules targetKcal entry with
  | Some p => addPick acc p
  | None => acc
  end.
Proof.
  destruct entry as [mealType kcalPct].
  unfold slotStep, spec_slotPick, slotCategory, slotTarget; cbn [fst snd].
  destruct (selectRecipeForCalories _ _ rules 0.15) as [r|]; [|reflexivity].
  unfold addPick, spec_mealOfPick, pickKcal, pickGrams, pickPortions;
    cbn [pick_slot pick_recipe pick_target].
  destruct (adjustPortionsForCalories r _ 2.0) as [portions adjusted].
  reflexivity.
Qed.

Lemma fold_slotStep (slots : list (MealType * Q)) (acc : DayAcc) :
  fold_left (slotStep recipes rules targetKcal) slots acc =
  fold_left addPick (spec_dayPicks recipes rules targetKcal slots) acc.
Proof.
  revert acc. induction slots as [|entry rest IH]; intro acc; [reflexivity|].
  cbn [fold_left spec_dayPicks]. rewrite slotStep_pick.
  destruct (spec_slotPick recipes rules targetKcal entry); cbn [fold_left]; apply IH.
Qed.

Lemma fold_addPick (picks : list Pick) (acc : DayAcc) :
  let out := fold_left addPick picks acc in
  acc_meals out = acc_meals acc ++ map spec_mealOfPick picks
  /\ totalKcal out = (totalKcal acc + sumZ (map pickKcal picks))%Z
  /\ totalProtein out = (totalProtein acc + sumZ (map (pickGrams protein) picks))%Z
  /\ totalFat out = (totalFat acc + sumZ (map (pickGrams fat) picks))%Z
  /\ totalCarbs out = (totalCarbs acc + sumZ (map (pickGrams carbs) picks))%Z
  /\ totalFiber out = (totalFiber acc + sumZ (map (pickGrams fiber) picks))%Z.
Proof.
  revert acc. induction picks as [|p rest IH]; intro acc.
  - cbn. rewrite app_nil_r. repeat split; lia.
  - cbn [fold_left map]. destruct (IH (addPick acc p)) as (M & K & P & F & C & B).
    cbn zeta. rewrite M, K, P, F, C, B. unfold addPick; cbn.
    rewrite <- app_assoc. repeat split; unfold sumZ; cbn [fold_right]; lia.
Qed.

(** A slot yields no pick exactly when no recipe survives the filter. *)
Lemma spec_slotPick_none (entry : MealType * Q) :
  spec_slotPick recipes rules targetKcal entry = None <->
  filterRecipesByRules recipes rules (Some (slotCategory (fst entry))) = [].
Proof.
  unfold spec_slotPick.
  set (candidates := filterRecipesByRules recipes rules (Some (slotCategory (fst entry)))).
  split.
  - intro H. destruct candidates as [|c cs] eqn:E; [reflexivity|]. exfalso.
    destruct (selectRecipeForCalories_some
                (c :: cs) (inject_Z (slotTarget targetKcal (snd entry))) rules 0.15
                ltac:(discriminate)) as (r & Er & _).
    rewrite Er in H. discriminate.
  - intros ->. reflexivity.
Qed.

End DailyPlan.

(** C6. [generateDailyMealPlan] returns no result exactly when no slot
    of the day template finds a recipe; otherwise it returns a day with
    at least one meal, whose meals are the picks of the slots that found
    a recipe, in slot order, and whose totals are the sums over exactly
    those meals.  A slot is left out exactly when the filter leaves it
    no candidate, and the other slots are unaffected. *)
Theorem generateDailyMealPlan_complete_or_null
        (user : User) (recipes : list Recipe) (date : string) (activityFactor : Q) :
  let rules := generatePersonalizationRules user in
  let template := selectDayTemplate user rules in
  let targetKcal := kcal_target (kcal_range (calculateAllMetrics user activityFactor)) in
  let picks := spec_dayPicks recipes rules targetKcal (kcal_distribution template) in
  match generateDailyMealPlan user recipes date activityFactor with
  | None => picks = []
  | Some plan =>
      picks <> []
      /\ (1 <= List.length (meals plan))%nat
      /\ meals plan = map spec_mealOfPick picks
      /\ totals plan = spec_totals picks
  end
  /\ (forall entry,
        spec_slotPick recipes rules targetKcal entry = None <->
        filterRecipesByRules recipes rules (Some (slotCategory (fst entry))) = []).
Proof.
  intros rules template targetKcal picks.
  split; [|apply spec_slotPick_none].
  unfold generateDailyMealPlan. fold rules. fold template. fold targetKcal.
  rewrite fold_slotStep. fold picks.
  destruct (fold_addPick picks emptyAcc) as (M & K & P & F & C & B).
  cbn zeta in M, K, P, F, C, B. cbn [emptyAcc acc_meals totalKcal totalProtein
    totalFat totalCarbs totalFiber app Z.add] in M, K, P, F, C, B.
  destruct (acc_meals (fold_left addPick picks emptyAcc)) as [|m ms] eqn:E.
  - destruct picks; [reflexivity | discriminate M].
  - cbn [meals totals]. split; [|split; [|split]].
    + intro Z0. rewrite Z0 in M. discriminate M.
    + cbn. lia.
    + exact M.
    + unfold spec_totals. rewrite K, P, F, C, B. reflexivity.
Qed.

(** Slot targets of a generated day are positive, so the portion count
    of a pick is finite: [adjustPortionsForCalories] never meets [0/0]
    there. *)
Lemma quarterPortions_finite (targetKcal baseKcal maxPortion : Q) :
  0 < targetKcal -> exists q, quarterPortions targetKcal baseKcal maxPortion = Fin q.
Proof.
  intro H. unfold quarterPortions, clampPortions, jsdiv.
  destruct (Qeq_bool baseKcal 0).
  - assert (Qltb 0 targetKcal = true) as E by (apply Qltb_true; exact H).
    rewrite E. eexists. reflexivity.
  - eexists. reflexivity.
Qed.

Lemma selectDayTemplate_shares (user : User) (rules : PersonalizationRules)
      (entry : MealType * Q) :
  In entry (kcal_distribution (selectDayTemplate user rules)) -> 0.05 <= snd entry.
Proof.
  unfold selectDayTemplate.
  destruct (includesStr _ _); [|destruct (andb _ _)]; cbn;
    intros H; repeat (destruct H as [<-|H]; [cbn; lra|]); destruct H.
Qed.

Lemma generated_slotTarget_pos (user : User) (activityFactor : Q) (entry : MealType * Q) :
  In entry (kcal_distribution
              (selectDayTemplate user (generatePersonalizationRules user))) ->
  (0 < slotTarget (kcal_target (kcal_range (calculateAllMetrics user activityFactor)))
                  (snd entry))%Z.
Proof.
  intro Hin. apply selectDayTemplate_shares in Hin.
  pose proof (kcal_target_pos user activityFactor) as Hpos.
  unfold calculateAllMetrics in *; cbn [kcal_range] in *.
  set (r := calculateKcalRange _ _ _ _) in *.
  assert (1200 <= kcal_target r)%Z as Hfloor.
  { pose proof (calculateKcalRange_target_floor
                  (inject_Z (calculateTDEE
                     (calculateBMR_Mifflin (sex user) (weight_kg user)
                        (height_cm user) (age user)) activityFactor))
                  (goal_weight_kg user) (weight_kg user) (sex user)) as F.
    fold r in F. clearbody r. destruct (sex user); cbn in F; lia. }
  clearbody r. unfold slotTarget.
  apply Z.lt_le_trans with (m := Math_round 60).
  - reflexivity.
  - apply Math_round_mono. rewrite Zle_Qle in Hfloor.
    change (inject_Z 1200) with 1200 in Hfloor. nra.
Qed.

(* ================================================================== *)
(** ** Workout progression and generation *)

Section WorkoutProperties.

Lemma selectBestWorkout_In (availableTemplates : list WorkoutTemplate)
      (fitnessLevel : FitnessLevel) (prefs : WorkoutPreferences) (t : WorkoutTemplate) :
  selectBestWorkout availableTemplates fitnessLevel prefs = Some t ->
  In t availableTemplates.
Proof.
  unfold selectBestWorkout.
  destruct availableTemplates as [|first rest] eqn:Ea; [discriminate|].
  rewrite <- Ea.
  destruct (filter _ availableTemplates) as [|l ls] eqn:Ef.
  - intro H. injection H as <-. rewrite Ea. left. reflexivity.
  - rewrite <- Ef.
    destruct (sortBy _ _) as [|best others] eqn:Es; [discriminate|].
    intro H. injection H as <-.
    assert (In best (sortBy (fun a b : WorkoutTemplate * Q => snd b - snd a)
                       (map (fun t => (t, scoreTemplate prefs t))
                            (filter (fun template =>
                                       existsb (FitnessLevel_eqb fitnessLevel)
                                               (fitness_level template))
                                    availableTemplates)))) as Hin.
    { rewrite Es. left. reflexivity. }
    apply sortBy_In in Hin. apply in_map_iff in Hin.
    destruct Hin as (t & <- & Ht). cbn [fst].
    apply filter_In in Ht. exact (proj1 Ht).
Qed.

Lemma selectBestWorkout_some (availableTemplates : list WorkoutTemplate)
      (fitnessLevel : FitnessLevel) (prefs : WorkoutPreferences) :
  availableTemplates <> [] ->
  exists t, selectBestWorkout availableTemplates fitnessLevel prefs = Some t.
Proof.
  intro Hne. unfold selectBestWorkout.
  destruct availableTemplates as [|first rest] eqn:Ea; [congruence|].
  rewrite <- Ea.
  destruct (filter _ availableTemplates) as [|l ls] eqn:Ef.
  - eexists. reflexivity.
  - destruct (sortBy _ _) as [|best others] eqn:Es.
    + exfalso. revert Es. apply sortBy_nonempty. discriminate.
    + eexists. reflexivity.
Qed.

(** Every catalogued template dies on its first block: the block's
    details are rewritten, then [user] is looked up and not found. *)
Lemma progressWorkout_throws (template : WorkoutTemplate)
      (personalRecords : PersonalRecords) (fitnessLevel : FitnessLevel)
      (sessionNumber : Z) :
  In template WORKOUT_TEMPLATES ->
  progressWorkout template personalRecords fitnessLevel sessionNumber =
  Throw (ReferenceError "user").
Proof.
  intro H. unfold WORKOUT_TEMPLATES in H.
  repeat (destruct H as [<-|H]; [reflexivity|]). destruct H.
Qed.

Lemma filterWorkoutsByEquipment_In (templates : list WorkoutTemplate)
      (equipment : Equipment) (t : WorkoutTemplate) :
  In t (filterWorkoutsByEquipment templates equipment) -> In t templates.
Proof.
  unfold filterWorkoutsByEquipment. intro H. apply filter_In in H. exact (proj1 H).
Qed.

(** C8. Whenever some template passes the equipment filter, the body of
    [generateWorkoutPlan] ends in the reference error raised for the
    unbound identifier [user] inside [progressWorkout]; the handler
    turns it into [null], so the call returns [null] and lets no
    exception out. *)
Theorem generateWorkoutPlan_always_null
        (user : User) (personalRecords : PersonalRecords) (date : IsoDate)
        (prefs : option WorkoutPreferences) :
  filterWorkoutsByEquipment WORKOUT_TEMPLATES (equipment user) <> [] ->
  resolve "user" progressWorkout_scope = Throw (ReferenceError "user")
  /\ generateWorkoutPlan_body user personalRecords date prefs
     = Throw (ReferenceError "user")
  /\ generateWorkoutPlan user personalRecords date prefs = None.
Proof.
  intro Hne.
  split; [reflexivity|].
  assert (generateWorkoutPlan_body user personalRecords date prefs
          = Throw (ReferenceError "user")) as Hbody.
  { unfold generateWorkoutPlan_body.
    set (available := filterWorkoutsByEquipment WORKOUT_TEMPLATES (equipment user)) in *.
    destruct (selectBestWorkout_some
                available (evaluateFitnessLevel personalRecords user)
                (match prefs with Some p => p | None => noWorkoutPreferences end) Hne)
      as (t & Et).
    destruct available as [|a rest] eqn:Ea; [congruence|].
    rewrite <- Ea in *. rewrite Et.
    rewrite progressWorkout_throws; [reflexivity|].
    apply filterWorkoutsByEquipment_In with (equipment := equipment user).
    fold available.
    apply selectBestWorkout_In in Et. exact Et. }
  split; [exact Hbody|].
  unfold generateWorkoutPlan. rewrite Hbody. reflexivity.
Qed.

Lemma generateWorkoutPlan_always_null_witness :
  generateWorkoutPlan ana sampleRecords day5 None = None.
Proof.
  apply (generateWorkoutPlan_always_null ana sampleRecords day5 None).
  vm_compute. discriminate.
Defined.

(** The finished details of a block do not depend on the session. *)
Lemma progressDetails_session_irrelevant
      (personalRecords : PersonalRecords) (fitnessLevel : FitnessLevel)
      (s1 s2 : Z) (blk : TemplateBlock) :
  progressDetails personalRecords fitnessLevel s1 blk =
  progressDetails personalRecords fitnessLevel s2 blk.
Proof. reflexivity. Qed.

(** What the level multiplier does to run and interval blocks. *)
Lemma progressDetails_run (personalRecords : PersonalRecords)
      (fitnessLevel : FitnessLevel) (sessionNumber : Z) (name : string)
      (distance : option Q) (speed : Q) (incline : option Q) (type : RunType)
      (minutes : Q) :
  progressDetails personalRecords fitnessLevel sessionNumber
    {| block_type := b_run; block_name := name;
       details := DRun distance speed incline type; duration_min := minutes |}
  = Ok (DRun distance (Qmax 5 (speed * intensityMultiplier fitnessLevel)) incline type).
Proof. reflexivity. Qed.

Lemma progressDetails_hiit (personalRecords : PersonalRecords)
      (fitnessLevel : FitnessLevel) (sessionNumber : Z) (name : string)
      (work rest rounds : Q) (exercises : list string) (minutes : Q) :
  progressDetails personalRecords fitnessLevel sessionNumber
    {| block_type := b_hiit; block_name := name;
       details := DHIIT work rest rounds exercises; duration_min := minutes |}
  = Ok (DHIIT (inject_Z (Math_round (work * intensityMultiplier fitnessLevel)))
              (inject_Z (Math_round (rest / intensityMultiplier fitnessLevel)))
              rounds exercises).
Proof. reflexivity. Qed.

(** C7 (the code departs from it). The session multiplier
    [1 + 0.05 * (sessionNumber - 1)] never reaches a block: the rewritten
    details are the same for every session number.  With a push-up
    maximum of 20 at the intermediate level the third session gets
    [round (20 * 0.7 * 1.0) = 14] repetitions, where the compounded
    multiplier would give [round (20 * 0.7 * 1.0 * 1.1) = 15]; and the
    call as a whole ends in the reference error of C8.  The plan
    generator itself reaches the same departure: for a user with a mat
    only and these records it rates the level intermediate, picks the
    bodyweight template and, four days after sign-up, asks for session
    3; the plank then lasts [round (60 * 0.8 * 1.0) = 48] seconds and
    the sit-ups are [round (30 * 0.7 * 1.0) = 21], where the compounded
    multiplier would give 53 and 23. *)
Theorem progressWorkout_drops_session_multiplier :
  (forall personalRecords fitnessLevel sessionNumber blk,
      progressDetails personalRecords fitnessLevel sessionNumber blk =
      progressDetails personalRecords fitnessLevel 1 blk)
  /\ progressDetails sampleRecords intermediate 3 beginnerStrength
     = Ok (DStrength [exercise "Flexiones (modificadas si es necesario)" 2
                               (RepsCount (inject_Z 14)) None 90;
                      exercise "Sentadillas" 2 (RepsCount 15) None 60;
                      exercise "Plancha" 2 RepsTime (Some (inject_Z 48)) 60])
  /\ Z.max 5 (Math_round (pushups_max sampleRecords * 0.7
                          * (intensityMultiplier intermediate
                             * (1 + 0.05 * (3 - 1))))) = 15%Z
  /\ progressWorkout beginner_basic sampleRecords intermediate 3
     = Throw (ReferenceError "user")
  /\ evaluateFitnessLevel sampleRecords ana = intermediate
  /\ selectBestWorkout (filterWorkoutsByEquipment WORKOUT_TEMPLATES (equipment ana))
                        intermediate noWorkoutPreferences
     = Some strength_bodyweight
  /\ ((epoch_ms day5 - createdAt ana) / msPerDay / 2 + 1 = 3)%Z
  /\ In bodyweightCircuit (wt_blocks strength_bodyweight)
  /\ progressDetails sampleRecords intermediate 3 bodyweightCircuit
     = Ok (DStrength [exercise "Flexiones" 3 AMRAP None 90;
                      exercise "Abdominales" 3 (RepsCount (inject_Z 21)) None 60;
                      exercise "Plancha" 3 RepsTime (Some (inject_Z 48)) 60])
  /\ Z.max 10 (Math_round (abs_max sampleRecords * 0.7
                           * (intensityMultiplier intermediate
                              * (1 + 0.05 * (3 - 1))))) = 23%Z
  /\ Z.max 15 (Math_round (plank_sec sampleRecords * 0.8
                           * (intensityMultiplier intermediate
                              * (1 + 0.05 * (3 - 1))))) = 53%Z
  /\ progressWorkout strength_bodyweight sampleRecords intermediate 3
     = Throw (ReferenceError "user").
Proof.
  split; [intros; reflexivity|].
  split; [vm_compute; reflexivity|].
  split; [vm_compute; reflexivity|].
  split; [vm_compute; reflexivity|].
  split; [vm_compute; reflexivity|].
  split; [vm_compute; reflexivity|].
  split; [vm_compute; reflexivity|].
  split; [right; left; reflexivity|].
  split; [vm_compute; reflexivity|].
  split; [vm_compute; reflexivity|].
  split; vm_compute; reflexivity.
Qed.

End WorkoutProperties.

(* ================================================================== *)
(** ** Shopping list: store assignment and totals *)

Section StoreComparison.

Variables (cost : Q) (foodItem : FoodItem) (grams : Q) (user : User) (currentMonth : Z).

Let pricingAt (store : StoreKey) : Pricing :=
  calculateDiscountedPrice cost foodItem grams (STORE_CONFIGS store) user currentMonth.

Lemma compareStore_consistent (best : Best) (store : StoreKey) :
  bestConsistent cost foodItem grams user currentMonth best ->
  bestConsistent cost foodItem grams user currentMonth
                 (compareStore cost foodItem grams user currentMonth best store).
Proof.
  intros H. unfold compareStore. fold (pricingAt store).
  destruct (belowBest _ best); [|exact H].
  intros p E; cbn [bestPrice bestStore bestSavings] in *.
  injection E as <-. split; reflexivity.
Qed.

Lemma compareStore_price (best : Best) (store : StoreKey) :
  exists p,
    bestPrice (compareStore cost foodItem grams user currentMonth best store) = Some p
    /\ (p <= final_price (pricingAt store))%Z
    /\ (forall q, bestPrice best = Some q -> (p <= q)%Z)
    /\ (bestStore (compareStore cost foodItem grams user currentMonth best store) = store
        \/ bestStore (compareStore cost foodItem grams user currentMonth best store)
           = bestStore best /\ bestPrice best <> None).
Proof.
  unfold compareStore, belowBest. fold (pricingAt store).
  destruct (bestPrice best) as [b|] eqn:Eb.
  - destruct (final_price (pricingAt store) <? b)%Z eqn:Elt.
    + apply Z.ltb_lt in Elt. exists (final_price (pricingAt store)).
      cbn [bestPrice bestStore]. split; [reflexivity|].
      split; [lia|]. split; [|left; reflexivity].
      intros q E. injection E as <-. lia.
    + apply Z.ltb_ge in Elt. exists b. rewrite Eb. split; [reflexivity|].
      split; [exact Elt|]. split; [|right; split; [reflexivity | discriminate]].
      intros q E. injection E as <-. lia.
  - exists (final_price (pricingAt store)).
    cbn [bestPrice bestStore]. split; [reflexivity|]. split; [lia|].
    split; [discriminate | left; reflexivity].
Qed.

Lemma fold_compareStore (stores : list StoreKey) (best : Best) (b : Z) :
  bestPrice best = Some b ->
  exists p,
    bestPrice (fold_left (compareStore cost foodItem grams user currentMonth) stores best)
    = Some p
    /\ (p <= b)%Z
    /\ (forall s, In s stores -> (p <= final_price (pricingAt s))%Z)
    /\ (In (bestStore (fold_left (compareStore cost foodItem grams user currentMonth)
                                 stores best)) stores
        \/ bestStore (fold_left (compareStore cost foodItem grams user currentMonth)
                                stores best) = bestStore best).
Proof.
  revert best b. induction stores as [|s rest IH]; intros best b Eb.
  - exists b. cbn. split; [exact Eb|]. split; [lia|]. split; [intros ? []|].
    right. reflexivity.
  - cbn [fold_left].
    destruct (compareStore_price best s) as (p1 & E1 & L1 & Q1 & S1).
    destruct (IH _ _ E1) as (p & Ep & Lp & Hall & Hst).
    exists p. split; [exact Ep|]. split; [specialize (Q1 b Eb); lia|].
    split.
    + intros s' [<-|Hin]; [lia | apply Hall; exact Hin].
    + destruct Hst as [Hst|Hst]; [left; right; exact Hst|].
      rewrite Hst. destruct S1 as [->|[-> _]]; [left; left; reflexivity|].
      right. reflexivity.
Qed.

Lemma fold_compareStore_consistent (stores : list StoreKey) (best : Best) :
  bestConsistent cost foodItem grams user currentMonth best ->
  bestConsistent cost foodItem grams user currentMonth
                 (fold_left (compareStore cost foodItem grams user currentMonth)
                            stores best).
Proof.
  revert best. induction stores as [|s rest IH]; intros best H; [exact H|].
  cbn [fold_left]. apply IH. apply compareStore_consistent. exact H.
Qed.

(** The outcome of the comparison: a store of the available ones, with
    its own final price, which no available store undercuts. *)
Lemma findBest_cheapest :
  let best := findBest cost foodItem grams user currentMonth in
  bestPrice best = Some (final_price (pricingAt (bestStore best)))
  /\ bestSavings best = (original_price (pricingAt (bestStore best))
                         - final_price (pricingAt (bestStore best)))%Z
  /\ In (bestStore best) (availableStores user)
  /\ forall s, In s (availableStores user) ->
               (final_price (pricingAt (bestStore best)) <= final_price (pricingAt s))%Z.
Proof.
  intro best.
  assert (bestConsistent cost foodItem grams user currentMonth best) as Hc.
  { apply fold_compareStore_consistent. intros p E. discriminate E. }
  assert (exists first rest, availableStores user = first :: rest) as (first & rest & Ea).
  { unfold availableStores. destruct (isLowBudget user); eexists; eexists; reflexivity. }
  unfold best, findBest in *. rewrite Ea in *. cbn [fold_left] in *.
  destruct (compareStore_price initialBest first) as (p1 & E1 & L1 & _ & S1).
  destruct (fold_compareStore rest _ _ E1) as (p & Ep & Lp & Hall & Hst).
  unfold pricingAt in *.
  destruct (Hc p Ep) as [Hp Hs]. subst p.
  split; [exact Ep|]. split; [exact Hs|]. split.
  - destruct Hst as [Hst|Hst]; [right; exact Hst|].
    rewrite Hst. destruct S1 as [->|[_ K]]; [left; reflexivity|].
    exfalso. apply K. reflexivity.
  - intros s [<-|Hin]; [lia | apply Hall; exact Hin].
Qed.

End StoreComparison.

Section ShoppingTotals.

Variables (foodItems : list FoodItem) (user : User) (currentMonth : Z).

Lemma StoreKey_eqb_eq (a b : StoreKey) : StoreKey_eqb a b = true <-> a = b.
Proof. destruct a, b; cbn; split; congruence. Qed.

Lemma updateEntry_map {V : Type} (key : StoreKey) (f : V -> V) (g : StoreKey -> V)
      (stores : list StoreKey) :
  updateEntry key f (map (fun s => (s, g s)) stores)
  = map (fun s => (s, if StoreKey_eqb s key then f (g s) else g s)) stores.
Proof.
  unfold updateEntry. rewrite map_map. apply map_ext. intro s. cbn [fst snd].
  destruct (StoreKey_eqb s key); reflexivity.
Qed.

Lemma fold_assignIngredient (ingredients : list ConsolidatedIngredient)
      (opt : Optimization) (held : StoreKey -> list ConsolidatedIngredient)
      (stores : list StoreKey) :
  distribution opt = map (fun s => (s, held s)) stores ->
  let assignments := spec_assignments foodItems user currentMonth ingredients in
  let out := fold_left (assignIngredient foodItems user currentMonth) ingredients opt in
  distribution out = map (fun s => (s, held s ++ storeShare assignments s)) stores
  /\ total_cost out
     = (total_cost opt + sumZ (map (spec_finalPrice user currentMonth) assignments))%Z
  /\ total_savings out
     = (total_savings opt + sumZ (map (spec_saving user currentMonth) assignments))%Z.
Proof.
  revert opt held. induction ingredients as [|ing rest IH]; intros opt held Hd.
  - cbn. rewrite Hd. split; [|split; lia].
    apply map_ext. intro s. unfold storeShare. cbn. rewrite app_nil_r. reflexivity.
  - cbn [fold_left spec_assignments]. cbn zeta.
    destruct (pricedFood foodItems (ci_food_id ing)) as [[f c]|] eqn:Ep.
    + set (best := findBest c f (total_grams ing) user currentMonth).
      destruct (findBest_cheapest c f (total_grams ing) user currentMonth)
        as (Hprice & Hsave & _ & _).
      fold best in Hprice, Hsave.
      assert (exists opt', assignIngredient foodItems user currentMonth opt ing = opt'
                           /\ distribution opt'
                              = updateEntry (bestStore best) (fun l => l ++ [ing])
                                            (distribution opt)
                           /\ total_cost opt' = (total_cost opt + settledPrice best)%Z
                           /\ total_savings opt'
                              = (total_savings opt + bestSavings best)%Z)
        as (opt' & Eo & Od & Ot & Os).
      { eexists. split; [reflexivity|]. unfold assignIngredient. rewrite Ep.
        fold best. cbn [distribution total_cost total_savings]. repeat split. }
      rewrite Eo.
      assert (distribution opt'
              = map (fun s => (s, if StoreKey_eqb s (bestStore best)
                                  then held s ++ [ing] else held s)) stores) as Hd'.
      { rewrite Od, Hd. apply updateEntry_map. }
      destruct (IH opt' _ Hd') as (D & T & S).
      cbn zeta in D, T, S. rewrite D, T, S, Ot, Os.
      split; [|split].
      * apply map_ext. intro s. f_equal. unfold storeShare.
        cbn [filter assigned_store].
        destruct (StoreKey_eqb s (bestStore best)) eqn:Es.
        -- apply StoreKey_eqb_eq in Es. subst s.
           assert (StoreKey_eqb (bestStore best) (bestStore best) = true) as R
               by (apply StoreKey_eqb_eq; reflexivity).
           rewrite R. cbn [map assigned_ingredient]. rewrite <- app_assoc. reflexivity.
        -- assert (StoreKey_eqb (bestStore best) s = false) as R.
           { destruct (StoreKey_eqb (bestStore best) s) eqn:K; [|reflexivity].
             apply StoreKey_eqb_eq in K. rewrite <- K in Es.
             assert (StoreKey_eqb (bestStore best) (bestStore best) = true)
               by (apply StoreKey_eqb_eq; reflexivity). congruence. }
           rewrite R. reflexivity.
      * unfold settledPrice. rewrite Hprice.
        unfold sumZ; cbn [map fold_right].
        unfold spec_finalPrice, priceAt;
          cbn [assigned_store assigned_cost assigned_item assigned_ingredient].
        fold best. lia.
      * rewrite Hsave.
        unfold sumZ; cbn [map fold_right].
        unfold spec_saving, priceAt;
          cbn [assigned_store assigned_cost assigned_item assigned_ingredient].
        fold best. lia.
    + assert (assignIngredient foodItems user currentMonth opt ing = opt) as Eo
          by (unfold assignIngredient; rewrite Ep; reflexivity).
      rewrite Eo. apply IH. exact Hd.
Qed.

Lemma fold_addDelivery (entries : list (StoreKey * list ConsolidatedIngredient))
      (costs : list (StoreKey * Z)) (total : Z) :
  snd (fold_left addDelivery entries (costs, total))
  = (total + sumZ (map dueOrZero entries))%Z.
Proof.
  revert costs total. induction entries as [|e rest IH]; intros costs total.
  - cbn. lia.
  - cbn [fold_left]. unfold addDelivery at 2, sumZ. cbn [map fold_right].
    unfold dueOrZero at 1. fold (sumZ (map dueOrZero rest)).
    destruct (deliveryDue e) as [c|]; cbn [fst snd]; rewrite IH; lia.
Qed.

Lemma storeShare_received (assignments : list Assignment) (store : StoreKey) :
  dueOrZero (store, storeShare assignments store)
  = if spec_received assignments store then spec_deliveryCost store else 0%Z.
Proof.
  unfold dueOrZero, deliveryDue, spec_received, storeShare, spec_deliveryCost.
  cbn [fst snd].
  induction assignments as [|a rest IH]; [reflexivity|].
  cbn [filter existsb].
  destruct (StoreKey_eqb (assigned_store a) store); cbn [map orb]; [|exact IH].
  destruct (delivery_cost (STORE_CONFIGS store)) as [c|]; [|reflexivity].
  destruct (c =? 0)%Z eqn:E; [|reflexivity]. apply Z.eqb_eq in E. lia.
Qed.

Lemma optimizeStoreDistribution_totals (ingredients : list ConsolidatedIngredient) :
  let assignments := spec_assignments foodItems user currentMonth ingredients in
  let opt := optimizeStoreDistribution ingredients foodItems user currentMonth in
  total_cost opt
  = (sumZ (map (spec_finalPrice user currentMonth) assignments)
     + spec_deliveryTotal user assignments)%Z
  /\ total_savings opt = sumZ (map (spec_saving user currentMonth) assignments).
Proof.
  intros assignments opt. unfold opt, optimizeStoreDistribution.
  cbn [total_cost total_savings].
  match goal with
  | |- context [fold_left (assignIngredient _ _ _) ingredients ?o] => set (start := o)
  end.
  destruct (fold_assignIngredient ingredients start (fun _ => []) (availableStores user)
                                  eq_refl) as (D & T & S).
  cbn zeta in D, T, S. fold assignments in D, T, S.
  rewrite fold_addDelivery, D, T, S. unfold start; cbn [total_cost total_savings].
  split; [|lia].
  rewrite map_map. unfold spec_deliveryTotal.
  rewrite (map_ext (fun s => dueOrZero (s, [] ++ storeShare assignments s))
                   (fun s => if spec_received assignments s
                             then spec_deliveryCost s else 0%Z)).
  - lia.
  - intro s. cbn [app]. apply storeShare_received.
Qed.

Lemma spec_assignments_cheapest (ingredients : list ConsolidatedIngredient)
      (a : Assignment) :
  In a (spec_assignments foodItems user currentMonth ingredients) ->
  In (assigned_store a) (availableStores user)
  /\ forall s, In s (availableStores user) ->
               (final_price (priceAt user currentMonth a (assigned_store a))
                <= final_price (priceAt user currentMonth a s))%Z.
Proof.
  induction ingredients as [|ing rest IH]; [intros []|].
  cbn [spec_assignments].
  destruct (pricedFood foodItems (ci_food_id ing)) as [[f c]|]; [|exact IH].
  intros [<-|Hin]; [|apply IH; exact Hin].
  destruct (findBest_cheapest c f (total_grams ing) user currentMonth)
    as (_ & _ & Hin & Hmin).
  unfold priceAt; cbn [assigned_store assigned_cost assigned_item assigned_ingredient].
  split; [exact Hin | exact Hmin].
Qed.

Lemma spec_assignments_priced (ingredients : list ConsolidatedIngredient)
      (a : Assignment) :
  In a (spec_assignments foodItems user currentMonth ingredients) ->
  pricedFood foodItems (ci_food_id (assigned_ingredient a))
  = Some (assigned_item a, assigned_cost a).
Proof.
  induction ingredients as [|ing rest IH]; [intros []|].
  cbn [spec_assignments].
  destruct (pricedFood foodItems (ci_food_id ing)) as [[f c]|] eqn:Ep; [|exact IH].
  intros [<-|Hin]; [exact Ep | apply IH; exact Hin].
Qed.

(** The items listed for a store cost what the assignment priced. *)
Lemma itemsOfStore_cost (assignments : list Assignment) (store : StoreKey) :
  (forall a, In a assignments ->
             pricedFood foodItems (ci_food_id (assigned_ingredient a))
             = Some (assigned_item a, assigned_cost a)) ->
  sumZ (map si_cost_estimate
            (itemsOfStore foodItems user currentMonth
                          (store, storeShare assignments store)))
  = sumZ (map (fun a => if StoreKey_eqb (assigned_store a) store
                        then spec_finalPrice user currentMonth a else 0%Z)
              assignments).
Proof.
  unfold itemsOfStore, storeShare; cbn [fst snd].
  induction assignments as [|a rest IH]; intro Hp; [reflexivity|].
  cbn [filter map]. unfold sumZ at 2. cbn [fold_right].
  fold (sumZ (map (fun a0 => if StoreKey_eqb (assigned_store a0) store
                             then spec_finalPrice user currentMonth a0 else 0%Z) rest)).
  rewrite <- IH by (intros a' Ha'; apply Hp; right; exact Ha').
  destruct (StoreKey_eqb (assigned_store a) store) eqn:Es; [|lia].
  apply StoreKey_eqb_eq in Es.
  cbn [map flat_map].
  pose proof (Hp a (or_introl eq_refl)) as Ha. unfold pricedFood in Ha.
  destruct (findFood foodItems (ci_food_id (assigned_ingredient a))) as [f|];
    [|discriminate Ha].
  destruct (cost_per_kg f) as [c|]; [|discriminate Ha].
  destruct (Qeq_bool c 0); [discriminate Ha|].
  injection Ha as Ef Ec.
  rewrite map_app. unfold sumZ. rewrite fold_right_app.
  cbn [map fold_right si_cost_estimate].
  unfold spec_finalPrice, priceAt. rewrite <- Ef, <- Ec, Es.
  set (tailSum := fold_right Z.add 0%Z _).
  generalize tailSum. intro t. clear.
  induction (final_price _); lia.
Qed.

Lemma sum_over_stores (assignments : list Assignment) (price : Assignment -> Z) :
  (forall a, In a assignments -> In (assigned_store a) (availableStores user)) ->
  sumZ (map (fun store =>
               sumZ (map (fun a => if StoreKey_eqb (assigned_store a) store
                                   then price a else 0%Z) assignments))
            (availableStores user))
  = sumZ (map price assignments).
Proof.
  induction assignments as [|a rest IH]; intro Hin.
  - unfold availableStores. destruct (isLowBudget user); reflexivity.
  - specialize (IH (fun a' Ha' => Hin a' (or_intror Ha'))).
    pose proof (Hin a (or_introl eq_refl)) as Ha.
    unfold sumZ in *. cbn [map fold_right] in *.
    rewrite <- IH. clear IH Hin.
    unfold availableStores in *.
    destruct (isLowBudget user); cbn [map fold_right In] in *;
      destruct (assigned_store a); cbn [StoreKey_eqb];
      try lia; intuition discriminate.
Qed.

(** The cost estimates of the listed items add up to the assigned
    prices: the total of the list is the sum of its items plus
    delivery. *)
Lemma generateWeeklyShoppingList_items_cost
      (mealPlans : list MealPlanDay) (recipes : list Recipe) (weekStart : string) :
  let shoppingList :=
    generateWeeklyShoppingList user mealPlans recipes foodItems weekStart currentMonth in
  let assignments :=
    spec_assignments foodItems user currentMonth
                     (consolidateIngredients mealPlans recipes) in
  total_cost_estimate shoppingList
  = (sumZ (map si_cost_estimate (items shoppingList))
     + spec_deliveryTotal user assignments)%Z.
Proof.
  intros shoppingList assignments.
  destruct (optimizeStoreDistribution_totals (consolidateIngredients mealPlans recipes))
    as (T & _).
  cbn zeta in T. fold assignments in T.
  unfold shoppingList, generateWeeklyShoppingList; cbn [total_cost_estimate items].
  rewrite T. f_equal.
  unfold optimizeStoreDistribution; cbn [distribution].
  match goal with
  | |- context [fold_left (assignIngredient _ _ _) _ ?o] => set (start := o)
  end.
  destruct (fold_assignIngredient (consolidateIngredients mealPlans recipes) start
                                  (fun _ => []) (availableStores user) eq_refl)
    as (D & _ & _).
  cbn zeta in D. fold assignments in D. rewrite D. cbn [app].
  rewrite <- (sum_over_stores assignments (spec_finalPrice user currentMonth))
    by (intros a Ha; apply (spec_assignments_cheapest _ a Ha)).
  generalize (availableStores user). intro stores.
  induction stores as [|s rest IH]; [reflexivity|].
  cbn [map flat_map]. rewrite map_app.
  unfold sumZ in *. rewrite fold_right_app. cbn [map fold_right]. rewrite <- IH.
  fold (sumZ (map si_cost_estimate
                  (itemsOfStore foodItems user currentMonth
                                (s, storeShare assignments s)))).
  pose proof (itemsOfStore_cost assignments s
                (fun a Ha => spec_assignments_priced _ a Ha)) as E.
  unfold sumZ in E at 2. rewrite <- E. unfold sumZ.
  generalize (map si_cost_estimate
                  (flat_map (itemsOfStore foodItems user currentMonth)
                            (map (fun s0 => (s0, storeShare assignments s0)) rest))).
  intro tl.
  generalize (map si_cost_estimate
                  (itemsOfStore foodItems user currentMonth
                                (s, storeShare assignments s))).
  intro hd. induction hd as [|x xs IHx]; cbn [fold_right]; lia.
Qed.

End ShoppingTotals.

(** The priced scenario of the specification: 1200 g of chicken breast
    at 6000 per kg, low budget, discount store: 7200, then 5400 after
    25%, then 4590 after the 15% bulk discount; savings 2610. *)
Example discount_store_scenario :
  let pricing :=
    calculateDiscountedPrice 6000 chicken_breast 1200 (STORE_CONFIGS baes)
                             ana_low_budget 1 in
  original_price pricing = 7200%Z /\ final_price pricing = 4590%Z
  /\ total_savings (optimizeStoreDistribution [chicken_1200g] [chicken_breast]
                                              ana_low_budget 1) = 2610%Z.
Proof. vm_compute. repeat split. Qed.

(** C9. The total cost estimate of the list returned by
    [generateWeeklyShoppingList] is the sum, over the consolidated
    ingredients that have a price, of the discounted price at the store
    each was assigned to, plus the flat delivery cost of every available
    store that received an item and has one; the total savings of the
    optimization are the sum of original minus final price at the
    assigned store; and the assigned store is an available store whose
    discounted price no available store undercuts. *)
Theorem generateWeeklyShoppingList_totals
        (user : User) (mealPlans : list MealPlanDay) (recipes : list Recipe)
        (foodItems : list FoodItem) (weekStart : string) (currentMonth : Z) :
  let ingredients := consolidateIngredients mealPlans recipes in
  let assignments := spec_assignments foodItems user currentMonth ingredients in
  let priceOf a store := final_price (priceAt user currentMonth a store) in
  let originalOf a store := original_price (priceAt user currentMonth a store) in
  total_cost_estimate
    (generateWeeklyShoppingList user mealPlans recipes foodItems weekStart currentMonth)
  = (sumZ (map (fun a => priceOf a (assigned_store a)) assignments)
     + sumZ (map (fun store =>
                    if spec_received assignments store
                    then spec_deliveryCost store else 0%Z)
                 (availableStores user)))%Z
  /\ total_savings
       (optimizeStoreDistribution ingredients foodItems user currentMonth)
     = sumZ (map (fun a => (originalOf a (assigned_store a)
                            - priceOf a (assigned_store a))%Z) assignments)
  /\ (forall a, In a assignments ->
        In (assigned_store a) (availableStores user)
        /\ forall store, In store (availableStores user) ->
                         (priceOf a (assigned_store a) <= priceOf a store)%Z).
Proof.
  intros ingredients assignments priceOf originalOf.
  destruct (optimizeStoreDistribution_totals foodItems user currentMonth ingredients)
    as (T & S).
  split; [exact T|]. split; [exact S|].
  intros a Ha. exact (spec_assignments_cheapest foodItems user currentMonth ingredients a Ha).
Qed.

(* ================================================================== *)
(** ** Weekly progress: the rapid-loss rule *)

Section RapidLoss.

Variables (m_old m_new : Measurement).

Hypothesis week_apart :
  epoch_ms (date m_new) = (epoch_ms (date m_old) + 7 * msPerDay)%Z.

Let byDate (a b : Measurement) : Q := inject_Z (epoch_ms (date a) - epoch_ms (date b)).

Lemma sort_two_snapshots (measurements : list Measurement) :
  measurements = [m_old; m_new] \/ measurements = [m_new; m_old] ->
  sortBy byDate measurements = [m_old; m_new].
Proof.
  assert (Qltb (byDate m_new m_old) 0 = false) as Hno.
  { apply Qltb_false. unfold byDate. rewrite week_apart.
    change 0 with (inject_Z 0). rewrite <- Zle_Qle. unfold msPerDay. lia. }
  assert (Qltb (byDate m_old m_new) 0 = true) as Hyes.
  { apply Qltb_true. unfold byDate. rewrite week_apart.
    change 0 with (inject_Z 0). rewrite <- Zlt_Qlt. unfold msPerDay. lia. }
  intros [-> | ->]; cbn [sortBy insertBy].
  - rewrite Hno. reflexivity.
  - rewrite Hyes. reflexivity.
Qed.

(** With two snapshots a week apart the weekly change compares the
    later weight with the earlier one. *)
Lemma weekly_change_two_snapshots (measurements : list Measurement) :
  measurements = [m_old; m_new] \/ measurements = [m_new; m_old] ->
  0 < measured_kg m_old ->
  calculateWeeklyWeightChange measurements 1 =
  if Qeq_bool (measured_kg m_old) (measured_kg m_new) then Fin 0
  else Fin (inject_Z (Math_round ((measured_kg m_new - measured_kg m_old)
                                  / measured_kg m_old * 100 * 10)) / 10).
Proof.
  intros Hm Hpos. unfold calculateWeeklyWeightChange.
  assert ((List.length measurements <? 2)%nat = false) as Hl
      by (destruct Hm as [-> | ->]; reflexivity).
  rewrite Hl. fold byDate. rewrite (sort_two_snapshots measurements Hm).
  cbn [last]. rewrite week_apart.
  replace (epoch_ms (date m_old) + 7 * msPerDay - 1 * 7 * msPerDay)%Z
    with (epoch_ms (date m_old)) by lia.
  cbn [fold_left]. unfold closerStep, dateDistance; cbn [fst snd].
  rewrite Z.sub_diag. cbn [Z.abs]. rewrite Z.ltb_irrefl. cbn [fst snd].
  rewrite week_apart.
  assert ((Z.abs (epoch_ms (date m_old) + 7 * msPerDay - epoch_ms (date m_old)) <? 0)%Z
          = false) as Hd by (apply Z.ltb_ge; lia).
  rewrite Hd. cbn [fst].
  destruct (Qeq_bool (measured_kg m_old) (measured_kg m_new)); [reflexivity|].
  unfold jsdiv.
  assert (Qeq_bool (measured_kg m_old) 0 = false) as Hz.
  { destruct (Qeq_bool (measured_kg m_old) 0) eqn:E; [|reflexivity].
    apply Qeq_bool_iff in E. rewrite E in Hpos. discriminate Hpos. }
  rewrite Hz. reflexivity.
Qed.

(** The rounded change is below -1 exactly when the later weight is
    more than 1.05% under the earlier one. *)
Lemma weekly_change_below_minus_one (measurements : list Measurement) :
  measurements = [m_old; m_new] \/ measurements = [m_new; m_old] ->
  0 < measured_kg m_old ->
  (num_ltb (calculateWeeklyWeightChange measurements 1) (-1) = true
   <-> measured_kg m_new < 0.9895 * measured_kg m_old).
Proof.
  intros Hm Hpos. rewrite (weekly_change_two_snapshots measurements Hm Hpos).
  generalize dependent (measured_kg m_old). generalize (measured_kg m_new).
  intros w1 w0 Hpos.
  destruct (Qeq_bool w0 w1) eqn:Eeq.
  - apply Qeq_bool_iff in Eeq. cbn [num_ltb].
    split; [intro H; apply Qltb_true in H; lra | intro H; exfalso; lra].
  - cbn [num_ltb]. rewrite Qltb_true.
    set (y := (w1 - w0) / w0 * 100 * 10).
    pose proof (Math_round_lower y) as L. pose proof (Math_round_upper y) as U.
    assert (y * w0 == (w1 - w0) * 1000) as Ey.
    { unfold y. field. intro K. rewrite K in Hpos. discriminate Hpos. }
    assert (inject_Z (Math_round y) / 10 < -1 <-> y < -10.5) as Hr.
    { assert (forall v, v / 10 == v * (1 # 10)) as D by (intro; field).
      rewrite D. split; intro H.
      - assert (inject_Z (Math_round y) < inject_Z (-10)) as K
            by (change (inject_Z (-10)) with (-10); lra).
        rewrite <- Zlt_Qlt in K.
        assert (inject_Z (Math_round y) <= inject_Z (-11)) as K'
            by (rewrite <- Zle_Qle; lia).
        change (inject_Z (-11)) with (-11) in K'. lra.
      - assert (inject_Z (Math_round y) < inject_Z (-10)) as K
            by (change (inject_Z (-10)) with (-10); lra).
        change (inject_Z (-10)) with (-10) in K. lra. }
    rewrite Hr. clear Hr L U. split; intro H; nra.
Qed.

End RapidLoss.

Lemma classifyTrend_fast (measurements : list Measurement) (pct : num) :
  num_ltb pct (-1) = true -> classifyTrend measurements pct = fast_loss.
Proof.
  intro H. unfold classifyTrend. rewrite H.
  assert (num_geb pct (-0.25) = false) as G.
  { destruct pct as [q| | |]; cbn in *; try reflexivity; try discriminate.
    apply Qltb_true in H.
    destruct (Qle_bool (-0.25) q) eqn:E; [|reflexivity].
    apply Qle_bool_iff in E. lra. }
  rewrite G. reflexivity.
Qed.

(** C3 (as amended). Given two snapshots one week apart in which the
    later weight is more than 1.05% below a positive earlier weight - so
    that the change, rounded to one decimal, is below -1 -
    [analyzeWeeklyProgress] classifies the trend as [fast_loss]; and for
    a user whose goal weight is below their current weight the
    suggestions include the one of rule [weight_loss_too_fast], the rule
    that raises calories by 5%. *)
Theorem analyzeWeeklyProgress_rapid_loss
        (user : User) (m_old m_new : Measurement) (measurements : list Measurement)
        (mealPlans : list MealPlanDay) (workouts : list WorkoutPlanDay)
        (currentRecords : PersonalRecords) (previousRecords : option PersonalRecords)
        (activityFactor : Q) (now : string) :
  measurements = [m_old; m_new] \/ measurements = [m_new; m_old] ->
  epoch_ms (date m_new) = (epoch_ms (date m_old) + 7 * msPerDay)%Z ->
  0 < measured_kg m_old ->
  measured_kg m_new < 0.9895 * measured_kg m_old ->
  let a := analyzeWeeklyProgress user measurements mealPlans workouts currentRecords
                                 previousRecords activityFactor now in
  weight_trend a = fast_loss
  /\ (goal_weight_kg user < weight_kg user ->
      exists s, In s (suggestions a)
                /\ rule_id s = "weight_loss_too_fast"
                /\ action_required s = true)
  /\ (exists r, findRule "weight_loss_too_fast" = Some r
                /\ action r = increase_kcal /\ adjustment_pct r = 5).
Proof.
  intros Hm Hweek Hpos Hdrop a.
  assert (weight_trend a = fast_loss) as Ht.
  { unfold a, analyzeWeeklyProgress; cbn [weight_trend].
    apply classifyTrend_fast.
    apply (weekly_change_below_minus_one m_old m_new Hweek measurements Hm Hpos).
    exact Hdrop. }
  split; [exact Ht|]. split.
  - intro Hgoal. apply Qltb_true in Hgoal.
    unfold a, analyzeWeeklyProgress in Ht |- *; cbn [weight_trend suggestions] in Ht |- *.
    rewrite Ht, Hgoal. cbn [WeightTrend_eqb andb].
    eexists. split; [left; reflexivity|]. split; reflexivity.
  - eexists. split; [reflexivity|]. split; reflexivity.
Qed.

Lemma analyzeWeeklyProgress_rapid_loss_witness :
  let a := analyzeWeeklyProgress ana [weighIn 0 100; weighIn 7 98] [] []
                                 sampleRecords None 1.55 "2024-01-08T00:00:00.000Z" in
  weight_trend a = fast_loss
  /\ exists s, In s (suggestions a)
               /\ rule_id s = "weight_loss_too_fast" /\ action_required s = true.
Proof.
  destruct (analyzeWeeklyProgress_rapid_loss
              ana (weighIn 0 100) (weighIn 7 98) [weighIn 0 100; weighIn 7 98] [] []
              sampleRecords None 1.55 "2024-01-08T00:00:00.000Z"
              ltac:(left; reflexivity) ltac:(reflexivity) ltac:(reflexivity)
              ltac:(reflexivity)) as (Ht & Hs & _).
  split; [exact Ht | apply Hs; reflexivity].
Defined.

(** C3 as stated fails twice.  A drop from 100 kg to 98.96 kg is more
    than 1% but rounds to -1.0, which is not below -1: the trend is
    [normal_loss] and no rapid-loss suggestion is made.  And for a user
    who is not trying to lose weight a 2% drop is classified as
    [fast_loss] but the suggestion is withheld. *)
Lemma analyzeWeeklyProgress_claim_counterexample :
  (98.96 < (1 - 1 / 100) * 100
   /\ let a := analyzeWeeklyProgress ana [weighIn 0 100; weighIn 7 98.96] [] []
                                     sampleRecords None 1.55 "" in
      weight_trend a = normal_loss /\ hasSuggestion "weight_loss_too_fast" a = false)
  /\ (98 < (1 - 1 / 100) * 100
      /\ let a := analyzeWeeklyProgress ana_maintaining [weighIn 0 100; weighIn 7 98] [] []
                                        sampleRecords None 1.55 "" in
         weight_trend a = fast_loss /\ hasSuggestion "weight_loss_too_fast" a = false).
Proof.
  vm_compute. repeat split.
Qed.

(* ================================================================== *)
(** ** Metrics calculator: further properties *)

Section CalculatorTools.

Lemma deficit_pct_bound (weight_diff : Q) : deficit_pct weight_diff <= 0.225.
Proof.
  unfold deficit_pct.
  repeat (match goal with |- context [Qltb ?a ?b] => destruct (Qltb a b) end);
    discriminate.
Qed.

(** X1. The target of [calculateKcalRange] always passes
    [validateDeficit] against the expenditure it was computed from, once
    that expenditure is at least 20 kcal: it is not below the floor and
    the deficit is not above 25%. *)
Theorem kcal_target_passes_validateDeficit
        (tdee goal_weight_kg current_weight_kg : Q) (sex : Sex) :
  20 <= tdee ->
  validateDeficit tdee
    (inject_Z (kcal_target (calculateKcalRange tdee goal_weight_kg current_weight_kg sex)))
    sex
  = {| safe := true; deficit_message := None |}.
Proof.
  intro Htdee. unfold validateDeficit.
  pose proof (calculateKcalRange_target_floor tdee goal_weight_kg current_weight_kg sex)
    as Hfloor.
  set (T := kcal_target (calculateKcalRange tdee goal_weight_kg current_weight_kg sex)) in *.
  assert (Qltb (inject_Z T) (inject_Z match sex with male => 1500%Z | female => 1200%Z end)
          = false) as E1.
  { apply Qltb_false. rewrite <- Zle_Qle. destruct sex; exact Hfloor. }
  rewrite E1.
  assert (0.75 * tdee <= inject_Z T) as Hlow.
  { unfold T, calculateKcalRange; cbn [kcal_target].
    set (d := deficit_pct (goal_weight_kg - current_weight_kg)).
    pose proof (deficit_pct_bound (goal_weight_kg - current_weight_kg)) as Hd. fold d in Hd.
    pose proof (Math_round_upper (tdee * (1 - d))) as U.
    assert (inject_Z (Math_round (tdee * (1 - d)))
            <= inject_Z (Z.max (Math_round (tdee * (1 - d))) (min_safe_kcal sex))) as M
        by (rewrite <- Zle_Qle; apply Z.le_max_l).
    nra. }
  assert (num_gtb (jsdiv (tdee - inject_Z T) tdee) 0.25 = false) as E2.
  { unfold jsdiv.
    assert (Qeq_bool tdee 0 = false) as Ez.
    { destruct (Qeq_bool tdee 0) eqn:E; [|reflexivity].
      apply Qeq_bool_iff in E. lra. }
    rewrite Ez. cbn [num_gtb]. apply Qltb_false.
    apply Qle_shift_div_r; lra. }
  rewrite E2. reflexivity.
Qed.

Lemma kcal_target_passes_validateDeficit_witness :
  validateDeficit 2217 (inject_Z (kcal_target (calculateKcalRange 2217 65 70 female))) female
  = {| safe := true; deficit_message := None |}.
Proof.
  apply (kcal_target_passes_validateDeficit 2217 65 70 female). discriminate.
Defined.

(** X2. [calculateWeightProgress] is a percentage: it always lies
    between 0 and 100; it is 100 when start and goal coincide or the
    goal has been reached, and 0 at the start weight. *)
Theorem calculateWeightProgress_range (current_kg start_kg goal_kg : Q) :
  (0 <= calculateWeightProgress current_kg start_kg goal_kg
   /\ calculateWeightProgress current_kg start_kg goal_kg <= 100)
  /\ (start_kg == goal_kg \/ current_kg == goal_kg ->
      calculateWeightProgress current_kg start_kg goal_kg == 100)
  /\ (~ start_kg == goal_kg -> current_kg == start_kg ->
      calculateWeightProgress current_kg start_kg goal_kg == 0).
Proof.
  unfold calculateWeightProgress.
  destruct (Qeq_bool start_kg goal_kg) eqn:E.
  - apply Qeq_bool_iff in E.
    split; [split; discriminate|]. split; [reflexivity | intros K; contradiction].
  - apply Qeq_bool_false_neq in E.
    set (r := inject_Z (Math_round ((current_kg - start_kg) / (goal_kg - start_kg) * 100 * 10))
              / 10).
    assert (0 <= Qmax 0 (Qmin 100 r) /\ Qmax 0 (Qmin 100 r) <= 100) as Hrange.
    { split; [apply Q.le_max_l|].
      apply Q.max_lub; [discriminate | apply Q.le_min_l]. }
    split; [exact Hrange|]. split.
    + intros [K|K]; [contradiction|].
      assert (r == 100) as Er.
      { unfold r.
        assert ((current_kg - start_kg) / (goal_kg - start_kg) * 100 * 10 == inject_Z 1000)
          as Ev by (rewrite K; change (inject_Z 1000) with 1000; field; lra).
        assert (Math_round ((current_kg - start_kg) / (goal_kg - start_kg) * 100 * 10)
                = 1000%Z) as Em.
        { apply Math_round_unique; rewrite Ev; change (inject_Z 1000) with 1000; lra. }
        rewrite Em. reflexivity. }
      rewrite Er. reflexivity.
    + intros _ K.
      assert (r == 0) as Er.
      { unfold r.
        assert ((current_kg - start_kg) / (goal_kg - start_kg) * 100 * 10 == inject_Z 0)
          as Ev by (rewrite K; change (inject_Z 0) with 0; field; lra).
        assert (Math_round ((current_kg - start_kg) / (goal_kg - start_kg) * 100 * 10)
                = 0%Z) as Em.
        { apply Math_round_unique; rewrite Ev; change (inject_Z 0) with 0; lra. }
        rewrite Em. reflexivity. }
      rewrite Er. reflexivity.
Qed.

Lemma calculateWeightProgress_range_witness :
  calculateWeightProgress 65 80 65 == 100 /\ calculateWeightProgress 80 80 65 == 0.
Proof.
  split.
  - apply (proj1 (proj2 (calculateWeightProgress_range 65 80 65))). right. reflexivity.
  - apply (proj2 (proj2 (calculateWeightProgress_range 80 80 65)));
      [discriminate | reflexivity].
Defined.

(** X3. [getActivityFactorByLabel] returns the value listed for every
    label of [ACTIVITY_FACTORS]; for any label whatever the result is
    one of the five listed values, and a label that is not listed gets
    the moderate factor 1.55. *)
Theorem getActivityFactorByLabel_table (label : string) :
  (forall af, In af ACTIVITY_FACTORS ->
              getActivityFactorByLabel (factor_label af) = factor_value af)
  /\ In (getActivityFactorByLabel label) (map factor_value ACTIVITY_FACTORS)
  /\ (~ In label (map factor_label ACTIVITY_FACTORS) ->
      getActivityFactorByLabel label = 1.55).
Proof.
  split; [|split].
  - intros af H. unfold ACTIVITY_FACTORS in H.
    repeat (destruct H as [<-|H]; [reflexivity|]). destruct H.
  - unfold getActivityFactorByLabel.
    destruct (find _ ACTIVITY_FACTORS) as [f|] eqn:E.
    + apply find_some in E. destruct E as [Hin _]. unfold ACTIVITY_FACTORS in Hin.
      repeat (destruct Hin as [<-|Hin]; [cbn; tauto|]). destruct Hin.
    + cbn. tauto.
  - intro Hno. unfold getActivityFactorByLabel.
    destruct (find _ ACTIVITY_FACTORS) as [f|] eqn:E; [|reflexivity].
    apply find_some in E. destruct E as [Hin Heq]. apply String.eqb_eq in Heq.
    exfalso. apply Hno. rewrite <- Heq. apply in_map. exact Hin.
Qed.

Lemma getActivityFactorByLabel_table_witness :
  getActivityFactorByLabel "Atleta" = 1.55.
Proof.
  apply (proj2 (proj2 (getActivityFactorByLabel_table "Atleta"))).
  cbn. intuition discriminate.
Defined.

(** X4. Without a height the index is not a finite number, and the
    category is read as the highest one: for height 0 and a weight that
    is not negative, [calculateBMI] is [Infinity] or [NaN] and
    [getBMICategory] answers [Obesidad]. *)
Theorem getBMICategory_without_height (weight_kg : Q) :
  0 <= weight_kg ->
  (calculateBMI weight_kg 0 = PInf \/ calculateBMI weight_kg 0 = NaN)
  /\ getBMICategory (calculateBMI weight_kg 0) = Obesidad.
Proof.
  intro H. unfold calculateBMI, jsdiv.
  change (Qeq_bool (0 / 100 * (0 / 100)) 0) with true. cbn iota.
  destruct (Qltb 0 weight_kg) eqn:E1.
  - split; [left; reflexivity | reflexivity].
  - assert (Qltb weight_kg 0 = false) as E2 by (apply Qltb_false; exact H).
    rewrite E2. split; [right; reflexivity | reflexivity].
Qed.

Lemma getBMICategory_without_height_witness :
  getBMICategory (calculateBMI 70 0) = Obesidad.
Proof.
  apply (proj2 (getBMICategory_without_height 70 ltac:(discriminate))).
Defined.

End CalculatorTools.

(* ================================================================== *)
(** ** Meal-plan engine: further properties *)

Section GeneratedMeals.

Lemma recipesToScore_incl (availableRecipes : list Recipe) (targetKcal tolerance : Q)
      (r : Recipe) :
  In r (recipesToScore availableRecipes targetKcal tolerance) -> In r availableRecipes.
Proof.
  unfold recipesToScore.
  destruct (filter _ availableRecipes) as [|x xs] eqn:E; [tauto|].
  rewrite <- E. intro H. apply filter_In in H. exact (proj1 H).
Qed.

Lemma selectRecipeForCalories_In (availableRecipes : list Recipe) (targetKcal : Q)
      (rules : PersonalizationRules) (tolerance : Q) (r : Recipe) :
  selectRecipeForCalories availableRecipes targetKcal rules tolerance = Some r ->
  In r availableRecipes.
Proof.
  intro H.
  destruct availableRecipes as [|a rest] eqn:Ea; [discriminate H|].
  rewrite <- Ea in *.
  destruct (selectRecipeForCalories_some availableRecipes targetKcal rules tolerance)
    as (r' & Er & Hin & _); [rewrite Ea; discriminate|].
  rewrite Er in H. injection H as <-.
  apply recipesToScore_incl in Hin. exact Hin.
Qed.

(** Every pick of a day comes from a slot of the template and from the
    candidates the filter left for that slot. *)
Lemma spec_dayPicks_In (recipes : list Recipe) (rules : PersonalizationRules)
      (targetKcal : Z) (slots : list (MealType * Q)) (p : Pick) :
  In p (spec_dayPicks recipes rules targetKcal slots) ->
  exists entry,
    In entry slots
    /\ pick_slot p = fst entry
    /\ pick_target p = slotTarget targetKcal (snd entry)
    /\ In (pick_recipe p)
          (filterRecipesByRules recipes rules (Some (slotCategory (fst entry)))).
Proof.
  induction slots as [|entry rest IH]; [intros []|].
  cbn [spec_dayPicks].
  destruct (spec_slotPick recipes rules targetKcal entry) as [q|] eqn:E.
  - intros [<-|Hin].
    + exists entry. split; [left; reflexivity|].
      unfold spec_slotPick in E.
      destruct (selectRecipeForCalories _ _ rules 0.15) as [r|] eqn:Es; [|discriminate E].
      injection E as <-. cbn [pick_slot pick_target pick_recipe].
      split; [reflexivity|]. split; [reflexivity|].
      apply selectRecipeForCalories_In in Es. exact Es.
    + destruct (IH Hin) as (e & He & K). exists e. split; [right; exact He | exact K].
  - intro Hin. destruct (IH Hin) as (e & He & K).
    exists e. split; [right; exact He | exact K].
Qed.

Lemma generateDailyMealPlan_meals (user : User) (recipes : list Recipe) (date : string)
      (activityFactor : Q) (plan : MealPlanDay) :
  generateDailyMealPlan user recipes date activityFactor = Some plan ->
  meals plan
  = map spec_mealOfPick
        (spec_dayPicks recipes (generatePersonalizationRules user)
           (kcal_target (kcal_range (calculateAllMetrics user activityFactor)))
           (kcal_distribution
              (selectDayTemplate user (generatePersonalizationRules user)))).
Proof.
  unfold generateDailyMealPlan. rewrite fold_slotStep.
  set (picks := spec_dayPicks _ _ _ _).
  destruct (fold_addPick picks emptyAcc) as (M & _).
  cbn zeta in M. cbn [emptyAcc acc_meals app] in M.
  destruct (acc_meals (fold_left addPick picks emptyAcc)) as [|m ms] eqn:E;
    [discriminate|].
  intro H. injection H as <-. cbn [meals]. exact M.
Qed.

(** The clamp and the rounding to quarters keep a finite portion count
    between a half and two portions. *)
Lemma quarterPortions_bounds (targetKcal baseKcal : Q) :
  0 < targetKcal ->
  exists k : Z,
    quarterPortions targetKcal baseKcal 2.0 = Fin (inject_Z k / 4) /\ (2 <= k <= 8)%Z.
Proof.
  intro Hpos. unfold quarterPortions, clampPortions, jsdiv.
  assert (forall q, 0.5 <= q -> q <= 2.0 ->
                    (2 <= Math_round (q * 4) <= 8)%Z) as Hround.
  { intros q L U. split.
    - rewrite <- (Math_round_Z 2). apply Math_round_mono.
      change (inject_Z 2) with 2. lra.
    - rewrite <- (Math_round_Z 8). apply Math_round_mono.
      change (inject_Z 8) with 8. lra. }
  destruct (Qeq_bool baseKcal 0).
  - assert (Qltb 0 targetKcal = true) as E by (apply Qltb_true; exact Hpos).
    rewrite E. eexists. split; [reflexivity|]. apply Hround.
    + apply Q.le_max_l.
    + apply Q.max_lub; discriminate.
  - eexists. split; [reflexivity|]. apply Hround.
    + apply Q.le_max_l.
    + apply Q.max_lub; [discriminate | apply Q.le_min_l].
Qed.

(** X5. Every meal of a generated day is served in quarter portions
    between half a portion and two portions. *)
Theorem generateDailyMealPlan_portions
        (user : User) (recipes : list Recipe) (date : string) (activityFactor : Q)
        (plan : MealPlanDay) (meal : Meal) :
  generateDailyMealPlan user recipes date activityFactor = Some plan ->
  In meal (meals plan) ->
  exists k : Z, portions meal = inject_Z k / 4 /\ (2 <= k <= 8)%Z.
Proof.
  intros Hplan Hmeal.
  rewrite (generateDailyMealPlan_meals _ _ _ _ _ Hplan) in Hmeal.
  apply in_map_iff in Hmeal. destruct Hmeal as (p & <- & Hp).
  apply spec_dayPicks_In in Hp. destruct Hp as (entry & Hentry & _ & Ht & _).
  pose proof (generated_slotTarget_pos user activityFactor entry Hentry) as Hpos.
  rewrite <- Ht in Hpos.
  destruct (quarterPortions_bounds (inject_Z (pick_target p))
                                   (kcal (per_portion (pick_recipe p))))
    as (k & Ek & Hk).
  { change 0 with (inject_Z 0). rewrite <- Zlt_Qlt. exact Hpos. }
  exists k. split; [|exact Hk].
  cbn [spec_mealOfPick portions]. unfold pickPortions, adjustPortionsForCalories.
  cbn [fst]. rewrite Ek. reflexivity.
Qed.

Lemma generateDailyMealPlan_portions_witness :
  exists k : Z,
    (6 # 4) = inject_Z k / 4 /\ (2 <= k <= 8)%Z.
Proof.
  exact (generateDailyMealPlan_portions
           ana [almuerzo_exact; almuerzo_double; almuerzo_quick] "2024-01-01" 1.55
           _ _ eq_refl (or_introl eq_refl)).
Defined.

Lemma passesRules_sound (rules : PersonalizationRules) (cat : MealType) (r : Recipe) :
  passesRules rules (Some cat) r = true ->
  category r = cat
  /\ (rule_no_oil rules = true -> hasTag (tags r) sin_aceite = true)
  /\ (rule_no_sugar rules = true -> hasTag (tags r) sin_azucar = true)
  /\ usesAnyOf (excluded_ingredients rules) r = false
  /\ (forall m, max_prep_time rules = Some m -> ~ m == 0 ->
                prep_time_min r + cooking_time_min r <= m).
Proof.
  unfold passesRules.
  destruct (MealType_eqb (category r) cat) eqn:Ec; cbn [negb]; [|discriminate].
  assert (category r = cat) as Hc
      by (destruct (category r), cat; (reflexivity || discriminate Ec)).
  destruct (andb (rule_no_oil rules) (negb (hasTag (tags r) sin_aceite))) eqn:Eo;
    [discriminate|].
  destruct (andb (rule_no_sugar rules) (negb (hasTag (tags r) sin_azucar))) eqn:Es;
    [discriminate|].
  destruct (usesAnyOf (excluded_ingredients rules) r) eqn:Ex; [discriminate|].
  intro Ht.
  split; [exact Hc|]. split; [|split; [|split; [reflexivity|]]].
  - intro K. rewrite K in Eo. cbn [andb] in Eo. apply negb_false_iff in Eo. exact Eo.
  - intro K. rewrite K in Es. cbn [andb] in Es. apply negb_false_iff in Es. exact Es.
  - intros m Em Hm. rewrite Em in Ht.
    destruct (Qeq_bool m 0) eqn:Ez.
    + exfalso. apply Hm. apply Qeq_bool_iff. exact Ez.
    + cbn [negb andb] in Ht.
      destruct (Qltb m (prep_time_min r + cooking_time_min r)) eqn:El; [discriminate Ht|].
      apply Qltb_false in El. exact El.
Qed.

(** X6. Every meal of a generated day names a recipe of the catalog that
    is filed under the slot's category (the snack category for the
    post-workout slot) and obeys the hard rules: it carries the no-oil
    tag when the user excludes oil, the no-sugar tag when the user
    excludes sugar, uses none of the disliked ingredients, and on the
    low budget tier takes at most 30 minutes to prepare and cook. *)
Theorem generateDailyMealPlan_obeys_rules
        (user : User) (recipes : list Recipe) (date : string) (activityFactor : Q)
        (plan : MealPlanDay) (meal : Meal) :
  generateDailyMealPlan user recipes date activityFactor = Some plan ->
  In meal (meals plan) ->
  exists r,
    In r recipes
    /\ recipe_ident r = recipe_id meal
    /\ category r = slotCategory (meal_type meal)
    /\ (no_oil (preferences user) = true -> hasTag (tags r) sin_aceite = true)
    /\ (no_sugar (preferences user) = true -> hasTag (tags r) sin_azucar = true)
    /\ usesAnyOf (dislikes (preferences user)) r = false
    /\ (budget_level user = low -> prep_time_min r + cooking_time_min r <= 30).
Proof.
  intros Hplan Hmeal.
  rewrite (generateDailyMealPlan_meals _ _ _ _ _ Hplan) in Hmeal.
  apply in_map_iff in Hmeal. destruct Hmeal as (p & <- & Hp).
  apply spec_dayPicks_In in Hp. destruct Hp as (entry & _ & Hs & _ & Hr).
  unfold filterRecipesByRules in Hr. apply filter_In in Hr. destruct Hr as [Hin Hpass].
  apply passesRules_sound in Hpass. destruct Hpass as (Hc & Ho & Hsu & Hex & Htime).
  exists (pick_recipe p). cbn [spec_mealOfPick recipe_id meal_type].
  rewrite Hs. split; [exact Hin|]. split; [reflexivity|].
  split; [exact Hc|]. split; [exact Ho|]. split; [exact Hsu|]. split; [exact Hex|].
  intro Hlow. apply Htime; [|discriminate].
  unfold generatePersonalizationRules; cbn [max_prep_time]. rewrite Hlow. reflexivity.
Qed.

Lemma generateDailyMealPlan_obeys_rules_witness :
  exists r,
    In r [almuerzo_exact; almuerzo_double; almuerzo_quick]
    /\ recipe_ident r = "almuerzo_quick"
    /\ category r = almuerzo.
Proof.
  destruct (generateDailyMealPlan_obeys_rules
              ana [almuerzo_exact; almuerzo_double; almuerzo_quick] "2024-01-01" 1.55
              _ _ eq_refl (or_introl eq_refl)) as (r & Hin & Hid & Hc & _).
  exists r. split; [exact Hin|]. split; [exact Hid | exact Hc].
Defined.

End GeneratedMeals.

Section WeekAndSubstitutes.

Lemma slotTarget_near (targetKcal : Z) (kcalPct : Q) :
  inject_Z targetKcal * kcalPct - (1 # 2) < inject_Z (slotTarget targetKcal kcalPct)
  /\ inject_Z (slotTarget targetKcal kcalPct) <= inject_Z targetKcal * kcalPct + (1 # 2).
Proof.
  unfold slotTarget.
  pose proof (Math_round_lower (inject_Z targetKcal * kcalPct)).
  pose proof (Math_round_upper (inject_Z targetKcal * kcalPct)).
  split; lra.
Qed.

(** X7. Whatever template is selected, the calorie targets of its slots
    add up to the daily target to within 2 kcal. *)
Theorem slot_targets_add_up (user : User) (rules : PersonalizationRules) (targetKcal : Z) :
  let slots := kcal_distribution (selectDayTemplate user rules) in
  (Z.abs (sumZ (map (fun entry => slotTarget targetKcal (snd entry)) slots) - targetKcal)
   <= 2)%Z.
Proof.
  cbn zeta.
  assert (forall s : Z, inject_Z targetKcal - 3 < inject_Z s ->
                        inject_Z s < inject_Z targetKcal + 3 ->
                        (Z.abs (s - targetKcal) <= 2)%Z) as Hclose.
  { intros s L U.
    assert (inject_Z (targetKcal - 3) < inject_Z s) as L'
        by (unfold Z.sub; rewrite inject_Z_plus; change (inject_Z (- (3))) with (-3); lra).
    assert (inject_Z s < inject_Z (targetKcal + 3)) as U'
        by (rewrite inject_Z_plus; change (inject_Z 3) with 3; lra).
    rewrite <- Zlt_Qlt in L', U'. lia. }
  unfold selectDayTemplate.
  change (findTemplate "fasting_morning") with fasting_morning.
  change (findTemplate "simple_3_meals") with simple_3_meals.
  destruct (includesStr _ _); [|destruct (andb _ _)];
    cbn [normal_day fasting_morning simple_3_meals DAY_TEMPLATES nth
         kcal_distribution map snd sumZ fold_right];
    apply Hclose; rewrite ?inject_Z_plus; change (inject_Z 0) with 0;
    repeat match goal with
           | |- context [slotTarget targetKcal ?p] =>
               let H := fresh "H" in
               pose proof (slotTarget_near targetKcal p) as H;
               generalize dependent (slotTarget targetKcal p); intros
           end; lra.
Qed.

(** The date of a generated day only labels it. *)
Lemma generateDailyMealPlan_date (user : User) (recipes : list Recipe)
      (date date' : string) (activityFactor : Q) :
  match generateDailyMealPlan user recipes date activityFactor,
        generateDailyMealPlan user recipes date' activityFactor with
  | None, None => True
  | Some plan, Some plan' =>
      meals plan = meals plan' /\ totals plan = totals plan'
      /\ plan_date plan = date /\ plan_date plan' = date'
  | _, _ => False
  end.
Proof.
  unfold generateDailyMealPlan.
  destruct (acc_meals _); [exact I|]. cbn. repeat split.
Qed.

(** An unparseable start date fails the derivation on every day. *)
Lemma derivedDate_unparseable (host : HostDate) (startDate : string) (i : Z) :
  parseDate host startDate = None ->
  derivedDate host startDate i = inl InvalidTimeValue.
Proof.
  intro E. unfold derivedDate. rewrite E. reflexivity.
Qed.

Lemma weeklyMealLoop_throws (host : HostDate) (user : User) (recipes : list Recipe)
      (startDate : string) (activityFactor : Q) (indices : list Z) :
  forall weekPlan e,
    weeklyMealLoop host user recipes startDate activityFactor indices weekPlan = inl e ->
    exists i, In i indices /\ derivedDate host startDate i = inl InvalidTimeValue.
Proof.
  induction indices as [|i rest IH]; intros weekPlan e H; [discriminate H|].
  cbn [weeklyMealLoop] in H.
  destruct (derivedDate host startDate i) as [[]|[t d]] eqn:E.
  - exists i. split; [left; reflexivity | exact E].
  - destruct (IH _ _ H) as (j & Hj & Ej). exists j. split; [right; exact Hj | exact Ej].
Qed.

Lemma weeklyMealLoop_returns (host : HostDate) (user : User) (recipes : list Recipe)
      (startDate : string) (activityFactor : Q) (indices : list Z) :
  forall weekPlan week,
    weeklyMealLoop host user recipes startDate activityFactor indices weekPlan = inr week ->
    exists dates,
      derivedDays host startDate indices dates
      /\ week = fold_left
                  (fun weekPlan dateStr =>
                     match generateDailyMealPlan user recipes dateStr activityFactor with
                     | Some dayPlan => weekPlan ++ [dayPlan]
                     | None => weekPlan
                     end) dates weekPlan.
Proof.
  induction indices as [|i rest IH]; intros weekPlan week H.
  - injection H as <-. exists []. split; [constructor | reflexivity].
  - cbn [weeklyMealLoop] in H.
    destruct (derivedDate host startDate i) as [e|[t d]] eqn:E; [discriminate H|].
    destruct (IH _ _ H) as (dates & Hd & Hw).
    exists (d :: dates). split.
    + constructor; [exists t; exact E | exact Hd].
    + exact Hw.
Qed.

(** The days planned for a list of date strings: none at all, or one for
    each string, all alike. *)
Lemma dailyPlans_all_or_none (user : User) (recipes : list Recipe)
      (activityFactor : Q) (dates : list string) :
  let week :=
    fold_left (fun weekPlan dateStr =>
                 match generateDailyMealPlan user recipes dateStr activityFactor with
                 | Some dayPlan => weekPlan ++ [dayPlan]
                 | None => weekPlan
                 end) dates [] in
  (week = []
   /\ forall date, generateDailyMealPlan user recipes date activityFactor = None)
  \/ (map plan_date week = dates
      /\ forall a b, In a week -> In b week ->
                     meals a = meals b /\ totals a = totals b).
Proof.
  cbn zeta.
  destruct (generateDailyMealPlan user recipes "" activityFactor) as [p0|] eqn:E0.
  - right.
    assert (forall date, exists p,
               generateDailyMealPlan user recipes date activityFactor = Some p
               /\ meals p = meals p0 /\ totals p = totals p0
               /\ plan_date p = date) as Hday.
    { intro date.
      pose proof (generateDailyMealPlan_date user recipes date "" activityFactor) as H.
      rewrite E0 in H.
      destruct (generateDailyMealPlan user recipes date activityFactor) as [p|];
        [|contradiction].
      exists p. intuition. }
    assert (forall ds acc,
               exists l,
                 fold_left (fun weekPlan dateStr =>
                              match generateDailyMealPlan user recipes dateStr
                                                          activityFactor with
                              | Some dayPlan => weekPlan ++ [dayPlan]
                              | None => weekPlan
                              end) ds acc = acc ++ l
                 /\ map plan_date l = ds
                 /\ forall day, In day l ->
                                meals day = meals p0 /\ totals day = totals p0)
      as Hfold.
    { induction ds as [|d ds IH]; intro acc.
      - exists []. rewrite app_nil_r.
        split; [reflexivity|]. split; [reflexivity|]. intros day [].
      - cbn [fold_left]. destruct (Hday d) as (p & Ep & Mp & Tp & Dp). rewrite Ep.
        destruct (IH (acc ++ [p])) as (l & El & Dl & Sl).
        exists (p :: l). rewrite El, <- app_assoc. cbn [app map].
        split; [reflexivity|]. split; [rewrite Dp, Dl; reflexivity|].
        intros day [<-|Hday']; [split; assumption | apply Sl; exact Hday']. }
    destruct (Hfold dates []) as (l & El & Dl & Sl).
    rewrite El. cbn [app]. split; [exact Dl|].
    intros a b Ha Hb.
    destruct (Sl a Ha) as [Ma Ta]. destruct (Sl b Hb) as [Mb Tb].
    split; congruence.
  - left.
    assert (forall date, generateDailyMealPlan user recipes date activityFactor = None)
      as Hnone.
    { intro date.
      pose proof (generateDailyMealPlan_date user recipes date "" activityFactor) as H.
      rewrite E0 in H.
      destruct (generateDailyMealPlan user recipes date activityFactor);
        [contradiction | reflexivity]. }
    split; [|exact Hnone].
    induction dates as [|d ds IH]; [reflexivity|].
    cbn [fold_left]. rewrite Hnone. exact IH.
Qed.

(** X8. A call of the weekly generator either throws the [RangeError]
    of [toISOString], which it does exactly when the date of one of the
    seven days cannot be derived, and in particular whenever the start
    date does not parse; or it returns a week that has no day at all or
    all seven days, in order and under their derived dates, all serving
    the same meals with the same totals: the date of a day has no
    influence on what is planned. *)
Theorem generateWeeklyMealPlan_seven_or_none
        (host : HostDate) (user : User) (recipes : list Recipe) (startDate : string)
        (activityFactor : Q) :
  match generateWeeklyMealPlan host user recipes startDate activityFactor with
  | inl _ =>
      exists i, In i weekIndices /\ derivedDate host startDate i = inl InvalidTimeValue
  | inr week =>
      exists dates,
        derivedDays host startDate weekIndices dates
        /\ ((week = []
             /\ forall date,
                 generateDailyMealPlan user recipes date activityFactor = None)
            \/ (map plan_date week = dates
                /\ forall a b, In a week -> In b week ->
                               meals a = meals b /\ totals a = totals b))
  end
  /\ (parseDate host startDate = None ->
      generateWeeklyMealPlan host user recipes startDate activityFactor
      = inl InvalidTimeValue).
Proof.
  split.
  - unfold generateWeeklyMealPlan.
    destruct (weeklyMealLoop host user recipes startDate activityFactor weekIndices [])
      as [e|week] eqn:E.
    + exact (weeklyMealLoop_throws _ _ _ _ _ _ _ _ E).
    + destruct (weeklyMealLoop_returns _ _ _ _ _ _ _ _ E) as (dates & Hd & ->).
      exists dates. split; [exact Hd|].
      apply dailyPlans_all_or_none.
  - intro E. unfold generateWeeklyMealPlan, weekIndices. cbn [weeklyMealLoop].
    rewrite (derivedDate_unparseable _ _ _ E). reflexivity.
Qed.

(** A start date that is no date makes the call throw; the first day of
    1970 gives the seven days from there. *)
Lemma generateWeeklyMealPlan_seven_or_none_witness :
  generateWeeklyMealPlan sampleHost ana [almuerzo_exact] "el lunes" 1.55
  = inl InvalidTimeValue
  /\ match generateWeeklyMealPlan sampleHost ana [almuerzo_exact] "1970-01-01" 1.55 with
     | inr week =>
         map plan_date week =
         ["1970-01-01"; "1970-01-02"; "1970-01-03"; "1970-01-04"; "1970-01-05";
          "1970-01-06"; "1970-01-07"]
     | inl _ => False
     end.
Proof.
  split.
  - apply (proj2 (generateWeeklyMealPlan_seven_or_none
                    sampleHost ana [almuerzo_exact] "el lunes" 1.55)).
    reflexivity.
  - vm_compute. reflexivity.
Defined.

Lemma firstn_subset {A : Type} (n : nat) (l : list A) (x : A) :
  In x (firstn n l) -> In x l.
Proof.
  revert l. induction n as [|n IH]; intros l H; [destruct H|].
  destruct l as [|y ys]; [destruct H|].
  cbn [firstn] in H. destruct H as [<-|H]; [left; reflexivity | right; apply IH; exact H].
Qed.

Lemma substitutionsFrom_In (recipes : list Recipe) (rules : PersonalizationRules)
      (i : nat) (meals : list Meal) (s : Substitution) :
  In s (substitutionsFrom recipes rules i meals) ->
  exists meal, nth_error meals (mealIndex s - i) = Some meal
               /\ (i <= mealIndex s)%nat
               /\ In s (substitutionsFor recipes rules (mealIndex s) meal).
Proof.
  revert i. induction meals as [|meal rest IH]; intros i H; [destruct H|].
  cbn [substitutionsFrom] in H. apply in_app_or in H. destruct H as [H|H].
  - assert (mealIndex s = i) as Ei.
    { unfold substitutionsFor in H.
      destruct (find _ recipes); [|destruct H].
      destruct (filter _ _); [destruct H|].
      destruct H as [<-|[]]. reflexivity. }
    exists meal. rewrite Ei, Nat.sub_diag. split; [reflexivity|]. split; [lia | exact H].
  - destruct (IH (S i) H) as (m & Hn & Hle & Hin).
    exists m. split; [|split; [lia | exact Hin]].
    replace (mealIndex s - i)%nat with (S (mealIndex s - S i)) by lia. exact Hn.
Qed.

(** X9. Every entry of [suggestMealSubstitutions] belongs to a meal of
    the plan whose recipe is in the catalog, and offers between one and
    three alternatives; each alternative is a catalog recipe other than
    the current one, of the same category, passing the user's recipe
    rules, and within 25% of the current recipe's calories per
    portion. *)
Theorem suggestMealSubstitutions_sound
        (plan : MealPlanDay) (recipes : list Recipe) (user : User) (s : Substitution) :
  In s (suggestMealSubstitutions plan recipes user) ->
  exists meal current,
    nth_error (meals plan) (mealIndex s) = Some meal
    /\ In current recipes
    /\ recipe_ident current = recipe_id meal
    /\ currentRecipe s = recipe_ident current
    /\ (1 <= List.length (substitutes s) <= 3)%nat
    /\ forall alt, In alt (substitutes s) ->
         In alt recipes
         /\ recipe_ident alt <> recipe_ident current
         /\ category alt = category current
         /\ passesRules (generatePersonalizationRules user) None alt = true
         /\ similarKcal current alt = true.
Proof.
  unfold suggestMealSubstitutions. intro H.
  apply substitutionsFrom_In in H. destruct H as (meal & Hn & _ & Hin).
  rewrite Nat.sub_0_r in Hn.
  unfold substitutionsFor in Hin.
  destruct (find _ recipes) as [current|] eqn:Ef; [|destruct Hin].
  apply find_some in Ef. destruct Ef as [Hcur Hid]. apply String.eqb_eq in Hid.
  set (similar := filter (similarKcal current) _) in Hin.
  destruct similar as [|x xs] eqn:Es; [destruct Hin|].
  destruct Hin as [<-|[]]. cbn [mealIndex currentRecipe substitutes] in *.
  exists meal, current.
  split; [exact Hn|]. split; [exact Hcur|]. split; [exact Hid|]. split; [reflexivity|].
  split.
  - split; [cbn; lia|]. apply firstn_le_length.
  - intros alt Ha.
    assert (In alt similar) as Hs.
    { rewrite Es. revert Ha. apply firstn_subset. }
    unfold similar in Hs. apply filter_In in Hs. destruct Hs as [Hs Hk].
    unfold filterRecipesByRules in Hs. apply filter_In in Hs. destruct Hs as [Hs Hp].
    apply filter_In in Hs. destruct Hs as [Hr Hc].
    apply andb_true_iff in Hc. destruct Hc as [Hc Hne].
    split; [exact Hr|]. split; [|split; [|split; [exact Hp | exact Hk]]].
    + apply negb_true_iff in Hne. apply String.eqb_neq in Hne. exact Hne.
    + destruct (category alt), (category current); (reflexivity || discriminate Hc).
Qed.

Lemma suggestMealSubstitutions_sound_witness :
  exists meal current,
    nth_error (meals (samplePlan 1 400 30)) 0 = Some meal
    /\ In current [almuerzo_exact; almuerzo_double; almuerzo_quick]
    /\ recipe_ident current = recipe_id meal.
Proof.
  destruct (suggestMealSubstitutions_sound
              (samplePlan 1 400 30) [almuerzo_exact; almuerzo_double; almuerzo_quick] ana
              _ (or_introl eq_refl)) as (meal & current & Hn & Hc & Hid & _).
  exists meal, current. split; [exact Hn|]. split; [exact Hc | exact Hid].
Defined.

End WeekAndSubstitutes.

(* ================================================================== *)
(** ** Workout generator: further properties *)

Section WorkoutTools.

Lemma points_mono (a b a' b' : bool) :
  (a = true -> a' = true) -> (b = true -> b' = true) ->
  (points a b <= points a' b')%Z.
Proof.
  intros Ha Hb. unfold points.
  destruct a, b, a', b'; try lia;
    try (specialize (Ha eq_refl); discriminate);
    try (specialize (Hb eq_refl); discriminate).
Qed.

Lemma Qle_bool_mono (c x y : Q) : x <= y -> Qle_bool c x = true -> Qle_bool c y = true.
Proof.
  intros H K. apply Qle_bool_iff in K. apply Qle_bool_iff. lra.
Qed.

(** X10. Better records never lower the fitness level: if no record of
    the second snapshot is below the first, the level evaluated from the
    second is at least the level evaluated from the first. *)
Theorem evaluateFitnessLevel_monotone (before after : PersonalRecords) (user : User) :
  pushups_max before <= pushups_max after ->
  plank_sec before <= plank_sec after ->
  run_speed_kmh before <= run_speed_kmh after ->
  run_duration_min before <= run_duration_min after ->
  (levelRank (evaluateFitnessLevel before user)
   <= levelRank (evaluateFitnessLevel after user))%Z.
Proof.
  intros Hp Hk Hs Hd. unfold evaluateFitnessLevel. cbv zeta.
  match goal with
  | |- (levelRank (if (6 <=? ?a)%Z then _ else _) <=
        levelRank (if (6 <=? ?b)%Z then _ else _))%Z =>
      set (s := a); set (s' := b)
  end.
  assert (s <= s')%Z as Hle.
  { unfold s, s'.
    repeat apply Z.add_le_mono;
      try (destruct (match sex user with male => true | female => false end));
      apply points_mono; apply Qle_bool_mono; assumption. }
  destruct (6 <=? s)%Z eqn:E6; destruct (6 <=? s')%Z eqn:E6';
    destruct (3 <=? s)%Z eqn:E3; destruct (3 <=? s')%Z eqn:E3'; cbn [levelRank];
    try lia; rewrite ?Z.leb_le, ?Z.leb_gt in *; lia.
Qed.

Lemma evaluateFitnessLevel_monotone_witness :
  (levelRank (evaluateFitnessLevel sampleRecords ana)
   <= levelRank (evaluateFitnessLevel
                   {| pushups_max := 25; abs_max := 30; plank_sec := 95;
                      run_speed_kmh := 8; run_duration_min := 20 |} ana))%Z.
Proof.
  apply (evaluateFitnessLevel_monotone
           sampleRecords
           {| pushups_max := 25; abs_max := 30; plank_sec := 95;
              run_speed_kmh := 8; run_duration_min := 20 |} ana);
    discriminate.
Defined.

(** X11. The equipment filter keeps a template only if the user has
    every piece of equipment it requires, and the catalog has something
    to offer exactly to the users who own a treadmill or a mat. *)
Theorem filterWorkoutsByEquipment_available (equipment : Equipment) :
  (forall t, In t (filterWorkoutsByEquipment WORKOUT_TEMPLATES equipment) ->
             In t WORKOUT_TEMPLATES
             /\ forall k, In k (required_equipment t) -> hasEquipment equipment k = true)
  /\ (filterWorkoutsByEquipment WORKOUT_TEMPLATES equipment <> []
      <-> treadmill equipment = true \/ mat equipment = true).
Proof.
  split.
  - intros t H. unfold filterWorkoutsByEquipment in H. apply filter_In in H.
    destruct H as [Hin Hall]. split; [exact Hin|].
    rewrite forallb_forall in Hall. exact Hall.
  - unfold filterWorkoutsByEquipment, WORKOUT_TEMPLATES.
    cbn [filter required_equipment hiit_short run_continuous strength_bodyweight
         strength_dumbbells beginner_basic forallb].
    change (hasEquipment equipment k_treadmill) with (treadmill equipment).
    change (hasEquipment equipment k_mat) with (mat equipment).
    destruct (treadmill equipment), (mat equipment),
      (hasEquipment equipment k_dumbbells_kg); cbn [andb];
      split; intro H; try discriminate; try tauto;
      try (exfalso; apply H; reflexivity);
      try (destruct H; discriminate).
Qed.

Lemma byScore_asym (a b : WorkoutTemplate * Q) :
  snd b - snd a < 0 -> ~ snd a - snd b < 0.
Proof. lra. Qed.

Lemma byScore_negtrans (a b c : WorkoutTemplate * Q) :
  ~ snd b - snd a < 0 -> ~ snd c - snd b < 0 -> ~ snd c - snd a < 0.
Proof. lra. Qed.

(** X12. [selectBestWorkout] answers from the available templates; when
    some of them suit the fitness level the answer is one of those, and
    none of those scores higher against the preferences; when none
    does, the answer is the first available template. *)
Theorem selectBestWorkout_best
        (availableTemplates : list WorkoutTemplate) (fitnessLevel : FitnessLevel)
        (prefs : WorkoutPreferences) (t : WorkoutTemplate) :
  selectBestWorkout availableTemplates fitnessLevel prefs = Some t ->
  In t availableTemplates
  /\ ((exists u, In u availableTemplates /\ levelAppropriate fitnessLevel u = true) ->
      levelAppropriate fitnessLevel t = true
      /\ forall u, In u availableTemplates -> levelAppropriate fitnessLevel u = true ->
                   scoreTemplate prefs u <= scoreTemplate prefs t)
  /\ ((forall u, In u availableTemplates -> levelAppropriate fitnessLevel u = false) ->
      hd_error availableTemplates = Some t).
Proof.
  intro H. split; [exact (selectBestWorkout_In _ _ _ _ H)|].
  unfold selectBestWorkout in H.
  destruct availableTemplates as [|first rest] eqn:Ea; [discriminate|].
  rewrite <- Ea in *.
  fold (levelAppropriate fitnessLevel) in H.
  destruct (filter (levelAppropriate fitnessLevel) availableTemplates) as [|l ls] eqn:Ef.
  - injection H as <-. split.
    + intros (u & Hu & Hl). exfalso.
      assert (In u (filter (levelAppropriate fitnessLevel) availableTemplates)) as K
          by (apply filter_In; split; assumption).
      rewrite Ef in K. exact K.
    + intros _. rewrite Ea. reflexivity.
  - rewrite <- Ef in H.
    destruct (sortBy _ _) as [|best others] eqn:Es; [discriminate|].
    injection H as <-.
    pose proof (sortBy_head (fun a b : WorkoutTemplate * Q => snd b - snd a)
                            byScore_asym byScore_negtrans _ _ _ Es) as Hbest.
    assert (In best (map (fun t => (t, scoreTemplate prefs t))
                         (filter (levelAppropriate fitnessLevel) availableTemplates)))
      as Hin.
    { apply (sortBy_In (fun a b : WorkoutTemplate * Q => snd b - snd a)).
      rewrite Es. left. reflexivity. }
    apply in_map_iff in Hin. destruct Hin as (t & Et & Ht).
    apply filter_In in Ht. destruct Ht as [Hav Hlev]. subst best. cbn [fst snd] in *.
    split.
    + intros _. split; [exact Hlev|].
      intros u Hu Hl.
      specialize (Hbest (u, scoreTemplate prefs u)). cbn [snd] in Hbest.
      assert (~ scoreTemplate prefs t - scoreTemplate prefs u < 0) as K.
      { apply Hbest. apply in_map_iff. exists u. split; [reflexivity|].
        apply filter_In. split; assumption. }
      lra.
    + intro Hnone. rewrite (Hnone t Hav) in Hlev. discriminate.
Qed.

Lemma selectBestWorkout_best_witness :
  In strength_bodyweight [strength_bodyweight; beginner_basic].
Proof.
  apply (proj1 (selectBestWorkout_best
                  [strength_bodyweight; beginner_basic] intermediate
                  noWorkoutPreferences strength_bodyweight eq_refl)).
Defined.

(** No input makes [generateWorkoutPlan] return a plan. *)
Lemma generateWorkoutPlan_never_plans (user : User) (personalRecords : PersonalRecords)
      (date : IsoDate) (prefs : option WorkoutPreferences) :
  generateWorkoutPlan user personalRecords date prefs = None.
Proof.
  unfold generateWorkoutPlan, generateWorkoutPlan_body.
  destruct (filterWorkoutsByEquipment WORKOUT_TEMPLATES (equipment user))
    as [|a rest] eqn:Ea; [reflexivity|].
  rewrite <- Ea.
  destruct (selectBestWorkout _ _ _) as [t|] eqn:Et; [|reflexivity].
  rewrite progressWorkout_throws; [reflexivity|].
  apply selectBestWorkout_In in Et.
  apply filterWorkoutsByEquipment_In in Et. exact Et.
Qed.

Lemma weeklyWorkoutLoop_throws (host : HostDate) (user : User)
      (personalRecords : PersonalRecords) (startDate : string) (daysPerWeek : Q)
      (indices : list Z) :
  forall weekPlan e,
    weeklyWorkoutLoop host user personalRecords startDate daysPerWeek indices weekPlan
    = inl e ->
    exists i, In i indices /\ derivedDate host startDate i = inl InvalidTimeValue.
Proof.
  induction indices as [|i rest IH]; intros weekPlan e H; [discriminate H|].
  cbn [weeklyWorkoutLoop] in H.
  destruct (derivedDate host startDate i) as [[]|derived] eqn:E.
  - exists i. split; [left; reflexivity | exact E].
  - destruct (IH _ _ H) as (j & Hj & Ej). exists j. split; [right; exact Hj | exact Ej].
Qed.

Lemma weeklyWorkoutLoop_returns (host : HostDate) (user : User)
      (personalRecords : PersonalRecords) (startDate : string) (daysPerWeek : Q)
      (indices : list Z) :
  forall weekPlan week,
    weeklyWorkoutLoop host user personalRecords startDate daysPerWeek indices weekPlan
    = inr week ->
    week = weekPlan
    /\ forall i, In i indices -> exists derived, derivedDate host startDate i = inr derived.
Proof.
  induction indices as [|i rest IH]; intros weekPlan week H.
  - injection H as <-. split; [reflexivity | intros i []].
  - cbn [weeklyWorkoutLoop] in H.
    destruct (derivedDate host startDate i) as [e|derived] eqn:E; [discriminate H|].
    rewrite generateWorkoutPlan_never_plans in H.
    assert ((if shouldWorkout i (List.length weekPlan) daysPerWeek
             then weekPlan else weekPlan) = weekPlan) as Same
        by (destruct (shouldWorkout _ _ _); reflexivity).
    cbn zeta in H. rewrite Same in H.
    destruct (IH _ _ H) as [-> Hall]. split; [reflexivity|].
    intros j [<-|Hj]; [exists derived; exact E | apply Hall; exact Hj].
Qed.

(** X13. The weekly workout generator never schedules anything:
    whatever the user, the records, the start date and the number of
    days asked for, it either returns the empty week, when the dates of
    all seven days derive, or throws the [RangeError] of [toISOString],
    when the date of one of them does not; an unparseable start date
    throws on the first day, before any workout is attempted. *)
Theorem generateWeeklyWorkoutPlan_empty
        (host : HostDate) (user : User) (personalRecords : PersonalRecords)
        (startDate : string) (daysPerWeek : Q) :
  match generateWeeklyWorkoutPlan host user personalRecords startDate daysPerWeek with
  | inl _ =>
      exists i, In i weekIndices /\ derivedDate host startDate i = inl InvalidTimeValue
  | inr week =>
      week = []
      /\ forall i, In i weekIndices ->
                   exists derived, derivedDate host startDate i = inr derived
  end
  /\ (parseDate host startDate = None ->
      generateWeeklyWorkoutPlan host user personalRecords startDate daysPerWeek
      = inl InvalidTimeValue).
Proof.
  split.
  - unfold generateWeeklyWorkoutPlan.
    destruct (weeklyWorkoutLoop host user personalRecords startDate daysPerWeek
                                weekIndices []) as [e|week] eqn:E.
    + exact (weeklyWorkoutLoop_throws _ _ _ _ _ _ _ _ E).
    + exact (weeklyWorkoutLoop_returns _ _ _ _ _ _ _ _ E).
  - intro E. unfold generateWeeklyWorkoutPlan, weekIndices. cbn [weeklyWorkoutLoop].
    rewrite (derivedDate_unparseable _ _ _ E). reflexivity.
Qed.

(** A start date that is no date makes the call throw; the first day of
    1970 gives the empty week. *)
Lemma generateWeeklyWorkoutPlan_empty_witness :
  generateWeeklyWorkoutPlan sampleHost ana sampleRecords "el lunes" 3
  = inl InvalidTimeValue
  /\ generateWeeklyWorkoutPlan sampleHost ana sampleRecords "1970-01-01" 3 = inr [].
Proof.
  split.
  - apply (proj2 (generateWeeklyWorkoutPlan_empty sampleHost ana sampleRecords
                                                  "el lunes" 3)).
    reflexivity.
  - vm_compute. reflexivity.
Defined.

End WorkoutTools.

(* ================================================================== *)
(** ** Progress tracking: further properties *)

Section ProgressTools.

Lemma ratio_percent (part whole : nat) :
  (part <= whole)%nat -> (0 < whole)%nat ->
  0 <= inject_Z (Z.of_nat part) / inject_Z (Z.of_nat whole) * 100
  /\ inject_Z (Z.of_nat part) / inject_Z (Z.of_nat whole) * 100 <= 100.
Proof.
  intros Hle Hpos.
  assert (0 <= inject_Z (Z.of_nat part)) as Hp
      by (change 0 with (inject_Z 0); rewrite <- Zle_Qle; lia).
  assert (0 < inject_Z (Z.of_nat whole)) as Hw
      by (change 0 with (inject_Z 0); rewrite <- Zlt_Qlt; lia).
  assert (inject_Z (Z.of_nat part) <= inject_Z (Z.of_nat whole)) as Hpw
      by (rewrite <- Zle_Qle; lia).
  set (p := inject_Z (Z.of_nat part)) in *. set (w := inject_Z (Z.of_nat whole)) in *.
  assert (p / w * w == p) as E by (field; lra).
  assert (0 <= p / w) as L.
  { apply Qle_shift_div_l; [exact Hw | lra]. }
  assert (p / w <= 1) as U.
  { apply Qle_shift_div_r; [exact Hw | lra]. }
  split; lra.
Qed.

Lemma Math_round_percent (x : Q) : 0 <= x -> x <= 100 -> (0 <= Math_round x <= 100)%Z.
Proof.
  intros L U. split.
  - rewrite <- (Math_round_Z 0). apply Math_round_mono. exact L.
  - rewrite <- (Math_round_Z 100). apply Math_round_mono. exact U.
Qed.

Lemma percentOf_range (part whole : nat) :
  (part <= whole)%nat -> (0 < whole)%nat -> (0 <= percentOf part whole <= 100)%Z.
Proof.
  intros Hle Hpos. unfold percentOf.
  destruct (ratio_percent part whole Hle Hpos) as [L U].
  apply Math_round_percent; assumption.
Qed.

Lemma planAdherence_range (plan : MealPlanDay) (a : Q) :
  planAdherence plan = Some a -> 0 <= a /\ a <= 100.
Proof.
  unfold planAdherence.
  destruct (meals plan) as [|m ms] eqn:E; [discriminate|].
  rewrite <- E. intro H. injection H as <-.
  apply ratio_percent; [apply filter_length_le | rewrite E; cbn; lia].
Qed.

Lemma calculateMealPlanAdherence_percent (mealPlans : list MealPlanDay) :
  (0 <= calculateMealPlanAdherence mealPlans <= 100)%Z.
Proof.
  unfold calculateMealPlanAdherence.
  destruct mealPlans as [|p0 ps] eqn:Ep; [lia|]. rewrite <- Ep. clear Ep p0 ps.
  set (step := fun (acc : Q * Z) plan =>
                 match planAdherence plan with
                 | Some adherence => (fst acc + adherence, (snd acc + 1)%Z)
                 | None => acc
                 end).
  assert (forall plans acc,
             (0 <= snd acc)%Z -> 0 <= fst acc -> fst acc <= 100 * inject_Z (snd acc) ->
             (0 <= snd (fold_left step plans acc))%Z
             /\ 0 <= fst (fold_left step plans acc)
             /\ fst (fold_left step plans acc)
                <= 100 * inject_Z (snd (fold_left step plans acc))) as Hinv.
  { induction plans as [|plan rest IH]; intros acc Hc Hs Hb; [cbn; tauto|].
    cbn [fold_left]. apply IH; unfold step;
      destruct (planAdherence plan) as [a|] eqn:Ea; cbn [fst snd]; try assumption;
      try lia; destruct (planAdherence_range plan a Ea) as [La Ua].
    - lra.
    - rewrite inject_Z_plus. change (inject_Z 1) with 1. lra. }
  destruct (Hinv mealPlans (0, 0%Z)) as (Hc & Hs & Hb); cbn [fst snd];
    [lia | discriminate | discriminate |].
  set (state := fold_left step mealPlans (0, 0%Z)) in *.
  destruct (0 <? snd state)%Z eqn:E; [|lia].
  apply Z.ltb_lt in E.
  assert (0 < inject_Z (snd state)) as Hpos
      by (change 0 with (inject_Z 0); rewrite <- Zlt_Qlt; exact E).
  apply Math_round_percent.
  - apply Qle_shift_div_l; [exact Hpos | lra].
  - apply Qle_shift_div_r; [exact Hpos | lra].
Qed.

(** X14. The meal-plan adherence is a percentage: for every list of
    plan days it lies between 0 and 100, and it is 0 when there is no
    plan day. *)
Theorem calculateMealPlanAdherence_range (mealPlans : list MealPlanDay) :
  (0 <= calculateMealPlanAdherence mealPlans <= 100)%Z
  /\ calculateMealPlanAdherence [] = 0%Z.
Proof.
  split; [|reflexivity].
  apply calculateMealPlanAdherence_percent.
Qed.

(** X15. All four figures of [calculateDetailedAdherence] - meals,
    workouts, water and the weighted overall figure - are percentages
    between 0 and 100, for every input. *)
Theorem calculateDetailedAdherence_range
        (mealPlans : list MealPlanDay) (workouts : list WorkoutPlanDay)
        (waterIntakeRecords : list WaterRecord) :
  let d := calculateDetailedAdherence mealPlans workouts waterIntakeRecords in
  (0 <= meal_adherence d <= 100)%Z
  /\ (0 <= workout_adherence d <= 100)%Z
  /\ (0 <= water_adherence d <= 100)%Z
  /\ (0 <= overall_adherence d <= 100)%Z.
Proof.
  cbn zeta. unfold calculateDetailedAdherence.
  cbn [meal_adherence workout_adherence water_adherence overall_adherence].
  pose proof (calculateMealPlanAdherence_percent mealPlans) as Hm.
  set (m := calculateMealPlanAdherence mealPlans) in *.
  set (w := match workouts with
            | [] => 0%Z
            | _ :: _ => percentOf (List.length (filter isDone workouts))
                                  (List.length workouts)
            end).
  set (h := match waterIntakeRecords with
            | [] => 0%Z
            | _ :: _ => percentOf _ (List.length waterIntakeRecords)
            end).
  assert (0 <= w <= 100)%Z as Hw.
  { unfold w. destruct workouts as [|x xs] eqn:E; [lia|]. rewrite <- E.
    apply percentOf_range; [apply filter_length_le | rewrite E; cbn; lia]. }
  assert (0 <= h <= 100)%Z as Hh.
  { unfold h. destruct waterIntakeRecords as [|x xs] eqn:E; [lia|]. rewrite <- E.
    apply percentOf_range; [apply filter_length_le | rewrite E; cbn; lia]. }
  split; [exact Hm|]. split; [exact Hw|]. split; [exact Hh|].
  apply Math_round_percent;
    destruct Hm as [Hm1 Hm2]; destruct Hw as [Hw1 Hw2]; destruct Hh as [Hh1 Hh2];
    rewrite Zle_Qle in Hm1, Hm2, Hw1, Hw2, Hh1, Hh2;
    change (inject_Z 0) with 0 in *; change (inject_Z 100) with 100 in *; lra.
Qed.

(** X16. Whatever analysis it is given, [applyAutomaticAdjustments]
    never proposes a calorie target below the safety floor of the
    user's sex, never applies both calorie rules at once, and its
    volume multiplier, when there is one, is 0.9 or 1.075. *)
Theorem applyAutomaticAdjustments_safe
        (user : User) (analysis : WeeklyProgressAnalysis) (activityFactor : Q) :
  let adj := applyAutomaticAdjustments user analysis activityFactor in
  (forall k, new_kcal_target adj = Some k -> (min_safe_kcal (sex user) <= k)%Z)
  /\ ~ (In "weight_loss_too_fast" (applied_rules adj)
        /\ In "weight_loss_too_slow" (applied_rules adj))
  /\ (volume_multiplier adj = None \/ volume_multiplier adj = Some 0.9
      \/ volume_multiplier adj = Some 1.075).
Proof.
  cbn zeta. unfold applyAutomaticAdjustments.
  cbn [new_kcal_target volume_multiplier applied_rules].
  pose proof (calculateKcalRange_target_floor
                (inject_Z (tdee (calculateAllMetrics user activityFactor)))
                (goal_weight_kg user) (weight_kg user) (sex user)) as Hfloor.
  change (calculateKcalRange _ _ _ _)
    with (kcal_range (calculateAllMetrics user activityFactor)) in Hfloor.
  set (currentKcal := kcal_target (kcal_range (calculateAllMetrics user activityFactor))) in *.
  split; [|split].
  - intros k.
    destruct (kcal_adjustment_needed analysis); [|discriminate].
    destruct (weight_trend analysis); cbn [fst]; try discriminate;
      intro H; injection H as <-.
    + apply min_safe_kcal_le_scaled; [exact Hfloor | lra].
    + destruct (sex user); apply Z.le_max_r.
  - intros [Hf Hs].
    destruct (kcal_adjustment_needed analysis);
      [destruct (weight_trend analysis)|];
      destruct (volume_adjustment_needed analysis);
      try destruct (Qle_bool 8 (avg_rpe analysis));
      cbn [fst snd app In] in Hf, Hs;
      repeat (destruct Hf as [Hf|Hf]; try discriminate Hf);
      repeat (destruct Hs as [Hs|Hs]; try discriminate Hs); try contradiction.
  - destruct (volume_adjustment_needed analysis); [|left; reflexivity].
    destruct (Qle_bool 8 (avg_rpe analysis)); cbn [fst]; tauto.
Qed.

(** The weekly change of fewer than two measurements is zero. *)
Lemma calculateWeeklyWeightChange_few (measurements : list Measurement) (weeksBack : Z) :
  (List.length measurements < 2)%nat ->
  calculateWeeklyWeightChange measurements weeksBack = Fin 0.
Proof.
  intro H. unfold calculateWeeklyWeightChange.
  apply Nat.ltb_lt in H. rewrite H. reflexivity.
Qed.

(** X17. With fewer than two measurements there is no trend to read:
    [analyzeWeeklyProgress] reports a weekly change of 0, the trend
    [maintenance], asks for no calorie adjustment and makes neither of
    the two weight suggestions. *)
Theorem analyzeWeeklyProgress_few_measurements
        (user : User) (measurements : list Measurement)
        (mealPlans : list MealPlanDay) (workouts : list WorkoutPlanDay)
        (currentRecords : PersonalRecords) (previousRecords : option PersonalRecords)
        (activityFactor : Q) (now : string) :
  (List.length measurements < 2)%nat ->
  let a := analyzeWeeklyProgress user measurements mealPlans workouts currentRecords
                                 previousRecords activityFactor now in
  weight_change_pct a = Fin 0
  /\ weight_trend a = maintenance
  /\ kcal_adjustment_needed a = false
  /\ hasSuggestion "weight_loss_too_fast" a = false
  /\ hasSuggestion "weight_loss_too_slow" a = false.
Proof.
  intros H a.
  pose proof (calculateWeeklyWeightChange_few measurements 1 H) as E.
  assert (weight_trend a = maintenance) as Ht.
  { unfold a, analyzeWeeklyProgress; cbn [weight_trend]. rewrite E. reflexivity. }
  unfold a, analyzeWeeklyProgress in *;
    cbn [weight_trend weight_change_pct kcal_adjustment_needed] in *.
  split; [exact E|]. split; [exact Ht|].
  unfold hasSuggestion; cbn [suggestions]. rewrite Ht. cbn [WeightTrend_eqb andb orb app].
  split; [reflexivity|].
  repeat match goal with
         | |- context [if ?c then _ else _] => destruct c
         end; cbn; split; reflexivity.
Qed.

Lemma analyzeWeeklyProgress_few_measurements_witness :
  weight_trend (analyzeWeeklyProgress ana [weighIn 0 100] [] [] sampleRecords None
                                      1.55 "") = maintenance.
Proof.
  apply (proj1 (proj2 (analyzeWeeklyProgress_few_measurements
                         ana [weighIn 0 100] [] [] sampleRecords None 1.55 ""
                         ltac:(cbn; lia)))).
Defined.

(** X18. The two weight rules exclude each other: no analysis carries
    both the rapid-loss and the slow-loss suggestion, and a calorie
    adjustment is asked for exactly when one of them is made. *)
Theorem analyzeWeeklyProgress_weight_rules_exclusive
        (user : User) (measurements : list Measurement)
        (mealPlans : list MealPlanDay) (workouts : list WorkoutPlanDay)
        (currentRecords : PersonalRecords) (previousRecords : option PersonalRecords)
        (activityFactor : Q) (now : string) :
  let a := analyzeWeeklyProgress user measurements mealPlans workouts currentRecords
                                 previousRecords activityFactor now in
  andb (hasSuggestion "weight_loss_too_fast" a) (hasSuggestion "weight_loss_too_slow" a)
  = false
  /\ kcal_adjustment_needed a
     = orb (hasSuggestion "weight_loss_too_fast" a)
           (hasSuggestion "weight_loss_too_slow" a).
Proof.
  cbn zeta. unfold analyzeWeeklyProgress, hasSuggestion.
  cbn [suggestions kcal_adjustment_needed].
  destruct (classifyTrend measurements (calculateWeeklyWeightChange measurements 1));
    destruct (Qltb (goal_weight_kg user) (weight_kg user));
    cbn [WeightTrend_eqb andb orb app];
    repeat match goal with
           | |- context [if ?c then _ else _] => destruct c
           end; cbn; split; reflexivity.
Qed.

(** X19. The protein alert needs more than three plan days: with three
    or fewer, [analyzeWeeklyProgress] never makes the
    [protein_insufficient] suggestion, whatever the plans contain. *)
Theorem analyzeWeeklyProgress_protein_alert_needs_days
        (user : User) (measurements : list Measurement)
        (mealPlans : list MealPlanDay) (workouts : list WorkoutPlanDay)
        (currentRecords : PersonalRecords) (previousRecords : option PersonalRecords)
        (activityFactor : Q) (now : string) :
  (List.length mealPlans <= 3)%nat ->
  hasSuggestion "protein_insufficient"
    (analyzeWeeklyProgress user measurements mealPlans workouts currentRecords
                           previousRecords activityFactor now) = false.
Proof.
  intro H. unfold analyzeWeeklyProgress, hasSuggestion. cbn [suggestions].
  assert (0 <= calculateProteinCompliance mealPlans user activityFactor)%Z as Hc.
  { unfold calculateProteinCompliance. destruct mealPlans; lia. }
  assert ((calculateProteinCompliance mealPlans user activityFactor
           <? Z.of_nat (List.length mealPlans) - 3)%Z = false) as E
      by (apply Z.ltb_ge; lia).
  rewrite E.
  repeat match goal with
         | |- context [if ?c then _ else _] => destruct c
         end; cbn; reflexivity.
Qed.

Lemma analyzeWeeklyProgress_protein_alert_needs_days_witness :
  hasSuggestion "protein_insufficient"
    (analyzeWeeklyProgress ana [] [samplePlan 3 1500 0; samplePlan 3 1500 0] []
                           sampleRecords None 1.55 "") = false.
Proof.
  apply (analyzeWeeklyProgress_protein_alert_needs_days
           ana [] [samplePlan 3 1500 0; samplePlan 3 1500 0] [] sampleRecords None
           1.55 "").
  cbn. lia.
Defined.

End ProgressTools.

(* ================================================================== *)
(** ** Shopping list: consolidation *)

Section Consolidation.

Lemma addIngredient_keys (foodId : string) (totalGrams : Q) (recipeId : string)
      (entries : list ConsolidatedIngredient) (x : string) :
  In x (map ci_food_id (addIngredient foodId totalGrams recipeId entries)) ->
  x = foodId \/ In x (map ci_food_id entries).
Proof.
  induction entries as [|e rest IH]; cbn [addIngredient map In].
  - intros [H|[]]. left. symmetry. exact H.
  - destruct (String.eqb (ci_food_id e) foodId) eqn:E; cbn [map In ci_food_id].
    + tauto.
    + intros [H|H]; [tauto|]. destruct (IH H); tauto.
Qed.

Lemma addIngredient_NoDup (foodId : string) (totalGrams : Q) (recipeId : string)
      (entries : list ConsolidatedIngredient) :
  NoDup (map ci_food_id entries) ->
  NoDup (map ci_food_id (addIngredient foodId totalGrams recipeId entries)).
Proof.
  induction entries as [|e rest IH]; cbn [addIngredient map]; intro H.
  - constructor; [intros [] | constructor].
  - inversion H as [|k ks Hnot Hrest]; subst.
    destruct (String.eqb (ci_food_id e) foodId) eqn:E; cbn [map ci_food_id].
    + constructor; assumption.
    + constructor; [|apply IH; exact Hrest].
      intro K. apply addIngredient_keys in K. destruct K as [K|K]; [|contradiction].
      apply String.eqb_neq in E. contradiction.
Qed.

Lemma addMeal_NoDup (recipes : list Recipe) (entries : list ConsolidatedIngredient)
      (meal : Meal) :
  NoDup (map ci_food_id entries) -> NoDup (map ci_food_id (addMeal recipes entries meal)).
Proof.
  unfold addMeal. destruct (find _ recipes) as [recipe|]; [|tauto].
  generalize (ingredients recipe). intro ings. revert entries.
  induction ings as [|ing rest IH]; intros entries H; [exact H|].
  cbn [fold_left]. apply IH. apply addIngredient_NoDup. exact H.
Qed.

(** X20. [consolidateIngredients] lists every food once: no two entries
    of its result share a food id, however often the food occurs in the
    plans. *)
Theorem consolidateIngredients_NoDup (mealPlans : list MealPlanDay) (recipes : list Recipe) :
  NoDup (map ci_food_id (consolidateIngredients mealPlans recipes)).
Proof.
  unfold consolidateIngredients.
  assert (forall plans entries,
             NoDup (map ci_food_id entries) ->
             NoDup (map ci_food_id
                        (fold_left (fun acc plan =>
                                      fold_left (addMeal recipes) (meals plan) acc)
                                   plans entries))) as H.
  { induction plans as [|plan rest IH]; intros entries Hn; [exact Hn|].
    cbn [fold_left]. apply IH.
    generalize (meals plan). intro ms. revert entries Hn.
    induction ms as [|m ms' IHm]; intros entries Hn; [exact Hn|].
    cbn [fold_left]. apply IHm. apply addMeal_NoDup. exact Hn. }
  apply H. constructor.
Qed.

Lemma consolidatedGrams_add (k foodId : string) (totalGrams : Q) (recipeId : string)
      (entries : list ConsolidatedIngredient) :
  consolidatedGrams k (addIngredient foodId totalGrams recipeId entries)
  == consolidatedGrams k entries + (if String.eqb foodId k then totalGrams else 0).
Proof.
  unfold consolidatedGrams.
  induction entries as [|e rest IH]; cbn [addIngredient find ci_food_id].
  - destruct (String.eqb foodId k); cbn [total_grams]; lra.
  - destruct (String.eqb (ci_food_id e) foodId) eqn:E; cbn [find ci_food_id].
    + apply String.eqb_eq in E. rewrite <- E.
      destruct (String.eqb (ci_food_id e) k); cbn [total_grams]; lra.
    + destruct (String.eqb (ci_food_id e) k) eqn:Ek.
      * apply String.eqb_eq in Ek. subst k. rewrite String.eqb_sym, E. lra.
      * exact IH.
Qed.

Lemma consolidatedGrams_addMeal (k : string) (recipes : list Recipe)
      (entries : list ConsolidatedIngredient) (meal : Meal) :
  consolidatedGrams k (addMeal recipes entries meal)
  == consolidatedGrams k entries + mealDemand recipes k meal.
Proof.
  unfold addMeal, mealDemand.
  destruct (find _ recipes) as [recipe|]; [|lra].
  generalize (ingredients recipe). intro ings. revert entries.
  induction ings as [|ing rest IH]; intro entries.
  - cbn. lra.
  - cbn [fold_left map sumQ fold_right]. fold (sumQ (map (fun ing0 =>
        if String.eqb (food_id ing0) k then grams ing0 * portions meal else 0) rest)).
    rewrite IH, consolidatedGrams_add. lra.
Qed.

(** X21. For every food, the grams that [consolidateIngredients] holds
    for it are the grams the plans call for: the sum, over all meals
    whose recipe is in the catalog, of the recipe's grams of that food
    times the meal's portions; a food no such meal uses has no grams. *)
Theorem consolidateIngredients_grams
        (mealPlans : list MealPlanDay) (recipes : list Recipe) (foodId : string) :
  consolidatedGrams foodId (consolidateIngredients mealPlans recipes)
  == spec_demand mealPlans recipes foodId.
Proof.
  unfold consolidateIngredients, spec_demand.
  assert (forall plans entries,
             consolidatedGrams foodId
               (fold_left (fun acc plan => fold_left (addMeal recipes) (meals plan) acc)
                          plans entries)
             == consolidatedGrams foodId entries
                + sumQ (map (fun plan => sumQ (map (mealDemand recipes foodId) (meals plan)))
                            plans)) as H.
  { induction plans as [|plan rest IH]; intro entries; [cbn; lra|].
    cbn [fold_left map sumQ fold_right].
    fold (sumQ (map (fun plan0 => sumQ (map (mealDemand recipes foodId) (meals plan0)))
                    rest)).
    rewrite IH.
    assert (forall ms es,
               consolidatedGrams foodId (fold_left (addMeal recipes) ms es)
               == consolidatedGrams foodId es + sumQ (map (mealDemand recipes foodId) ms))
      as Hm.
    { induction ms as [|m ms' IHm]; intro es; [cbn; lra|].
      cbn [fold_left map sumQ fold_right].
      fold (sumQ (map (mealDemand recipes foodId) ms')).
      rewrite IHm, consolidatedGrams_addMeal. lra. }
    rewrite Hm. unfold sumQ. lra. }
  rewrite H. cbn. lra.
Qed.

End Consolidation.

(* ================================================================== *)
(** ** Stable sorting: the whole array *)

Section SortAll.

Context {A : Type} (cmp : A -> A -> Q).

Hypothesis cmp_asym : forall a b, cmp a b < 0 -> ~ cmp b a < 0.
Hypothesis cmp_negtrans :
  forall a b c, ~ cmp a b < 0 -> ~ cmp b c < 0 -> ~ cmp a c < 0.

(** [b] is never placed strictly before [a] *)
Let inOrder (a b : A) : Prop := ~ cmp b a < 0.

Lemma insertBy_sorted (x : A) (l : list A) :
  StronglySorted inOrder l -> StronglySorted inOrder (insertBy cmp x l).
Proof.
  induction l as [|y ys IH]; intro Hs; cbn [insertBy].
  - constructor; [constructor | constructor].
  - inversion Hs as [|y' ys' Hys Hall]; subst.
    destruct (Qltb (cmp y x) 0) eqn:E.
    + apply Qltb_true in E. constructor; [apply IH; exact Hys|].
      apply Forall_forall. intros z Hz. apply insertBy_In in Hz.
      destruct Hz as [->|Hz].
      * unfold inOrder. apply cmp_asym. exact E.
      * rewrite Forall_forall in Hall. apply Hall. exact Hz.
    + apply Qltb_false in E.
      assert (~ cmp y x < 0) as NE by (apply Qle_not_lt; exact E).
      constructor; [exact Hs|].
      constructor; [exact NE|].
      apply Forall_forall. intros z Hz. rewrite Forall_forall in Hall.
      unfold inOrder. apply (cmp_negtrans z y x); [apply Hall; exact Hz | exact NE].
Qed.

Lemma sortBy_sorted (l : list A) : StronglySorted inOrder (sortBy cmp l).
Proof.
  induction l as [|x xs IH]; cbn [sortBy]; [constructor|].
  apply insertBy_sorted. exact IH.
Qed.

Lemma insertBy_length (x : A) (l : list A) :
  List.length (insertBy cmp x l) = S (List.length l).
Proof.
  induction l as [|y ys IH]; cbn [insertBy]; [reflexivity|].
  destruct (Qltb (cmp y x) 0); cbn [List.length]; [rewrite IH|]; reflexivity.
Qed.

Lemma sortBy_length (l : list A) : List.length (sortBy cmp l) = List.length l.
Proof.
  induction l as [|x xs IH]; cbn [sortBy]; [reflexivity|].
  rewrite insertBy_length, IH. reflexivity.
Qed.

End SortAll.

(* ================================================================== *)
(** ** Shopping list: prices, grouping and batch cooking *)

Section ShoppingTools.

Lemma discount_step (p pct : Q) :
  0 <= p -> 0 <= pct -> pct <= 100 ->
  0 <= p - p * (pct / 100) /\ p - p * (pct / 100) <= p.
Proof.
  intros Hp L U.
  assert (pct / 100 == pct * (1 # 100)) as E by field.
  rewrite E. split; nra.
Qed.

(** X22. At each of the three stores a discount never raises a price
    and never makes it negative: for a price per kilogram and a weight
    that are not negative, the final price lies between 0 and the
    original price, whatever the budget tier, month and weight. *)
Theorem calculateDiscountedPrice_bounds
        (basePrice : Q) (foodItem : FoodItem) (grams : Q) (store : StoreKey)
        (user : User) (currentMonth : Z) :
  0 <= basePrice -> 0 <= grams ->
  let pricing :=
    calculateDiscountedPrice basePrice foodItem grams (STORE_CONFIGS store) user
                             currentMonth in
  (0 <= final_price pricing <= original_price pricing)%Z.
Proof.
  intros Hb Hg. cbn zeta. unfold calculateDiscountedPrice.
  cbn [final_price original_price].
  set (orig := Math_round (basePrice / 1000 * grams)).
  assert (0 <= orig)%Z as Ho.
  { unfold orig. rewrite <- (Math_round_Z 0). apply Math_round_mono.
    change (inject_Z 0) with 0.
    assert (basePrice / 1000 == basePrice * (1 # 1000)) as E by field.
    rewrite E. nra. }
  assert (0 <= inject_Z orig) as Hp0
      by (change 0 with (inject_Z 0); rewrite <- Zle_Qle; exact Ho).
  set (p0 := inject_Z orig) in *.
  assert (0 <= baes_discount (STORE_CONFIGS store)
          /\ baes_discount (STORE_CONFIGS store) <= 100
          /\ 0 <= seasonal_discount (STORE_CONFIGS store)
          /\ seasonal_discount (STORE_CONFIGS store) <= 100
          /\ 0 <= bulk_discount_pct (STORE_CONFIGS store)
          /\ bulk_discount_pct (STORE_CONFIGS store) <= 100) as (B1 & B2 & S1 & S2 & V1 & V2).
  { destruct store; cbn; repeat split; discriminate. }
  set (p1 := if andb (isLowBudget user) (Qltb 0 (baes_discount (STORE_CONFIGS store)))
             then p0 - p0 * (baes_discount (STORE_CONFIGS store) / 100) else p0).
  assert (0 <= p1 /\ p1 <= p0) as [L1 U1].
  { unfold p1. destruct (andb _ _); [apply discount_step; assumption | lra]. }
  set (p2 := if inSeason foodItem currentMonth
             then p1 - p1 * (seasonal_discount (STORE_CONFIGS store) / 100) else p1).
  assert (0 <= p2 /\ p2 <= p1) as [L2 U2].
  { unfold p2. destruct (inSeason _ _); [apply discount_step; assumption | lra]. }
  set (p3 := if Qle_bool (bulk_discount_threshold (STORE_CONFIGS store)) grams
             then p2 - p2 * (bulk_discount_pct (STORE_CONFIGS store) / 100) else p2).
  assert (0 <= p3 /\ p3 <= p2) as [L3 U3].
  { unfold p3. destruct (Qle_bool _ _); [apply discount_step; assumption | lra]. }
  split.
  - rewrite <- (Math_round_Z 0). apply Math_round_mono. exact L3.
  - rewrite <- (Math_round_Z orig). apply Math_round_mono. fold p0. lra.
Qed.

Lemma calculateDiscountedPrice_bounds_witness :
  (0 <= final_price (calculateDiscountedPrice 6000 chicken_breast 1200
                                              (STORE_CONFIGS baes) ana_low_budget 1)
   <= original_price (calculateDiscountedPrice 6000 chicken_breast 1200
                                               (STORE_CONFIGS baes) ana_low_budget 1))%Z.
Proof.
  apply (calculateDiscountedPrice_bounds 6000 chicken_breast 1200 baes ana_low_budget 1);
    discriminate.
Defined.

Lemma fold_assignIngredient_unpriced (foodItems : list FoodItem) (user : User)
      (currentMonth : Z) (ingredients : list ConsolidatedIngredient) (opt : Optimization) :
  (forall foodId, pricedFood foodItems foodId = None) ->
  fold_left (assignIngredient foodItems user currentMonth) ingredients opt = opt.
Proof.
  intro H. induction ingredients as [|ing rest IH]; [reflexivity|].
  cbn [fold_left]. unfold assignIngredient at 2. rewrite H. exact IH.
Qed.

(** X23. When the food table prices nothing the plans use - in
    particular when it is empty - the shopping list is empty and free:
    no items, a total cost of 0 with no delivery charged, and the store
    mode falls back to the discount store for low-budget users and to
    mixed for everyone else. *)
Theorem generateWeeklyShoppingList_unpriced
        (user : User) (mealPlans : list MealPlanDay) (recipes : list Recipe)
        (foodItems : list FoodItem) (weekStart : string) (currentMonth : Z) :
  (forall foodId, pricedFood foodItems foodId = None) ->
  let shoppingList :=
    generateWeeklyShoppingList user mealPlans recipes foodItems weekStart currentMonth in
  items shoppingList = []
  /\ total_cost_estimate shoppingList = 0%Z
  /\ store_mode shoppingList
     = if isLowBudget user then mode_store baes else mode_mixed.
Proof.
  intro H. cbn zeta. unfold generateWeeklyShoppingList, optimizeStoreDistribution.
  cbn [items total_cost_estimate store_mode distribution cost_breakdown total_cost].
  rewrite (fold_assignIngredient_unpriced foodItems user currentMonth _ _ H).
  cbn [distribution cost_breakdown total_cost].
  unfold availableStores, chooseStoreMode.
  destruct (isLowBudget user); cbn; repeat split.
Qed.

Lemma generateWeeklyShoppingList_unpriced_witness :
  items (generateWeeklyShoppingList ana [samplePlan 3 1500 124] [almuerzo_exact] []
                                    "2024-01-01" 1) = [].
Proof.
  apply (proj1 (generateWeeklyShoppingList_unpriced
                  ana [samplePlan 3 1500 124] [almuerzo_exact] [] "2024-01-01" 1
                  (fun _ => eq_refl))).
Defined.

Lemma byPriority_asym (a b : GroupedItem) :
  byPriority a b < 0 -> ~ byPriority b a < 0.
Proof.
  unfold byPriority. change 0 with (inject_Z 0). rewrite <- !Zlt_Qlt. lia.
Qed.

Lemma byPriority_negtrans (a b c : GroupedItem) :
  ~ byPriority a b < 0 -> ~ byPriority b c < 0 -> ~ byPriority a c < 0.
Proof.
  unfold byPriority. change 0 with (inject_Z 0). rewrite <- !Zlt_Qlt. lia.
Qed.

Lemma pushGrouped_keys (storeKey : StoreKey) (x : GroupedItem)
      (grouped : list (StoreKey * list GroupedItem)) (k : StoreKey) :
  In k (map fst (pushGrouped storeKey x grouped)) ->
  k = storeKey \/ In k (map fst grouped).
Proof.
  induction grouped as [|[k0 l0] rest IH]; cbn [pushGrouped map In fst].
  - intros [H|[]]. left. symmetry. exact H.
  - destruct (StoreKey_eqb k0 storeKey); cbn [map In fst]; [tauto|].
    intros [H|H]; [tauto|]. destruct (IH H); tauto.
Qed.

Lemma pushGrouped_NoDup (storeKey : StoreKey) (x : GroupedItem)
      (grouped : list (StoreKey * list GroupedItem)) :
  NoDup (map fst grouped) -> NoDup (map fst (pushGrouped storeKey x grouped)).
Proof.
  induction grouped as [|[k0 l0] rest IH]; cbn [pushGrouped map fst]; intro H.
  - constructor; [intros [] | constructor].
  - inversion H as [|k ks Hnot Hrest]; subst.
    destruct (StoreKey_eqb k0 storeKey) eqn:E; cbn [map fst].
    + constructor; assumption.
    + constructor; [|apply IH; exact Hrest].
      intro K. apply pushGrouped_keys in K. destruct K as [K|K]; [|contradiction].
      subst k0. destruct storeKey; discriminate E.
Qed.

Lemma pushGrouped_members (storeKey : StoreKey) (x : GroupedItem)
      (grouped : list (StoreKey * list GroupedItem)) (k : StoreKey)
      (l : list GroupedItem) (y : GroupedItem) :
  In (k, l) (pushGrouped storeKey x grouped) -> In y l ->
  (k = storeKey /\ y = x) \/ exists l0, In (k, l0) grouped /\ In y l0.
Proof.
  induction grouped as [|[k0 l0] rest IH]; cbn [pushGrouped In].
  - intros [H|[]] Hy. injection H as <- <-. destruct Hy as [<-|[]]. left. tauto.
  - destruct (StoreKey_eqb k0 storeKey) eqn:E; cbn [In].
    + intros [H|H] Hy.
      * injection H as <- <-. apply in_app_or in Hy. destruct Hy as [Hy|[<-|[]]].
        -- right. exists l0. tauto.
        -- left. split; [apply StoreKey_eqb_eq; exact E | reflexivity].
      * right. exists l. tauto.
    + intros [H|H] Hy.
      * right. exists l. injection H as <- <-. tauto.
      * destruct (IH H Hy) as [K|(l1 & K1 & K2)]; [left; exact K|].
        right. exists l1. tauto.
Qed.

Lemma pushGrouped_count (storeKey : StoreKey) (x : GroupedItem)
      (grouped : list (StoreKey * list GroupedItem)) :
  groupedCount (pushGrouped storeKey x grouped) = S (groupedCount grouped).
Proof.
  induction grouped as [|[k0 l0] rest IH]; cbn [pushGrouped]; [reflexivity|].
  destruct (StoreKey_eqb k0 storeKey); cbn [groupedCount fold_right snd].
  - rewrite length_app. cbn. fold (groupedCount rest). lia.
  - fold (groupedCount (pushGrouped storeKey x rest)). fold (groupedCount rest).
    rewrite IH. lia.
Qed.

Lemma StronglySorted_weaken {A : Type} (R R' : A -> A -> Prop) (l : list A) :
  (forall a b, R a b -> R' a b) -> StronglySorted R l -> StronglySorted R' l.
Proof.
  intros Himp Hs. induction Hs as [|a l Hs IH Hall]; constructor; [exact IH|].
  apply Forall_forall. intros b Hb. rewrite Forall_forall in Hall.
  apply Himp. apply Hall. exact Hb.
Qed.

(** X24. [groupShoppingListByStore] files every item whose food is in
    the table under its own store and loses none: no store appears
    twice, each member of a group carries that store's hint, comes from
    the list and is named after its food, the groups together hold as
    many items as the list has items with a known food, and within a
    group high priority comes before medium and medium before low. *)
Theorem groupShoppingListByStore_sorted_groups
        (shoppingList : ShoppingList) (foodItems : list FoodItem) (currentMonth : Z) :
  let groups := groupShoppingListByStore shoppingList foodItems currentMonth in
  NoDup (map fst groups)
  /\ groupedCount groups
     = List.length (filter (fun item =>
                              match findFood foodItems (si_food_id item) with
                              | Some _ => true
                              | None => false
                              end) (items shoppingList))
  /\ forall store l, In (store, l) groups ->
       StronglySorted (fun a b => (priorityOrder (si_priority (grouped_item a))
                                   <= priorityOrder (si_priority (grouped_item b)))%Z) l
       /\ forall x, In x l -> wellGrouped shoppingList foodItems store x.
Proof.
  cbn zeta. unfold groupShoppingListByStore.
  set (step := fun grouped item =>
                 match findFood foodItems (si_food_id item) with
                 | Some foodItem =>
                     pushGrouped (store_hint item)
                       {| grouped_item := item; food_name := item_name foodItem;
                          item_notes := generateShoppingNotes item foodItem currentMonth |}
                       grouped
                 | None => grouped
                 end).
  set (known := fun item => match findFood foodItems (si_food_id item) with
                            | Some _ => true
                            | None => false
                            end).
  assert (forall its grouped,
             (forall item, In item its -> In item (items shoppingList)) ->
             NoDup (map fst grouped) ->
             (forall k l x, In (k, l) grouped -> In x l ->
                            wellGrouped shoppingList foodItems k x) ->
             NoDup (map fst (fold_left step its grouped))
             /\ groupedCount (fold_left step its grouped)
                = (groupedCount grouped + List.length (filter known its))%nat
             /\ (forall k l x, In (k, l) (fold_left step its grouped) -> In x l ->
                               wellGrouped shoppingList foodItems k x)) as Hinv.
  { induction its as [|item rest IH]; intros grouped Hsub Hnd Hwg.
    - cbn [fold_left filter List.length]. split; [exact Hnd|].
      split; [rewrite Nat.add_0_r; reflexivity | exact Hwg].
    - cbn [fold_left filter].
      assert (forall it, In it rest -> In it (items shoppingList)) as Hsub'
          by (intros it Hit; apply Hsub; right; exact Hit).
      assert (step grouped item
              = match findFood foodItems (si_food_id item) with
                | Some foodItem =>
                    pushGrouped (store_hint item)
                      {| grouped_item := item; food_name := item_name foodItem;
                         item_notes := generateShoppingNotes item foodItem currentMonth |}
                      grouped
                | None => grouped
                end) as Estep by reflexivity.
      assert (known item = match findFood foodItems (si_food_id item) with
                           | Some _ => true
                           | None => false
                           end) as Eknown by reflexivity.
      rewrite Estep, Eknown. clear Estep Eknown.
      destruct (findFood foodItems (si_food_id item)) as [f|] eqn:Ef.
      + destruct (IH (pushGrouped (store_hint item)
                        {| grouped_item := item; food_name := item_name f;
                           item_notes := generateShoppingNotes item f currentMonth |}
                        grouped) Hsub') as (N & C & W).
        * apply pushGrouped_NoDup. exact Hnd.
        * intros k l x Hin Hx.
          destruct (pushGrouped_members _ _ _ _ _ _ Hin Hx) as [[-> ->]|(l0 & K1 & K2)].
          -- unfold wellGrouped; cbn [grouped_item food_name].
             split; [reflexivity|]. split; [apply Hsub; left; reflexivity|].
             exists f. split; [exact Ef | reflexivity].
          -- exact (Hwg k l0 x K1 K2).
        * split; [exact N|]. split; [|exact W].
          rewrite C, pushGrouped_count. cbn [List.length]. lia.
      + apply IH; assumption. }
  destruct (Hinv (items shoppingList) []) as (N & C & W).
  { tauto. } { constructor. } { intros k l x []. }
  set (grouped := fold_left step (items shoppingList) []) in *.
  split; [|split].
  - rewrite map_map. cbn [fst]. exact N.
  - change (groupedCount []) with 0%nat in C. rewrite Nat.add_0_l in C.
    fold known. rewrite <- C.
    clear. induction grouped as [|e rest IH]; [reflexivity|].
    cbn [map groupedCount fold_right snd]. rewrite sortBy_length.
    fold (groupedCount (map (fun entry => (fst entry, sortBy byPriority (snd entry))) rest)).
    fold (groupedCount rest). rewrite IH. reflexivity.
  - intros store l Hin. apply in_map_iff in Hin.
    destruct Hin as ([k l0] & E & Hin). cbn [fst snd] in E. injection E as -> <-.
    split.
    + apply (StronglySorted_weaken (fun a b => ~ byPriority b a < 0)).
      * intros a b H. unfold byPriority in H.
        change 0 with (inject_Z 0) in H. rewrite <- Zlt_Qlt in H. lia.
      * apply (sortBy_sorted byPriority byPriority_asym byPriority_negtrans).
    + intros x Hx. apply sortBy_In in Hx. exact (W store l0 x Hin Hx).
Qed.

Lemma includesStr_In (l : list string) (x : string) :
  includesStr l x = true -> In x l.
Proof.
  unfold includesStr. intro H. apply existsb_exists in H.
  destruct H as (y & Hy & E). apply String.eqb_eq in E. subst y. exact Hy.
Qed.

(** X25. Batch cooking is suggested only for the three batch proteins
    bought by the kilogram: every suggestion belongs to an item of the
    list that is chicken breast, lean ground beef or white fish and
    weighs at least 1000 g, states a batch of at least 1 kg, keeps for
    3 to 5 days and names at most three recipes, each one a catalog
    recipe tagged for batch cooking that uses the food; and there is
    one suggestion per such item. *)
Theorem generateBatchCookingSuggestions_sound
        (shoppingList : ShoppingList) (recipes : list Recipe) :
  List.length (generateBatchCookingSuggestions shoppingList recipes)
  = List.length (filter isBatchProtein (items shoppingList))
  /\ forall s, In s (generateBatchCookingSuggestions shoppingList recipes) ->
       (exists item, In item (items shoppingList)
                     /\ si_food_id item = batch_food_id s
                     /\ 1000 <= grams_total item)
       /\ In (batch_food_id s) ["chicken_breast"; "ground_beef_lean"; "white_fish"]
       /\ 1 <= batch_size_kg s
       /\ (3 <= storage_days s <= 5)%Z
       /\ (List.length (suggested_recipes s) <= 3)%nat
       /\ forall name, In name (suggested_recipes s) ->
            exists r, In r recipes /\ recipe_name r = name
                      /\ hasTag (tags r) batch_cooking = true
                      /\ existsb (fun ing => String.eqb (food_id ing) (batch_food_id s))
                                 (ingredients r) = true.
Proof.
  unfold generateBatchCookingSuggestions. split; [apply length_map|].
  intros s Hs. apply in_map_iff in Hs. destruct Hs as (item & <- & Hitem).
  apply filter_In in Hitem. destruct Hitem as [Hin Hp].
  unfold isBatchProtein in Hp. apply andb_true_iff in Hp. destruct Hp as [Hfood Hgr].
  apply Qle_bool_iff in Hgr.
  unfold batchSuggestion;
    cbn [batch_food_id batch_size_kg storage_days suggested_recipes].
  split; [exists item; tauto|].
  split; [apply includesStr_In; exact Hfood|].
  split; [|split; [|split]].
  - assert (10 <= Math_round (grams_total item / 1000 * 10))%Z as K.
    { rewrite <- (Math_round_Z 10). apply Math_round_mono.
      change (inject_Z 10) with 10.
      assert (grams_total item / 1000 * 10 == grams_total item * (1 # 100)) as E by field.
      rewrite E. lra. }
    rewrite Zle_Qle in K. change (inject_Z 10) with 10 in K.
    assert (forall v, v / 10 == v * (1 # 10)) as D by (intro; field).
    rewrite D. lra.
  - destruct (String.eqb (si_food_id item) "chicken_breast"); [cbn; lia|].
    destruct (String.eqb (si_food_id item) "ground_beef_lean"); cbn; lia.
  - rewrite length_map. apply firstn_le_length.
  - intros name Hname. apply in_map_iff in Hname. destruct Hname as (r & <- & Hr).
    apply firstn_subset in Hr. apply filter_In in Hr. destruct Hr as [Hr Hb].
    unfold batchRecipe in Hb. apply andb_true_iff in Hb. destruct Hb as [Huses Htag].
    exists r. tauto.
Qed.

End ShoppingTools.

(* ================================================================== *)
(** ** Weekly volume and applied adjustments *)

Section VolumeAndAdjustments.

Lemma filter_twice {A : Type} (f : A -> bool) (l : list A) :
  filter f (filter f l) = filter f l.
Proof.
  induction l as [|x xs IH]; [reflexivity|].
  cbn [filter]. destruct (f x) eqn:E; [|exact IH].
  cbn [filter]. rewrite E, IH. reflexivity.
Qed.

(** X26. Only completed workouts count towards the weekly volume:
    dropping the workouts that are not marked completed changes none of
    its figures, neither session count exceeds the number of completed
    workouts, and the average exertion is left undefined exactly when
    no completed workout reports one. *)
Theorem calculateWeeklyVolume_completed_only (workouts : list WorkoutPlanDay) :
  let v := calculateWeeklyVolume workouts in
  let completedWorkouts := filter completedWorkout workouts in
  calculateWeeklyVolume completedWorkouts = v
  /\ (0 <= strength_sessions v <= Z.of_nat (List.length completedWorkouts))%Z
  /\ (0 <= cardio_sessions v <= Z.of_nat (List.length completedWorkouts))%Z
  /\ (volume_avg_rpe v = None
      <-> forall w, In w completedWorkouts -> rpeValue w == 0).
Proof.
  cbn zeta. unfold calculateWeeklyVolume.
  cbn [strength_sessions cardio_sessions volume_avg_rpe].
  rewrite filter_twice.
  split; [reflexivity|].
  split; [split; [lia | apply Nat2Z.inj_le; apply filter_length_le]|].
  split; [split; [lia | apply Nat2Z.inj_le; apply filter_length_le]|].
  set (done := filter completedWorkout workouts).
  destruct (filter (fun w => negb (Qeq_bool (rpeValue w) 0)) done) as [|x xs] eqn:E.
  - split; [|reflexivity]. intros _ w Hw.
    destruct (Qeq_bool (rpeValue w) 0) eqn:Ez; [apply Qeq_bool_iff; exact Ez|].
    exfalso.
    assert (In w (filter (fun w => negb (Qeq_bool (rpeValue w) 0)) done)) as K
        by (apply filter_In; split; [exact Hw | rewrite Ez; reflexivity]).
    rewrite E in K. exact K.
  - split; [discriminate|]. intro H. exfalso.
    assert (In x (filter (fun w => negb (Qeq_bool (rpeValue w) 0)) done)) as K
        by (rewrite E; left; reflexivity).
    apply filter_In in K. destruct K as [Hx Hn].
    apply negb_true_iff in Hn. apply Qeq_bool_false_neq in Hn. apply Hn. apply H. exact Hx.
Qed.

(** X27. The calorie adjustment that is applied is the one that was
    suggested: for the analysis [analyzeWeeklyProgress] returns,
    [applyAutomaticAdjustments] sets a new calorie target exactly when
    the analysis asks for a calorie adjustment, and applies the
    rapid-loss or the slow-loss rule exactly when the analysis carries
    the corresponding suggestion. *)
Theorem applied_adjustment_matches_suggestion
        (user : User) (measurements : list Measurement)
        (mealPlans : list MealPlanDay) (workouts : list WorkoutPlanDay)
        (currentRecords : PersonalRecords) (previousRecords : option PersonalRecords)
        (activityFactor : Q) (now : string) :
  let a := analyzeWeeklyProgress user measurements mealPlans workouts currentRecords
                                 previousRecords activityFactor now in
  let adj := applyAutomaticAdjustments user a activityFactor in
  (new_kcal_target adj = None <-> kcal_adjustment_needed a = false)
  /\ (In "weight_loss_too_fast" (applied_rules adj)
      <-> hasSuggestion "weight_loss_too_fast" a = true)
  /\ (In "weight_loss_too_slow" (applied_rules adj)
      <-> hasSuggestion "weight_loss_too_slow" a = true).
Proof.
  cbn zeta. unfold applyAutomaticAdjustments, analyzeWeeklyProgress, hasSuggestion.
  cbn [new_kcal_target applied_rules kcal_adjustment_needed weight_trend
       volume_adjustment_needed avg_rpe suggestions].
  destruct (classifyTrend measurements (calculateWeeklyWeightChange measurements 1));
    destruct (Qltb (goal_weight_kg user) (weight_kg user));
    cbn [WeightTrend_eqb andb orb app fst snd];
    repeat match goal with
           | |- context [if ?c then _ else _] => destruct c
           end;
    cbn; repeat split; intros; try discriminate; try tauto;
    repeat match goal with
           | H : _ \/ _ |- _ => destruct H
           end; try discriminate; try contradiction.
Qed.

End VolumeAndAdjustments.
